(** * DevTrail: the paginated aggregation engine of the two export scripts

    A shallow embedding of [github-collaboration-export.py] and
    [github-work-summary.py].  JSON objects returned by the GraphQL endpoint
    become records, Python lists become lists, the [set] of collaborators and
    of seen commit oids becomes a [gset string], exceptions become the
    [Raise] outcome, and the cursor loops become fuelled [while] loops over a
    monad that threads the log of requests sent to the endpoint. *)

From Stdlib Require Import ZArith List String Ascii Lia Permutation.
From stdpp Require Import base option list strings gmap sets.

Open Scope string_scope.
Open Scope list_scope.
Open Scope Z_scope.

(** ** Timestamps

    Every timestamp is compared through
    [datetime.fromisoformat(s.replace('Z', '+00:00'))].  The endpoint emits
    [YYYY-MM-DDTHH:MM:SSZ] and [main] builds [since_date] in the same shape,
    so [fromisoformat] is modelled on the 25-character form
    [YYYY-MM-DD?HH:MM:SS+HH:MM] (sign [+] or [-]); the value is the instant
    in seconds since 1970-01-01T00:00:00 UTC, which is what the comparison
    of two zone-aware [datetime] values compares.  Any other shape is a
    parse failure of the model. *)
Module Timestamp.

(** [str.replace(old, new)] for a one-character [old]. *)
Fixpoint replace (old : ascii) (new : string) (s : string) : string :=
  match s with
  | EmptyString => EmptyString
  | String c rest =>
      if Ascii.eqb c old then String.append new (replace old new rest)
      else String c (replace old new rest)
  end.

Definition digit (c : ascii) : option Z :=
  let n := Z.of_nat (nat_of_ascii c) in
  if (48 <=? n) && (n <=? 57) then Some (n - 48) else None.

(** The decimal number written in the [len] characters from [pos]. *)
Fixpoint number (len : nat) (pos : nat) (s : string) (acc : Z) : option Z :=
  match len with
  | O => Some acc
  | S len' =>
      c ← String.get pos s;
      d ← digit c;
      number len' (S pos) s (10 * acc + d)
  end.

Definition expect (pos : nat) (c : ascii) (s : string) : option unit :=
  c' ← String.get pos s;
  if Ascii.eqb c c' then Some tt else None.

Definition is_leap (y : Z) : bool :=
  (y mod 4 =? 0) && (negb (y mod 100 =? 0) || (y mod 400 =? 0)).

Definition days_in_month (y m : Z) : Z :=
  if m =? 2 then (if is_leap y then 29 else 28)
  else if (m =? 4) || (m =? 6) || (m =? 9) || (m =? 11) then 30
  else 31.

(** Days from 1970-01-01 to the given proleptic Gregorian date. *)
Definition days_from_civil (y m d : Z) : Z :=
  let y' := if m <=? 2 then y - 1 else y in
  let era := y' / 400 in
  let yoe := y' - era * 400 in
  let mp := if 2 <? m then m - 3 else m + 9 in
  let doy := (153 * mp + 2) / 5 + d - 1 in
  let doe := yoe * 365 + yoe / 4 - yoe / 100 + doy in
  era * 146097 + doe - 719468.

Definition within (lo hi x : Z) : option unit :=
  if (lo <=? x) && (x <=? hi) then Some tt else None.

Definition sign (pos : nat) (s : string) : option Z :=
  c ← String.get pos s;
  if Ascii.eqb c "+" then Some 1
  else if Ascii.eqb c "-" then Some (-1)
  else None.

Definition fromisoformat (s : string) : option Z :=
  if negb (Nat.eqb (String.length s) 25) then None else
  y ← number 4 0 s 0;
  _ ← expect 4 "-" s;
  m ← number 2 5 s 0;
  _ ← expect 7 "-" s;
  d ← number 2 8 s 0;
  hh ← number 2 11 s 0;
  _ ← expect 13 ":" s;
  mi ← number 2 14 s 0;
  _ ← expect 16 ":" s;
  ss ← number 2 17 s 0;
  sg ← sign 19 s;
  oh ← number 2 20 s 0;
  _ ← expect 22 ":" s;
  om ← number 2 23 s 0;
  _ ← within 1 9999 y;
  _ ← within 1 12 m;
  _ ← within 1 (days_in_month y m) d;
  _ ← within 0 23 hh;
  _ ← within 0 59 mi;
  _ ← within 0 59 ss;
  _ ← within 0 23 oh;
  _ ← within 0 59 om;
  Some (days_from_civil y m d * 86400 + hh * 3600 + mi * 60 + ss
        - sg * (oh * 3600 + om * 60)).

(** [datetime.fromisoformat(s.replace('Z', '+00:00'))] *)
Definition parse (s : string) : option Z :=
  fromisoformat (replace "Z" "+00:00" s).

End Timestamp.


(** ** Exceptions and outcomes *)

Inductive exn : Type :=
| QueryFailed (status_code : Z) (text : string)
    (* Exception("Query failed with status code ...") *)
| GraphQLErrors (errors : string)
    (* Exception("GraphQL query errors: ...") *)
| RepositoryNotFound (owner name : string)
    (* Exception("Repository ... not found or you don't have access to it.") *)
| ValueError (s : string)
    (* datetime.fromisoformat on a string it cannot parse *)
| TypeError
    (* subscripting the null repository of a response *)
| OSError (strerror : string).
    (* open(args.output, 'w') or the write of json.dump failing *)

(** What running a piece of the program gives: a value, an exception, or
    no answer within the fuel given to its [while] loops. *)
Inductive outcome (A : Type) : Type :=
| Return (a : A)
| Raise (e : exn)
| OutOfFuel.
Arguments Return {A} a.
Arguments Raise {A} e.
Arguments OutOfFuel {A}.

Definition obind {A B} (m : outcome A) (k : A -> outcome B) : outcome B :=
  match m with
  | Return a => k a
  | Raise e => Raise e
  | OutOfFuel => OutOfFuel
  end.

Declare Scope outcome_scope.
Delimit Scope outcome_scope with outcome.
Notation "x <~ m ;; k" := (obind m (fun x => k))
  (at level 100, m at next level, right associativity) : outcome_scope.

(** Result of one step of a loop body: go on with the next iteration
    (falling off the end of the body, or [continue]) or leave the loop
    ([break]). *)
Inductive flow (S : Type) : Type :=
| Next (s : S)
| Break (s : S).
Arguments Next {S} s.
Arguments Break {S} s.

(** [for x in xs: body], the loop variables gathered in [s]. *)
Fixpoint for_each {A S} (xs : list A) (body : A -> S -> outcome (flow S))
    (s : S) : outcome S :=
  match xs with
  | [] => Return s
  | x :: rest =>
      match body x s with
      | Return (Next s') => for_each rest body s'
      | Return (Break s') => Return s'
      | Raise e => Raise e
      | OutOfFuel => OutOfFuel
      end
  end.

(** [datetime.fromisoformat(s.replace('Z', '+00:00'))], raising on failure. *)
Definition fromisoformat_Z (s : string) : outcome Z :=
  match Timestamp.parse s with
  | Some t => Return t
  | None => Raise (ValueError s)
  end.

(** ** The GraphQL schema, as far as the queries select it *)

Module Actor.
Record t := { login : string }.
End Actor.

Module PageInfo.
Record t := { endCursor : option string; hasNextPage : bool }.
End PageInfo.

Module Connection.
Record t (A : Type) := { pageInfo : PageInfo.t; nodes : list A }.
Arguments pageInfo {A} _.
Arguments nodes {A} _.
End Connection.

Module Repository.
Record t := {
  nameWithOwner : string; name : string; description : option string;
  url : string; isPrivate : bool; isArchived : bool }.
End Repository.

Module ReviewComment.
Record t := {
  body : string; path : string; position : option Z; createdAt : string }.
End ReviewComment.

Module ReviewComments.
Record t := { totalCount : Z; nodes : list ReviewComment.t }.
End ReviewComments.

Module Review.
Record t := {
  state : string; body : string; createdAt : string; url : string;
  comments : ReviewComments.t }.
End Review.

(** A node of the [pullRequests] connection of [get_user_pr_reviews];
    [reviews] is [pr['reviews']['nodes']], which the endpoint restricts to
    reviews by [$username]. *)
Module ReviewedPR.
Record t := {
  number : Z; title : string; url : string; createdAt : string;
  author : option Actor.t; reviews : list Review.t }.
End ReviewedPR.

Module Comment.
Record t := {
  author : option Actor.t; body : string; createdAt : string;
  url : string }.
End Comment.

Module Comments.
Record t := { totalCount : Z; nodes : list Comment.t }.
End Comments.

(** A node of the [pullRequests] connection of [get_prs_with_user_comments]
    and [get_user_pr_comment_threads], and of the [issues] connection of
    [get_issue_discussions]: the three queries select the same fields. *)
Module Discussed.
Record t := {
  number : Z; title : string; url : string; createdAt : string;
  author : option Actor.t; comments : Comments.t }.
End Discussed.

(** A node of the [pullRequests] connection of [get_user_pull_requests]. *)
Module PullRequest.
Record t := {
  title : string; body : string; url : string; createdAt : string;
  closedAt : option string; mergedAt : option string; state : string;
  number : Z; author : option Actor.t;
  additions : Z; deletions : Z; changedFiles : Z }.
End PullRequest.

Module Commit.
Record t := {
  oid : string; message : string; committedDate : string; url : string;
  additions : Z; deletions : Z; changedFiles : Z; parents_totalCount : Z }.
End Commit.

(** [data] of the commit-history query: the repository may be null, and so
    may its [defaultBranchRef]. *)
Inductive CommitData : Type :=
| NoRepository
| NoDefaultBranchRef
| History (history : Connection.t Commit.t).

(** The query documents of the two scripts. *)
Inductive Query : Type :=
| RepositoryQuery      (* get_repository_info *)
| ReviewsQuery         (* get_user_pr_reviews *)
| CommentedQuery       (* get_prs_with_user_comments *)
| ThreadsQuery         (* get_user_pr_comment_threads *)
| IssuesQuery          (* get_issue_discussions *)
| PullRequestsQuery    (* get_user_pull_requests *)
| CommitsQuery.        (* get_user_commits *)

(** The type of [result['data']] for each query; [None] is a null
    [repository]. *)
Definition DataOf (q : Query) : Type :=
  match q with
  | RepositoryQuery => option Repository.t
  | ReviewsQuery => option (Connection.t ReviewedPR.t)
  | CommentedQuery => option (Connection.t Discussed.t)
  | ThreadsQuery => option (Connection.t Discussed.t)
  | IssuesQuery => option (Connection.t Discussed.t)
  | PullRequestsQuery => option (Connection.t PullRequest.t)
  | CommitsQuery => CommitData
  end.

(** The [variables] dict of a request. *)
Definition Variables : Type := list (string * option string).

(** What [requests.post] returns: the status, the raw text, and of the
    JSON body the [errors] key (if present) and the [data] key. *)
Module Response.
Record t (D : Type) := {
  status_code : Z; text : string; errors : option string; data : D }.
Arguments status_code {D} _.
Arguments text {D} _.
Arguments errors {D} _.
Arguments data {D} _.
End Response.

(** The remote endpoint: the answer to a query document with variables
    under a bearer token. *)
Definition Endpoint : Type :=
  forall q : Query, Variables -> string -> Response.t (DataOf q).

(** ** The request monad: outcomes over the log of requests sent *)

Definition Request : Type := (Query * Variables)%type.
Definition Log : Type := list Request.

Definition M (A : Type) : Type := Log -> outcome A * Log.

Definition ret {A} (a : A) : M A := fun log => (Return a, log).

Definition bind {A B} (m : M A) (k : A -> M B) : M B :=
  fun log =>
    match m log with
    | (Return a, log') => k a log'
    | (Raise e, log') => (Raise e, log')
    | (OutOfFuel, log') => (OutOfFuel, log')
    end.

Definition lift {A} (o : outcome A) : M A := fun log => (o, log).

Definition raise {A} (e : exn) : M A := lift (Raise e).

(** [try: m  except Exception as e: handler(e)] *)
Definition try_except {A} (m : M A) (handler : exn -> M A) : M A :=
  fun log =>
    match m log with
    | (Raise e, log') => handler e log'
    | r => r
    end.

Declare Scope M_scope.
Delimit Scope M_scope with M.
Notation "x <- m ;; k" := (bind m (fun x => k))
  (at level 100, m at next level, right associativity) : M_scope.

(** [while cond(s): body], the loop variables gathered in [s]; every
    iteration spends one unit of fuel. *)
Fixpoint while {S} (fuel : nat) (cond : S -> bool) (body : S -> M (flow S))
    (s : S) : M S :=
  if cond s then
    match fuel with
    | O => lift OutOfFuel
    | Datatypes.S fuel' =>
        bind (body s) (fun r =>
          match r with
          | Next s' => while fuel' cond body s'
          | Break s' => ret s'
          end)
    end
  else ret s.

(** ** Code common to the two scripts *)

Section Runner.
Context (endpoint : Endpoint).

(** [requests.post(url, headers=..., json={'query': query, 'variables':
    variables})]: the one effect of the program on the endpoint. *)
Definition requests_post (q : Query) (variables : Variables)
    (token : string) : M (Response.t (DataOf q)) :=
  fun log =>
    (Return (endpoint q variables token), log ++ [(q, variables)]).

Definition make_graphql_request (q : Query) (variables : Variables)
    (token : string) : M (DataOf q) :=
  (response <- requests_post q variables token ;;
   if negb (Response.status_code response =? 200) then
     raise (QueryFailed (Response.status_code response)
                        (Response.text response))
   else
     match Response.errors response with
     | Some errs => raise (GraphQLErrors errs)
     | None => ret (Response.data response)
     end)%M.

Definition get_repository_info (owner name token : string)
    : M Repository.t :=
  (let variables := [("owner", Some owner); ("name", Some name)] in
   data <- make_graphql_request RepositoryQuery variables token ;;
   match data with
   | None => raise (RepositoryNotFound owner name)
   | Some repository => ret repository
   end)%M.

(** [data['repository'][...]]: subscripting a null repository raises. *)
Definition repository_field {A} (data : option A) : M A :=
  match data with
  | Some connection => ret connection
  | None => raise TypeError
  end.

End Runner.

(** [x['author'] and x['author']['login'] == username]: [None] when the
    author is absent, else the comparison. *)
Definition author_and_login_eq (author : option Actor.t) (username : string)
    : option bool :=
  match author with
  | None => None
  | Some a => Some (String.eqb (Actor.login a) username)
  end.

(** [x['author'] and x['author']['login'] != username] *)
Definition author_and_login_ne (author : option Actor.t) (username : string)
    : option bool :=
  match author with
  | None => None
  | Some a => Some (negb (String.eqb (Actor.login a) username))
  end.

(** Truth value of [None], [True] and [False]. *)
Definition truthy (v : option bool) : bool :=
  match v with
  | Some b => b
  | None => false
  end.

(** [not x['author'] or x['author']['login'] != username] *)
Definition no_author_or_login_ne (author : option Actor.t)
    (username : string) : bool :=
  match author with
  | None => true
  | Some a => negb (String.eqb (Actor.login a) username)
  end.

(** [x['author']['login'] if x['author'] else 'Unknown'] *)
Definition login_or_Unknown (author : option Actor.t) : string :=
  match author with
  | Some a => Actor.login a
  | None => "Unknown"
  end.

(** Truth value of a list. *)
Definition nonempty {A} (l : list A) : bool :=
  match l with
  | [] => false
  | _ :: _ => true
  end.

(** [len(l)] *)
Definition len {A} (l : list A) : Z := Z.of_nat (length l).

(** [sum(f(x) for x in l)] *)
Definition sum {A} (f : A -> Z) (l : list A) : Z :=
  fold_left (fun total x => total + f x) l 0.

(** The variables of a cursor loop: the bucket under construction,
    [has_next_page] and [cursor]. *)
Module Paging.
Record t (A : Type) := {
  items : list A; has_next_page : bool; cursor : option string }.
Arguments items {A} _.
Arguments has_next_page {A} _.
Arguments cursor {A} _.
Definition start {A} : t A :=
  {| items := []; has_next_page := true; cursor := None |}.
(** "Check if we need to fetch more pages" *)
Definition advance {A} (items' : list A) (cursor0 : option string)
    (info : PageInfo.t) : t A :=
  if PageInfo.hasNextPage info then
    {| items := items'; has_next_page := true;
       cursor := PageInfo.endCursor info |}
  else
    {| items := items'; has_next_page := false; cursor := cursor0 |}.
End Paging.

(** ** github-collaboration-export.py *)

Module CollaborationExport.

(** An entry of [reviewed_prs]. *)
Module ReviewEntry.
Record t := {
  pr_number : Z; pr_title : string; pr_url : string; pr_author : string;
  review_state : string; review_body : string; review_url : string;
  created_at : string; review_comments : list ReviewComment.t;
  review_comments_count : Z }.
End ReviewEntry.

(** An entry of [commented_prs]. *)
Module CommentedEntry.
Record t := {
  pr_number : Z; pr_title : string; pr_url : string; pr_author : string;
  comments : list Comment.t; comment_count : Z }.
End CommentedEntry.

(** An element of [discussion_threads]. *)
Module Thread.
Record t := { comment : Comment.t; comment_author : string }.
End Thread.

(** An entry of [pr_threads]. *)
Module ThreadEntry.
Record t := {
  pr_number : Z; pr_title : string; pr_url : string; created_at : string;
  discussion_threads : list Thread.t; thread_count : Z }.
End ThreadEntry.

(** An entry of [discussed_issues]; [is_authored_by_user] is the value
    of an [and] expression, hence [None] for an absent author. *)
Module IssueEntry.
Record t := {
  issue_number : Z; issue_title : string; issue_url : string;
  issue_author : string; is_authored_by_user : option bool;
  comments : list Comment.t; comment_count : Z }.
End IssueEntry.

(** A Python [set] of strings, kept as the sequence of the [add] calls
    that built it, oldest first.  Its elements are those of the sequence
    and [len] counts each of them once.  The order in which [list(s)]
    enumerates them is left open by the language (in CPython it follows
    the hashes of the elements, which differ from process to process, and
    the order of insertion where hashes collide), so the enumeration is
    taken from the host: a function [listed] of the sequence of calls. *)
Module PySet.
Definition t : Type := list string.
Definition new : t := [].
Definition add (x : string) (s : t) : t := s ++ [x].
Definition elements (s : t) : gset string := list_to_set s.
Definition len (s : t) : Z := Z.of_nat (size (elements s)).
End PySet.

(** The dict returned by [get_collaboration_stats]. *)
Module Stats.
Record t := {
  unique_collaborators : Z;
  collaborator_list : list string;
  total_pr_reviews : Z;
  total_review_comments : Z;
  total_prs_commented_on : Z;
  total_pr_comments : Z;
  total_pr_discussion_threads : Z;
  total_issues_engaged_with : Z;
  total_issue_comments : Z;
  total_collaboration_touchpoints : Z }.
End Stats.

(** The [result] dict that [main] dumps to the output file. *)
Module Report.
Record t := {
  username : string;
  repository : Repository.t;
  generated_at : string;
  timeframe_days : Z;
  since_date : string;
  statistics : Stats.t;
  pr_reviews : list ReviewEntry.t;
  commented_prs : list CommentedEntry.t;
  pr_discussion_threads : list ThreadEntry.t;
  issue_discussions : list IssueEntry.t }.
End Report.

Definition pr_with_review (pr : ReviewedPR.t) (review : Review.t)
    : ReviewEntry.t :=
  {| ReviewEntry.pr_number := ReviewedPR.number pr;
     ReviewEntry.pr_title := ReviewedPR.title pr;
     ReviewEntry.pr_url := ReviewedPR.url pr;
     ReviewEntry.pr_author := login_or_Unknown (ReviewedPR.author pr);
     ReviewEntry.review_state := Review.state review;
     ReviewEntry.review_body := Review.body review;
     ReviewEntry.review_url := Review.url review;
     ReviewEntry.created_at := Review.createdAt review;
     ReviewEntry.review_comments :=
       ReviewComments.nodes (Review.comments review);
     ReviewEntry.review_comments_count :=
       ReviewComments.totalCount (Review.comments review) |}.

(** Body of [for review in reviews]. *)
Definition review_step (since_datetime : Z) (pr : ReviewedPR.t)
    (review : Review.t) (reviewed_prs : list ReviewEntry.t)
    : outcome (flow (list ReviewEntry.t)) :=
  (created_at <~ fromisoformat_Z (Review.createdAt review) ;;
   if since_datetime <=? created_at then
     Return (Next (reviewed_prs ++ [pr_with_review pr review]))
   else Return (Next reviewed_prs))%outcome.

(** Body of [for pr in prs] in [get_user_pr_reviews]. *)
Definition reviewed_pr_step (username : string) (since_datetime : Z)
    (pr : ReviewedPR.t) (reviewed_prs : list ReviewEntry.t)
    : outcome (flow (list ReviewEntry.t)) :=
  let reviews := ReviewedPR.reviews pr in
  if nonempty reviews then
    if no_author_or_login_ne (ReviewedPR.author pr) username then
      (reviewed_prs' <~
         for_each reviews (review_step since_datetime pr) reviewed_prs ;;
       Return (Next reviewed_prs'))%outcome
    else Return (Next reviewed_prs)
  else Return (Next reviewed_prs).

(** Body of [for comment in pr['comments']['nodes']] where the comments
    of the user since the cutoff are gathered (in
    [get_prs_with_user_comments] and [get_issue_discussions]). *)
Definition user_comment_step (username : string) (since_datetime : Z)
    (comment : Comment.t) (user_comments : list Comment.t)
    : outcome (flow (list Comment.t)) :=
  if truthy (author_and_login_eq (Comment.author comment) username) then
    (created_at <~ fromisoformat_Z (Comment.createdAt comment) ;;
     if since_datetime <=? created_at then
       Return (Next (user_comments ++ [comment]))
     else Return (Next user_comments))%outcome
  else Return (Next user_comments).

Definition commented_entry (pr : Discussed.t)
    (user_comments : list Comment.t) : CommentedEntry.t :=
  {| CommentedEntry.pr_number := Discussed.number pr;
     CommentedEntry.pr_title := Discussed.title pr;
     CommentedEntry.pr_url := Discussed.url pr;
     CommentedEntry.pr_author := login_or_Unknown (Discussed.author pr);
     CommentedEntry.comments := user_comments;
     CommentedEntry.comment_count := len user_comments |}.

(** Body of [for pr in prs] in [get_prs_with_user_comments]. *)
Definition commented_pr_step (username : string) (since_datetime : Z)
    (pr : Discussed.t) (commented_prs : list CommentedEntry.t)
    : outcome (flow (list CommentedEntry.t)) :=
  if truthy (author_and_login_eq (Discussed.author pr) username) then
    Return (Next commented_prs)                             (* continue *)
  else
    (user_comments <~
       for_each (Comments.nodes (Discussed.comments pr))
                (user_comment_step username since_datetime) [] ;;
     if nonempty user_comments then
       Return (Next (commented_prs ++ [commented_entry pr user_comments]))
     else Return (Next commented_prs))%outcome.

Definition thread_of (comment : Comment.t) (a : Actor.t) : Thread.t :=
  {| Thread.comment := comment; Thread.comment_author := Actor.login a |}.

(** Body of [for comment in pr['comments']['nodes']] in
    [get_user_pr_comment_threads]. *)
Definition thread_step (username : string) (since_datetime : Z)
    (comment : Comment.t) (discussion_threads : list Thread.t)
    : outcome (flow (list Thread.t)) :=
  match Comment.author comment with
  | Some a =>
      if negb (String.eqb (Actor.login a) username) then
        (comment_created_at <~
           fromisoformat_Z (Comment.createdAt comment) ;;
         if since_datetime <=? comment_created_at then
           Return (Next (discussion_threads ++ [thread_of comment a]))
         else Return (Next discussion_threads))%outcome
      else Return (Next discussion_threads)
  | None => Return (Next discussion_threads)
  end.

Definition thread_entry (pr : Discussed.t)
    (discussion_threads : list Thread.t) : ThreadEntry.t :=
  {| ThreadEntry.pr_number := Discussed.number pr;
     ThreadEntry.pr_title := Discussed.title pr;
     ThreadEntry.pr_url := Discussed.url pr;
     ThreadEntry.created_at := Discussed.createdAt pr;
     ThreadEntry.discussion_threads := discussion_threads;
     ThreadEntry.thread_count := len discussion_threads |}.

(** Body of [for pr in prs] in [get_user_pr_comment_threads]. *)
Definition thread_pr_step (username : string) (since_datetime : Z)
    (pr : Discussed.t) (pr_threads : list ThreadEntry.t)
    : outcome (flow (list ThreadEntry.t)) :=
  if no_author_or_login_ne (Discussed.author pr) username then
    Return (Next pr_threads)                                (* continue *)
  else
    (created_at <~ fromisoformat_Z (Discussed.createdAt pr) ;;
     if since_datetime <=? created_at then
       (discussion_threads <~
          for_each (Comments.nodes (Discussed.comments pr))
                   (thread_step username since_datetime) [] ;;
        if nonempty discussion_threads then
          Return (Next (pr_threads ++ [thread_entry pr discussion_threads]))
        else Return (Next pr_threads))
     else Return (Next pr_threads))%outcome.

Definition issue_entry (username : string) (issue : Discussed.t)
    (user_comments : list Comment.t) : IssueEntry.t :=
  {| IssueEntry.issue_number := Discussed.number issue;
     IssueEntry.issue_title := Discussed.title issue;
     IssueEntry.issue_url := Discussed.url issue;
     IssueEntry.issue_author := login_or_Unknown (Discussed.author issue);
     IssueEntry.is_authored_by_user :=
       author_and_login_eq (Discussed.author issue) username;
     IssueEntry.comments := user_comments;
     IssueEntry.comment_count := len user_comments |}.

(** Body of [for issue in issues] in [get_issue_discussions]. *)
Definition issue_step (username : string) (since_datetime : Z)
    (issue : Discussed.t) (discussed_issues : list IssueEntry.t)
    : outcome (flow (list IssueEntry.t)) :=
  (let is_authored_by_user :=
     author_and_login_eq (Discussed.author issue) username in
   issue_created_at <~ fromisoformat_Z (Discussed.createdAt issue) ;;
   user_comments <~
     for_each (Comments.nodes (Discussed.comments issue))
              (user_comment_step username since_datetime) [] ;;
   if (truthy is_authored_by_user && (since_datetime <=? issue_created_at))
      || nonempty user_comments then
     Return (Next (discussed_issues
                     ++ [issue_entry username issue user_comments]))
   else Return (Next discussed_issues))%outcome.

Section Fetch.
Context (endpoint : Endpoint).

Definition get_user_pr_reviews (fuel : nat)
    (username owner name token since_date : string)
    : M (list ReviewEntry.t) :=
  (since_datetime <- lift (fromisoformat_Z since_date) ;;
   final <- while fuel Paging.has_next_page (fun s =>
     let variables :=
       [("owner", Some owner); ("name", Some name);
        ("username", Some username); ("cursor", Paging.cursor s)] in
     data <- make_graphql_request endpoint ReviewsQuery variables token ;;
     pullRequests <- repository_field data ;;
     let prs := Connection.nodes pullRequests in
     reviewed_prs <-
       lift (for_each prs (reviewed_pr_step username since_datetime)
                      (Paging.items s)) ;;
     ret (Next (Paging.advance reviewed_prs (Paging.cursor s)
                  (Connection.pageInfo pullRequests))))
     Paging.start ;;
   ret (Paging.items final))%M.

Definition get_prs_with_user_comments (fuel : nat)
    (username owner name token since_date : string)
    : M (list CommentedEntry.t) :=
  (since_datetime <- lift (fromisoformat_Z since_date) ;;
   final <- while fuel Paging.has_next_page (fun s =>
     let variables :=
       [("owner", Some owner); ("name", Some name);
        ("cursor", Paging.cursor s)] in
     data <-
       make_graphql_request endpoint CommentedQuery variables token ;;
     pullRequests <- repository_field data ;;
     let prs := Connection.nodes pullRequests in
     commented_prs <-
       lift (for_each prs (commented_pr_step username since_datetime)
                      (Paging.items s)) ;;
     ret (Next (Paging.advance commented_prs (Paging.cursor s)
                  (Connection.pageInfo pullRequests))))
     Paging.start ;;
   ret (Paging.items final))%M.

Definition get_user_pr_comment_threads (fuel : nat)
    (username owner name token since_date : string)
    : M (list ThreadEntry.t) :=
  (since_datetime <- lift (fromisoformat_Z since_date) ;;
   final <- while fuel Paging.has_next_page (fun s =>
     let variables :=
       [("owner", Some owner); ("name", Some name);
        ("cursor", Paging.cursor s)] in
     data <- make_graphql_request endpoint ThreadsQuery variables token ;;
     pullRequests <- repository_field data ;;
     let prs := Connection.nodes pullRequests in
     pr_threads <-
       lift (for_each prs (thread_pr_step username since_datetime)
                      (Paging.items s)) ;;
     ret (Next (Paging.advance pr_threads (Paging.cursor s)
                  (Connection.pageInfo pullRequests))))
     Paging.start ;;
   ret (Paging.items final))%M.

Definition get_issue_discussions (fuel : nat)
    (username owner name token since_date : string)
    : M (list IssueEntry.t) :=
  (since_datetime <- lift (fromisoformat_Z since_date) ;;
   final <- while fuel Paging.has_next_page (fun s =>
     let variables :=
       [("owner", Some owner); ("name", Some name);
        ("cursor", Paging.cursor s)] in
     data <- make_graphql_request endpoint IssuesQuery variables token ;;
     issues_connection <- repository_field data ;;
     let issues := Connection.nodes issues_connection in
     discussed_issues <-
       lift (for_each issues (issue_step username since_datetime)
                      (Paging.items s)) ;;
     ret (Next (Paging.advance discussed_issues (Paging.cursor s)
                  (Connection.pageInfo issues_connection))))
     Paging.start ;;
   ret (Paging.items final))%M.

End Fetch.

(** [collaborators.add(x)] under the guard [x != 'Unknown'] *)
Definition add_unless_Unknown (x : string) (collaborators : PySet.t)
    : PySet.t :=
  if negb (String.eqb x "Unknown") then PySet.add x collaborators
  else collaborators.

(** The set [collaborators] of [get_collaboration_stats] once its four
    loops have run.  The entries are the dicts built by the four fetches,
    which carry every key read here, so [d.get(k, default)] is the field
    [k]. *)
Definition collaborators
    (pr_reviews : list ReviewEntry.t)
    (commented_prs : list CommentedEntry.t)
    (pr_threads : list ThreadEntry.t)
    (issue_discussions : list IssueEntry.t) : PySet.t :=
  let collaborators := PySet.new in
  (* From PR reviews *)
  let collaborators :=
    fold_left (fun collaborators review =>
                 add_unless_Unknown (ReviewEntry.pr_author review)
                                    collaborators)
              pr_reviews collaborators in
  (* From PR comments *)
  let collaborators :=
    fold_left (fun collaborators pr =>
                 add_unless_Unknown (CommentedEntry.pr_author pr)
                                    collaborators)
              commented_prs collaborators in
  (* From PR threads *)
  let collaborators :=
    fold_left (fun collaborators pr =>
                 fold_left (fun collaborators thread =>
                              add_unless_Unknown
                                (Thread.comment_author thread)
                                collaborators)
                           (ThreadEntry.discussion_threads pr)
                           collaborators)
              pr_threads collaborators in
  (* From issues *)
  fold_left (fun collaborators issue =>
               if negb (String.eqb (IssueEntry.issue_author issue)
                                   "Unknown")
                  && negb (truthy (IssueEntry.is_authored_by_user issue))
               then PySet.add (IssueEntry.issue_author issue) collaborators
               else collaborators)
            issue_discussions collaborators.

(** [listed] is what [list(collaborators)] gives on this host. *)
Definition get_collaboration_stats (listed : PySet.t -> list string)
    (pr_reviews : list ReviewEntry.t)
    (commented_prs : list CommentedEntry.t)
    (pr_threads : list ThreadEntry.t)
    (issue_discussions : list IssueEntry.t) : Stats.t :=
  let collaborators :=
    collaborators pr_reviews commented_prs pr_threads issue_discussions in
  (* Calculate engagement metrics *)
  let total_review_comments :=
    sum ReviewEntry.review_comments_count pr_reviews in
  let total_pr_comments := sum CommentedEntry.comment_count commented_prs in
  let total_thread_replies := sum ThreadEntry.thread_count pr_threads in
  let total_issue_comments :=
    sum IssueEntry.comment_count issue_discussions in
  {| Stats.unique_collaborators := PySet.len collaborators;
     Stats.collaborator_list := listed collaborators;
     Stats.total_pr_reviews := len pr_reviews;
     Stats.total_review_comments := total_review_comments;
     Stats.total_prs_commented_on := len commented_prs;
     Stats.total_pr_comments := total_pr_comments;
     Stats.total_pr_discussion_threads := total_thread_replies;
     Stats.total_issues_engaged_with := len issue_discussions;
     Stats.total_issue_comments := total_issue_comments;
     Stats.total_collaboration_touchpoints :=
       len pr_reviews + total_review_comments + total_pr_comments
       + total_thread_replies + total_issue_comments |}.

(** How a run of [main] ends once the arguments, the user name and the
    token are in hand: the report dumped to the output file, or
    [sys.exit(1)] from the [except Exception] handler, on the exception
    it caught; [NoAnswer] when the fuel ran out. *)
Inductive Run : Type :=
| Wrote (result : Report.t)
| Exit1 (e : exn)
| NoAnswer.

Section Main.
Context (endpoint : Endpoint).
(** What [list(collaborators)] gives, and the exception, if any, that
    [open(args.output, 'w')] or [json.dump] raises on this host. *)
Context (listed : PySet.t -> list string) (write_failure : option exn).

(** The [try] block of [main] up to [result]. *)
Definition main_try (fuel : nat)
    (username owner name token since_date : string)
    (timeframe : Z) (generated_at : string) : M Report.t :=
  (repository <- get_repository_info endpoint owner name token ;;
   pr_reviews <-
     get_user_pr_reviews endpoint fuel username owner name token
                         since_date ;;
   commented_prs <-
     get_prs_with_user_comments endpoint fuel username owner name token
                                since_date ;;
   pr_threads <-
     get_user_pr_comment_threads endpoint fuel username owner name token
                                 since_date ;;
   issue_discussions <-
     get_issue_discussions endpoint fuel username owner name token
                           since_date ;;
   let collaboration_stats :=
     get_collaboration_stats listed pr_reviews commented_prs pr_threads
                             issue_discussions in
   ret {| Report.username := username;
          Report.repository := repository;
          Report.generated_at := generated_at;
          Report.timeframe_days := timeframe;
          Report.since_date := since_date;
          Report.statistics := collaboration_stats;
          Report.pr_reviews := pr_reviews;
          Report.commented_prs := commented_prs;
          Report.pr_discussion_threads := pr_threads;
          Report.issue_discussions := issue_discussions |})%M.

Definition main (fuel : nat)
    (username owner name token since_date : string)
    (timeframe : Z) (generated_at : string) : Run * Log :=
  match main_try fuel username owner name token since_date timeframe
                 generated_at [] with
  | (Return result, log) =>
      (* with open(args.output, 'w') as f: json.dump(result, f, indent=2) *)
      match write_failure with
      | None => (Wrote result, log)
      | Some e => (Exit1 e, log)
      end
  | (Raise e, log) => (Exit1 e, log)
  | (OutOfFuel, log) => (NoAnswer, log)
  end.

End Main.

End CollaborationExport.

(** [for x in xs: body] where the body sends requests. *)
Fixpoint for_each_M {A S} (xs : list A) (body : A -> S -> M S) (s : S)
    : M S :=
  match xs with
  | [] => ret s
  | x :: rest => bind (body x s) (for_each_M rest body)
  end.

(** ** github-work-summary.py *)

Module WorkSummary.

(** The loop variables of [get_user_pull_requests]. *)
Module PRLoop.
Record t := {
  all_prs : list PullRequest.t; has_next_page : bool;
  cursor : option string; continue_fetching : bool }.
Definition start : t :=
  {| all_prs := []; has_next_page := true; cursor := None;
     continue_fetching := true |}.
End PRLoop.

(** Body of [for pr in prs] in [get_user_pull_requests]; the state is
    [(all_prs, continue_fetching)]. *)
Definition pr_step (username : string) (since_datetime : Z)
    (pr : PullRequest.t) (s : list PullRequest.t * bool)
    : outcome (flow (list PullRequest.t * bool)) :=
  (let '(all_prs, continue_fetching) := s in
   created_at <~ fromisoformat_Z (PullRequest.createdAt pr) ;;
   if truthy (author_and_login_eq (PullRequest.author pr) username)
      && (since_datetime <=? created_at) then
     Return (Next (all_prs ++ [pr], continue_fetching))
   else if created_at <? since_datetime then
     Return (Break (all_prs, false))
   else Return (Next (all_prs, continue_fetching)))%outcome.

(** The loop variables of the [while] of [get_user_commits]. *)
Module CommitLoop.
Record t := {
  all_commits : list Commit.t; has_next_page : bool;
  cursor : option string }.
End CommitLoop.

(** The state of "Remove duplicates based on commit OID (SHA)". *)
Module Dedup.
Record t := { unique_commits : list Commit.t; seen_oids : gset string }.
Definition start : t := {| unique_commits := []; seen_oids := ∅ |}.
End Dedup.

(** Body of [for commit in all_commits]. *)
Definition dedup_step (s : Dedup.t) (commit : Commit.t) : Dedup.t :=
  if decide (Commit.oid commit ∈ Dedup.seen_oids s) then s
  else
    {| Dedup.seen_oids := {[ Commit.oid commit ]} ∪ Dedup.seen_oids s;
       Dedup.unique_commits := Dedup.unique_commits s ++ [commit] |}.

Definition remove_duplicates (all_commits : list Commit.t)
    : list Commit.t :=
  Dedup.unique_commits (fold_left dedup_step all_commits Dedup.start).

Module Statistics.
Record t := { total_pull_requests : Z; total_commits : Z }.
End Statistics.

(** The [result] dict that [main] dumps to the output file. *)
Module Report.
Record t := {
  username : string;
  repository : Repository.t;
  generated_at : string;
  timeframe_days : Z;
  since_date : string;
  statistics : Statistics.t;
  pull_requests : list PullRequest.t;
  commits : list Commit.t }.
End Report.

Inductive Run : Type :=
| Wrote (result : Report.t)
| Exit1 (e : exn)
| NoAnswer.

Section Fetch.
Context (endpoint : Endpoint).
(** The exception, if any, that [open(args.output, 'w')] or [json.dump]
    raises on this host. *)
Context (write_failure : option exn).

Definition get_user_pull_requests (fuel : nat)
    (username owner name token since_date : string)
    : M (list PullRequest.t) :=
  (since_datetime <- lift (fromisoformat_Z since_date) ;;
   final <- while fuel
     (fun s => PRLoop.has_next_page s && PRLoop.continue_fetching s)
     (fun s =>
       let variables :=
         [("owner", Some owner); ("name", Some name);
          ("cursor", PRLoop.cursor s)] in
       data <-
         make_graphql_request endpoint PullRequestsQuery variables
                              token ;;
       pullRequests <- repository_field data ;;
       let prs := Connection.nodes pullRequests in
       r <- lift (for_each prs (pr_step username since_datetime)
                           (PRLoop.all_prs s,
                            PRLoop.continue_fetching s)) ;;
       let '(all_prs, continue_fetching) := r in
       let info := Connection.pageInfo pullRequests in
       if continue_fetching && PageInfo.hasNextPage info then
         ret (Next {| PRLoop.all_prs := all_prs;
                      PRLoop.has_next_page := PRLoop.has_next_page s;
                      PRLoop.cursor := PageInfo.endCursor info;
                      PRLoop.continue_fetching := continue_fetching |})
       else
         ret (Next {| PRLoop.all_prs := all_prs;
                      PRLoop.has_next_page := false;
                      PRLoop.cursor := PRLoop.cursor s;
                      PRLoop.continue_fetching := continue_fetching |}))
     PRLoop.start ;;
   ret (PRLoop.all_prs final))%M.

(** Body of [while has_next_page] in [get_user_commits], for the probe
    with author [email]. *)
Definition commit_page_step (owner name token since_date email : string)
    (s : CommitLoop.t) : M (flow CommitLoop.t) :=
  let variables :=
    [("owner", Some owner); ("name", Some name); ("author", Some email);
     ("since", Some since_date); ("cursor", CommitLoop.cursor s)] in
  try_except
    (data <- make_graphql_request endpoint CommitsQuery variables token ;;
     match data with
     | NoRepository => ret (Break s)
     | NoDefaultBranchRef => ret (Break s)
     | History commit_history =>
         let commits := Connection.nodes commit_history in
         let info := Connection.pageInfo commit_history in
         let has_next_page := PageInfo.hasNextPage info in
         ret (Next
           {| CommitLoop.all_commits := CommitLoop.all_commits s ++ commits;
              CommitLoop.has_next_page := has_next_page;
              CommitLoop.cursor :=
                if has_next_page then PageInfo.endCursor info
                else CommitLoop.cursor s |})
     end)%M
    (fun e =>
       (* print(f"Error fetching commits with author {email}: {e}") *)
       ret (Next {| CommitLoop.all_commits := CommitLoop.all_commits s;
                    CommitLoop.has_next_page := false;
                    CommitLoop.cursor := CommitLoop.cursor s |})).

(** Body of [for email in email_formats]. *)
Definition probe (fuel : nat) (owner name token since_date : string)
    (email : string) (all_commits : list Commit.t)
    : M (list Commit.t) :=
  (final <- while fuel CommitLoop.has_next_page
     (commit_page_step owner name token since_date email)
     {| CommitLoop.all_commits := all_commits;
        CommitLoop.has_next_page := true;
        CommitLoop.cursor := None |} ;;
   ret (CommitLoop.all_commits final))%M.

Definition email_formats (username : string) : list string :=
  [String.append username "@users.noreply.github.com"; username].

Definition get_user_commits (fuel : nat)
    (username owner name token since_date : string)
    : M (list Commit.t) :=
  (all_commits <-
     for_each_M (email_formats username)
                (probe fuel owner name token since_date) [] ;;
   ret (remove_duplicates all_commits))%M.

(** The [try] block of [main] up to [result]. *)
Definition main_try (fuel : nat)
    (username owner name token since_date : string)
    (timeframe : Z) (generated_at : string) : M Report.t :=
  (repository <- get_repository_info endpoint owner name token ;;
   pull_requests <-
     get_user_pull_requests fuel username owner name token since_date ;;
   commits <-
     get_user_commits fuel username owner name token since_date ;;
   ret {| Report.username := username;
          Report.repository := repository;
          Report.generated_at := generated_at;
          Report.timeframe_days := timeframe;
          Report.since_date := since_date;
          Report.statistics :=
            {| Statistics.total_pull_requests := len pull_requests;
               Statistics.total_commits := len commits |};
          Report.pull_requests := pull_requests;
          Report.commits := commits |})%M.

Definition main (fuel : nat)
    (username owner name token since_date : string)
    (timeframe : Z) (generated_at : string) : Run * Log :=
  match main_try fuel username owner name token since_date timeframe
                 generated_at [] with
  | (Return result, log) =>
      (* with open(args.output, 'w') as f: json.dump(result, f, indent=2) *)
      match write_failure with
      | None => (Wrote result, log)
      | Some e => (Exit1 e, log)
      end
  | (Raise e, log) => (Exit1 e, log)
  | (OutOfFuel, log) => (NoAnswer, log)
  end.

End Fetch.

End WorkSummary.

(** ** The setup of [main]

    What both programs do between [parse_arguments] and the [try] block:
    the split of [--repo] and the cutoff built from the clock. *)
Module Setup.

(** [s.split(sep)] for a one-character [sep]: the pieces between the
    occurrences of [sep], empty pieces included. *)
Fixpoint split (sep : ascii) (s : string) : list string :=
  match s with
  | EmptyString => [EmptyString]
  | String c rest =>
      if Ascii.eqb c sep then EmptyString :: split sep rest
      else
        match split sep rest with
        | piece :: pieces => String c piece :: pieces
        | [] => [String c EmptyString]
        end
  end.

(** [owner, name = args.repo.split('/')]: the unpacking raises
    [ValueError] unless there are exactly two pieces, and [main] then
    prints "Repository must be in the format 'owner/name'" and exits with
    status 1, which is [None] here. *)
Definition owner_and_name (repo : string) : option (string * string) :=
  match split "/" repo with
  | [owner; name] => Some (owner, name)
  | _ => None
  end.

(** The fields of a [datetime] that [strftime] reads below. *)
Module Datetime.
Record t := { year : Z; month : Z; day : Z }.
End Datetime.

(** The character of a decimal digit. *)
Definition digit_char (d : Z) : ascii := ascii_of_nat (Z.to_nat (48 + d)).

(** The last [width] decimal digits of [n], as [%m] and [%d] print a
    month and a day ([width] 2) and [%Y] a year from 1000 on
    ([width] 4). *)
Fixpoint zero_padded (width : nat) (n : Z) : string :=
  match width with
  | O => EmptyString
  | S width' =>
      String (digit_char (n / 10 ^ Z.of_nat width' mod 10))
             (zero_padded width' n)
  end.

(** [past.strftime('%Y-%m-%dT00:00:00Z')], where [past] is
    [datetime.now() - timedelta(days=args.timeframe)]. *)
Definition since_date (past : Datetime.t) : string :=
  String.append (zero_padded 4 (Datetime.year past))
    (String.append "-"
       (String.append (zero_padded 2 (Datetime.month past))
          (String.append "-"
             (String.append (zero_padded 2 (Datetime.day past))
                            "T00:00:00Z")))).

End Setup.

(** * Vocabulary of the properties *)

(** The Date-Boundary Filter on a timestamp string: it parses, to an
    instant not before the cutoff. *)
Definition passes (since_datetime : Z) (timestamp : string) : Prop :=
  exists t, Timestamp.parse timestamp = Some t /\ since_datetime <= t.

(** The timestamp parses to an instant before the cutoff. *)
Definition older (since_datetime : Z) (timestamp : string) : Prop :=
  exists t, Timestamp.parse timestamp = Some t /\ t < since_datetime.

(** What [make_graphql_request] makes of a response. *)
Definition checked {D} (response : Response.t D) : outcome D :=
  if negb (Response.status_code response =? 200) then
    Raise (QueryFailed (Response.status_code response)
                       (Response.text response))
  else
    match Response.errors response with
    | Some errs => Raise (GraphQLErrors errs)
    | None => Return (Response.data response)
    end.

(** The runner fails on a request: [make_graphql_request] raises. *)
Definition fails (endpoint : Endpoint) (token : string) (r : Request)
    : Prop :=
  exists e, checked (endpoint (fst r) (snd r) token) = Raise e.

(** The contributions of the elements of a list, in order, when each
    element contributes a list or fails. *)
Fixpoint collect {A B} (g : A -> outcome (list B)) (xs : list A)
    : outcome (list B) :=
  match xs with
  | [] => Return []
  | x :: rest =>
      (l <~ g x ;; ls <~ collect g rest ;; Return (l ++ ls))%outcome
  end.

(** Commits carrying the oid [k]. *)
Definition oid_is (k : string) (c : Commit.t) : bool :=
  String.eqb (Commit.oid c) k.

(** The position in [l] of the first record with oid [k]. *)
Fixpoint first_index (k : string) (l : list Commit.t) : option nat :=
  match l with
  | [] => None
  | c :: rest =>
      if oid_is k c then Some O else option_map S (first_index k rest)
  end.

(** What the loop over [all_commits] maintains, [l] being the commits
    gone through so far. *)
Record dedup_inv (l : list Commit.t) (s : WorkSummary.Dedup.t) : Prop := {
  inv_seen : forall k,
    k ∈ WorkSummary.Dedup.seen_oids s <-> k ∈ map Commit.oid l;
  inv_keys : forall k,
    k ∈ map Commit.oid (WorkSummary.Dedup.unique_commits s)
    <-> k ∈ map Commit.oid l;
  inv_nodup : NoDup (map Commit.oid (WorkSummary.Dedup.unique_commits s));
  inv_first : forall c,
    c ∈ WorkSummary.Dedup.unique_commits s ->
    find (oid_is (Commit.oid c)) l = Some c;
  inv_order : sublist (WorkSummary.Dedup.unique_commits s) l }.

(** The body of a cursor loop that walks a whole feed. *)
Definition page_body {N E}
    (request : option string -> M (option (Connection.t N)))
    (step : N -> list E -> outcome (flow (list E)))
    (s : Paging.t E) : M (flow (Paging.t E)) :=
  (data <- request (Paging.cursor s) ;;
   connection <- repository_field data ;;
   items <- lift (for_each (Connection.nodes connection) step
                           (Paging.items s)) ;;
   ret (Next (Paging.advance items (Paging.cursor s)
                (Connection.pageInfo connection))))%M.

Definition paged_fetch {N E} (fuel : nat)
    (request : option string -> M (option (Connection.t N)))
    (step : N -> list E -> outcome (flow (list E))) : M (Paging.t E) :=
  while fuel Paging.has_next_page (page_body request step) Paging.start.

(** The Date-Boundary Filter as a boolean. *)
Definition passesb (since_datetime : Z) (timestamp : string) : bool :=
  match Timestamp.parse timestamp with
  | Some t => since_datetime <=? t
  | None => false
  end.

(** The record's author is present and is the target user. *)
Definition is_user (author : option Actor.t) (username : string) : bool :=
  truthy (author_and_login_eq author username).

(** The record's author is present and is not the target user. *)
Definition is_other (author : option Actor.t) (username : string) : bool :=
  truthy (author_and_login_ne author username).

(** What one review adds to [reviewed_prs]. *)
Definition review_contribution (since_datetime : Z) (pr : ReviewedPR.t)
    (review : Review.t) : outcome (list CollaborationExport.ReviewEntry.t) :=
  (created_at <~ fromisoformat_Z (Review.createdAt review) ;;
   Return (if since_datetime <=? created_at
           then [CollaborationExport.pr_with_review pr review]
           else []))%outcome.

(** What one pull request adds to [reviewed_prs]. *)
Definition reviewed_pr_contribution (username : string) (since_datetime : Z)
    (pr : ReviewedPR.t) : outcome (list CollaborationExport.ReviewEntry.t) :=
  if nonempty (ReviewedPR.reviews pr)
     && no_author_or_login_ne (ReviewedPR.author pr) username
  then collect (review_contribution since_datetime pr) (ReviewedPR.reviews pr)
  else Return [].

(** What one comment adds to [user_comments]. *)
Definition user_comment_contribution (username : string)
    (since_datetime : Z) (comment : Comment.t) : outcome (list Comment.t) :=
  if is_user (Comment.author comment) username then
    (created_at <~ fromisoformat_Z (Comment.createdAt comment) ;;
     Return (if since_datetime <=? created_at then [comment] else []))%outcome
  else Return [].

(** The comments of the target user that pass the filter. *)
Definition user_comments_since (username : string) (since_datetime : Z)
    (comments : list Comment.t) : list Comment.t :=
  List.filter (fun comment =>
                 is_user (Comment.author comment) username
                 && passesb since_datetime (Comment.createdAt comment))
              comments.

(** What one pull request adds to [commented_prs]. *)
Definition commented_pr_contribution (username : string)
    (since_datetime : Z) (pr : Discussed.t)
    : outcome (list CollaborationExport.CommentedEntry.t) :=
  if is_user (Discussed.author pr) username then Return []
  else
    (user_comments <~
       collect (user_comment_contribution username since_datetime)
               (Comments.nodes (Discussed.comments pr)) ;;
     Return (if nonempty user_comments
             then [CollaborationExport.commented_entry pr user_comments]
             else []))%outcome.

(** What one comment adds to [discussion_threads]. *)
Definition thread_contribution (username : string) (since_datetime : Z)
    (comment : Comment.t) : outcome (list CollaborationExport.Thread.t) :=
  match Comment.author comment with
  | Some a =>
      if negb (String.eqb (Actor.login a) username) then
        (created_at <~ fromisoformat_Z (Comment.createdAt comment) ;;
         Return (if since_datetime <=? created_at
                 then [CollaborationExport.thread_of comment a]
                 else []))%outcome
      else Return []
  | None => Return []
  end.

(** The threads of one comment: the comment itself when its author is
    present, is not the target user, and the comment passes the filter. *)
Definition threads_of_comment (username : string) (since_datetime : Z)
    (comment : Comment.t) : list CollaborationExport.Thread.t :=
  match Comment.author comment with
  | Some a =>
      if negb (String.eqb (Actor.login a) username)
         && passesb since_datetime (Comment.createdAt comment)
      then [CollaborationExport.thread_of comment a]
      else []
  | None => []
  end.

Definition threads_since (username : string) (since_datetime : Z)
    (comments : list Comment.t) : list CollaborationExport.Thread.t :=
  flat_map (threads_of_comment username since_datetime) comments.

(** What one pull request adds to [pr_threads]. *)
Definition thread_pr_contribution (username : string) (since_datetime : Z)
    (pr : Discussed.t) : outcome (list CollaborationExport.ThreadEntry.t) :=
  if no_author_or_login_ne (Discussed.author pr) username then Return []
  else
    (created_at <~ fromisoformat_Z (Discussed.createdAt pr) ;;
     if since_datetime <=? created_at then
       (discussion_threads <~
          collect (thread_contribution username since_datetime)
                  (Comments.nodes (Discussed.comments pr)) ;;
        Return (if nonempty discussion_threads
                then [CollaborationExport.thread_entry pr discussion_threads]
                else []))
     else Return [])%outcome.

(** What one issue adds to [discussed_issues]. *)
Definition issue_contribution (username : string) (since_datetime : Z)
    (issue : Discussed.t) : outcome (list CollaborationExport.IssueEntry.t) :=
  (issue_created_at <~ fromisoformat_Z (Discussed.createdAt issue) ;;
   user_comments <~
     collect (user_comment_contribution username since_datetime)
             (Comments.nodes (Discussed.comments issue)) ;;
   Return (if (is_user (Discussed.author issue) username
               && (since_datetime <=? issue_created_at))
              || nonempty user_comments
           then [CollaborationExport.issue_entry username issue user_comments]
           else []))%outcome.

(** The entries of [reviewed_prs] that come from one pull request:
    one for each of its reviews that passes the filter, unless the pull
    request is the target user's own. *)
Definition reviewed_pr_entries (username : string) (since_datetime : Z)
    (pr : ReviewedPR.t) : list CollaborationExport.ReviewEntry.t :=
  if no_author_or_login_ne (ReviewedPR.author pr) username then
    map (CollaborationExport.pr_with_review pr)
        (List.filter (fun review =>
                        passesb since_datetime (Review.createdAt review))
                     (ReviewedPR.reviews pr))
  else [].

(** The entries of [commented_prs] that come from one pull request. *)
Definition commented_pr_entries (username : string) (since_datetime : Z)
    (pr : Discussed.t) : list CollaborationExport.CommentedEntry.t :=
  let user_comments :=
    user_comments_since username since_datetime
                        (Comments.nodes (Discussed.comments pr)) in
  if negb (is_user (Discussed.author pr) username) && nonempty user_comments
  then [CollaborationExport.commented_entry pr user_comments]
  else [].

(** The entries of [pr_threads] that come from one pull request. *)
Definition thread_pr_entries (username : string) (since_datetime : Z)
    (pr : Discussed.t) : list CollaborationExport.ThreadEntry.t :=
  let discussion_threads :=
    threads_since username since_datetime
                  (Comments.nodes (Discussed.comments pr)) in
  if is_user (Discussed.author pr) username
     && passesb since_datetime (Discussed.createdAt pr)
     && nonempty discussion_threads
  then [CollaborationExport.thread_entry pr discussion_threads]
  else [].

(** The condition under which an issue enters [discussed_issues]. *)
Definition issue_qualifies (username : string) (since_datetime : Z)
    (issue : Discussed.t) : bool :=
  (is_user (Discussed.author issue) username
   && passesb since_datetime (Discussed.createdAt issue))
  || nonempty (user_comments_since username since_datetime
                 (Comments.nodes (Discussed.comments issue))).

(** The entries of [discussed_issues] that come from one issue. *)
Definition issue_entries (username : string) (since_datetime : Z)
    (issue : Discussed.t) : list CollaborationExport.IssueEntry.t :=
  if issue_qualifies username since_datetime issue
  then [CollaborationExport.issue_entry username issue
          (user_comments_since username since_datetime
             (Comments.nodes (Discussed.comments issue)))]
  else [].

(** The [variables] of the request for the page at [cursor]. *)
Definition reviews_variables (owner name username : string)
    (cursor : option string) : Variables :=
  [("owner", Some owner); ("name", Some name); ("username", Some username);
   ("cursor", cursor)].

Definition paging_variables (owner name : string) (cursor : option string)
    : Variables :=
  [("owner", Some owner); ("name", Some name); ("cursor", cursor)].

(** The requests sent between [log] and [log'] are those for [cursors],
    in order, and the runner answered them with [pages]. *)
Definition walked {N} (answer : option string -> outcome (option (Connection.t N)))
    (req : option string -> Request) (log log' : Log)
    (cursors : list (option string)) (pages : list (Connection.t N)) : Prop :=
  log' = log ++ map req cursors
  /\ Forall2 (fun c pg => answer c = Return (Some pg)) cursors pages.

(** All the nodes of the pages, in order. *)
Definition all_nodes {N} (pages : list (Connection.t N)) : list N :=
  flat_map Connection.nodes pages.

(** The requests of the four category fetches and what the runner makes
    of the endpoint's answers to them. *)
Definition reviews_request (owner name username : string)
    (c : option string) : Request :=
  (ReviewsQuery, reviews_variables owner name username c).
Definition reviews_answer (endpoint : Endpoint)
    (owner name username token : string) (c : option string) :=
  checked (endpoint ReviewsQuery (reviews_variables owner name username c)
                    token).

Definition commented_request (owner name : string) (c : option string)
    : Request :=
  (CommentedQuery, paging_variables owner name c).
Definition commented_answer (endpoint : Endpoint)
    (owner name token : string) (c : option string) :=
  checked (endpoint CommentedQuery (paging_variables owner name c) token).

Definition threads_request (owner name : string) (c : option string)
    : Request :=
  (ThreadsQuery, paging_variables owner name c).
Definition threads_answer (endpoint : Endpoint)
    (owner name token : string) (c : option string) :=
  checked (endpoint ThreadsQuery (paging_variables owner name c) token).

Definition issues_request (owner name : string) (c : option string)
    : Request :=
  (IssuesQuery, paging_variables owner name c).
Definition issues_answer (endpoint : Endpoint)
    (owner name token : string) (c : option string) :=
  checked (endpoint IssuesQuery (paging_variables owner name c) token).

(** What the language guarantees of [list(s)] for a set [s]: it
    enumerates the elements of [s], each of them once. *)
Definition enumerates (listed : CollaborationExport.PySet.t -> list string)
    : Prop :=
  forall s,
    NoDup (listed s)
    /\ forall x, x ∈ listed s <-> x ∈ CollaborationExport.PySet.elements s.

(** The collaborators that the buckets name. *)
Definition named_by
    (pr_reviews : list CollaborationExport.ReviewEntry.t)
    (commented_prs : list CollaborationExport.CommentedEntry.t)
    (pr_threads : list CollaborationExport.ThreadEntry.t)
    (issue_discussions : list CollaborationExport.IssueEntry.t)
    (x : string) : Prop :=
  (exists e, e ∈ pr_reviews /\ CollaborationExport.ReviewEntry.pr_author e = x)
  \/ (exists e, e ∈ commented_prs
                /\ CollaborationExport.CommentedEntry.pr_author e = x)
  \/ (exists e thread,
        e ∈ pr_threads
        /\ thread ∈ CollaborationExport.ThreadEntry.discussion_threads e
        /\ CollaborationExport.Thread.comment_author thread = x)
  \/ (exists e, e ∈ issue_discussions
                /\ CollaborationExport.IssueEntry.issue_author e = x
                /\ truthy (CollaborationExport.IssueEntry.is_authored_by_user e)
                   = false).

(** The requests of [get_user_pull_requests] and what the runner makes of
    the endpoint's answers to them. *)
Definition pulls_request (owner name : string) (c : option string)
    : Request :=
  (PullRequestsQuery, paging_variables owner name c).
Definition pulls_answer (endpoint : Endpoint) (owner name token : string)
    (c : option string) :=
  checked (endpoint PullRequestsQuery (paging_variables owner name c) token).

(** The state a loop body leaves behind. *)
Definition state_of {S} (r : flow S) : S :=
  match r with
  | Next s => s
  | Break s => s
  end.

(** The body of the [while] of [get_user_pull_requests]. *)
Definition pulls_body (endpoint : Endpoint)
    (username owner name token : string) (since_datetime : Z)
    (s : WorkSummary.PRLoop.t) : M (flow WorkSummary.PRLoop.t) :=
  (let variables :=
     [("owner", Some owner); ("name", Some name);
      ("cursor", WorkSummary.PRLoop.cursor s)] in
   data <-
     make_graphql_request endpoint PullRequestsQuery variables token ;;
   pullRequests <- repository_field data ;;
   let prs := Connection.nodes pullRequests in
   r <- lift (for_each prs (WorkSummary.pr_step username since_datetime)
                       (WorkSummary.PRLoop.all_prs s,
                        WorkSummary.PRLoop.continue_fetching s)) ;;
   let '(all_prs, continue_fetching) := r in
   let info := Connection.pageInfo pullRequests in
   if continue_fetching && PageInfo.hasNextPage info then
     ret (Next {| WorkSummary.PRLoop.all_prs := all_prs;
                  WorkSummary.PRLoop.has_next_page :=
                    WorkSummary.PRLoop.has_next_page s;
                  WorkSummary.PRLoop.cursor := PageInfo.endCursor info;
                  WorkSummary.PRLoop.continue_fetching :=
                    continue_fetching |})
   else
     ret (Next {| WorkSummary.PRLoop.all_prs := all_prs;
                  WorkSummary.PRLoop.has_next_page := false;
                  WorkSummary.PRLoop.cursor := WorkSummary.PRLoop.cursor s;
                  WorkSummary.PRLoop.continue_fetching :=
                    continue_fetching |}))%M.

Definition pulls_cond (s : WorkSummary.PRLoop.t) : bool :=
  WorkSummary.PRLoop.has_next_page s && WorkSummary.PRLoop.continue_fetching s.

(** The runner fails on the request [r] with the exception [e]. *)
Definition fails_with (endpoint : Endpoint) (token : string) (r : Request)
    (e : exn) : Prop :=
  checked (endpoint (fst r) (snd r) token) = Raise e.

(** [m] propagates the failures of the runner on the requests selected by
    [P]: whatever the log it starts from, it only appends the requests it
    sends, and after a selected request on which the runner fails it
    sends nothing more, the exception being the outcome of [m]. *)
Definition propagates (endpoint : Endpoint) (token : string)
    (P : Request -> Prop) {A} (m : M A) : Prop :=
  forall log o log',
    m log = (o, log') ->
    exists sent,
      log' = log ++ sent
      /\ forall pre r post e,
           sent = pre ++ r :: post -> P r -> fails_with endpoint token r e ->
           o = Raise e /\ post = [].

(** [m] never raises, and sends only requests selected by [Q]. *)
Definition quiet (Q : Request -> Prop) {A} (m : M A) : Prop :=
  forall log o log',
    m log = (o, log') ->
    (forall e, o <> Raise e)
    /\ exists sent, log' = log ++ sent /\ Forall Q sent.

Definition is_commits_request (r : Request) : Prop := fst r = CommitsQuery.

(** The request of a commit-history probe. *)
Definition commits_variables (owner name since_date email : string)
    (c : option string) : Variables :=
  [("owner", Some owner); ("name", Some name); ("author", Some email);
   ("since", Some since_date); ("cursor", c)].

(** The pages of a feed that ends within [n] pages: from the cursor [c],
    every request is answered with a page, and following the end cursors
    reaches a page without a next one. *)
Fixpoint feed {N} (answer : option string -> outcome (option (Connection.t N)))
    (n : nat) (c : option string) : option (list (Connection.t N)) :=
  match n with
  | O => None
  | Datatypes.S n' =>
      match answer c with
      | Return (Some pg) =>
          if PageInfo.hasNextPage (Connection.pageInfo pg) then
            match feed answer n' (PageInfo.endCursor (Connection.pageInfo pg))
            with
            | Some pgs => Some (pg :: pgs)
            | None => None
            end
          else Some [pg]
      | _ => None
      end
  end.

(** The timestamp is one [fromisoformat] accepts. *)
Definition parses (timestamp : string) : Prop :=
  is_Some (Timestamp.parse timestamp).

(** The timestamps of the reviews of a pull request parse. *)
Definition reviews_parse (pr : ReviewedPR.t) : Prop :=
  forall review, review ∈ ReviewedPR.reviews pr ->
                 parses (Review.createdAt review).

(** The timestamps of a pull request or issue and of its comments parse. *)
Definition discussion_parses (node : Discussed.t) : Prop :=
  parses (Discussed.createdAt node)
  /\ forall c, c ∈ Comments.nodes (Discussed.comments node) ->
               parses (Comment.createdAt c).

(** * More vocabulary *)

(** The cursors of the requests that walk [pages] from the cursor [c]:
    [c] itself, then the end cursor of each page but the last. *)
Fixpoint chain {N} (c : option string) (pages : list (Connection.t N))
    : list (option string) :=
  match pages with
  | [] => []
  | pg :: rest => c :: chain (PageInfo.endCursor (Connection.pageInfo pg)) rest
  end.

(** The leading elements of [l] that satisfy [p]: those before the first
    one that does not. *)
Fixpoint leading {A} (p : A -> bool) (l : list A) : list A :=
  match l with
  | [] => []
  | x :: rest => if p x then x :: leading p rest else []
  end.

(** The pull request was created at or after the cutoff. *)
Definition in_window (since_datetime : Z) (pr : PullRequest.t) : bool :=
  passesb since_datetime (PullRequest.createdAt pr).

(** The pull request has an author, who is the target user. *)
Definition by_user (username : string) (pr : PullRequest.t) : bool :=
  is_user (PullRequest.author pr) username.

(** [a] was created no earlier than [b], both creation times parsing. *)
Definition no_older (a b : PullRequest.t) : Prop :=
  exists ta tb,
    Timestamp.parse (PullRequest.createdAt a) = Some ta
    /\ Timestamp.parse (PullRequest.createdAt b) = Some tb
    /\ tb <= ta.

(** The creation times never increase along the list: each pull request
    is no older than all those after it. *)
Fixpoint newest_first (prs : list PullRequest.t) : Prop :=
  match prs with
  | [] => True
  | pr :: rest => Forall (no_older pr) rest /\ newest_first rest
  end.

(** The request of a commit-history probe for the author [email], and what
    the runner makes of the endpoint's answer to it. *)
Definition commits_request (owner name since_date email : string)
    (c : option string) : Request :=
  (CommitsQuery, commits_variables owner name since_date email c).
Definition commits_answer (endpoint : Endpoint)
    (owner name token since_date email : string) (c : option string)
    : outcome CommitData :=
  checked (endpoint CommitsQuery
             (commits_variables owner name since_date email c) token).

(** The commits of the page of history that an answer carries; none when
    the request failed or the repository or its default branch is null. *)
Definition history_nodes (a : outcome CommitData) : list Commit.t :=
  match a with
  | Return (History commit_history) => Connection.nodes commit_history
  | _ => []
  end.

(** The state in which a probe leaves the loop variables after the answer
    [a] to the request for the page at their cursor. *)
Definition after_commit_page (a : outcome CommitData)
    (s : WorkSummary.CommitLoop.t) : flow WorkSummary.CommitLoop.t :=
  match a with
  | Return (History commit_history) =>
      let info := Connection.pageInfo commit_history in
      Next {| WorkSummary.CommitLoop.all_commits :=
                WorkSummary.CommitLoop.all_commits s
                ++ Connection.nodes commit_history;
              WorkSummary.CommitLoop.has_next_page :=
                PageInfo.hasNextPage info;
              WorkSummary.CommitLoop.cursor :=
                if PageInfo.hasNextPage info then PageInfo.endCursor info
                else WorkSummary.CommitLoop.cursor s |}
  | Return _ => Break s
  | _ =>
      Next {| WorkSummary.CommitLoop.all_commits :=
                WorkSummary.CommitLoop.all_commits s;
              WorkSummary.CommitLoop.has_next_page := false;
              WorkSummary.CommitLoop.cursor :=
                WorkSummary.CommitLoop.cursor s |}
  end.

(** [cursors] are the cursors of the requests that a probe sends after the
    one at [c]: every answer but the last is a page of history that has a
    next page, and the next request carries its end cursor; the last
    answer is anything else. *)
Fixpoint probe_walk (answer : option string -> outcome CommitData)
    (c : option string) (cursors : list (option string)) : Prop :=
  match cursors with
  | [] =>
      forall commit_history,
        answer c = Return (History commit_history) ->
        PageInfo.hasNextPage (Connection.pageInfo commit_history) = false
  | c' :: rest =>
      (exists commit_history,
         answer c = Return (History commit_history)
         /\ PageInfo.hasNextPage (Connection.pageInfo commit_history) = true
         /\ PageInfo.endCursor (Connection.pageInfo commit_history) = c')
      /\ probe_walk answer c' rest
  end.

(** The requests of the two probes of [get_user_commits], as pairs of the
    author and the cursor, [None] being the first cursor of each. *)
Definition probes (username : string)
    (cursors1 cursors2 : list (option string))
    : list (string * option string) :=
  map (pair (String.append username "@users.noreply.github.com"))
      (None :: cursors1)
  ++ map (pair username) (None :: cursors2).

(** The character [c] occurs in [s]. *)
Fixpoint occurs (c : ascii) (s : string) : bool :=
  match s with
  | EmptyString => false
  | String c' rest => Ascii.eqb c' c || occurs c rest
  end.

(** A date that a [datetime] can hold. *)
Definition is_date (dt : Setup.Datetime.t) : Prop :=
  1 <= Setup.Datetime.year dt <= 9999
  /\ 1 <= Setup.Datetime.month dt <= 12
  /\ 1 <= Setup.Datetime.day dt
     <= Timestamp.days_in_month (Setup.Datetime.year dt)
          (Setup.Datetime.month dt).

(** * Concrete feeds *)

Definition ok_response {D} (d : D) : Response.t D :=
  {| Response.status_code := 200; Response.text := "";
     Response.errors := None; Response.data := d |}.

Definition server_error {D} (d : D) : Response.t D :=
  {| Response.status_code := 502; Response.text := "Bad Gateway";
     Response.errors := None; Response.data := d |}.

Definition last_page {N} (nodes : list N) : Connection.t N :=
  {| Connection.pageInfo :=
       {| PageInfo.endCursor := None; PageInfo.hasNextPage := false |};
     Connection.nodes := nodes |}.

Definition more_pages {N} (nodes : list N) (cursor : string)
    : Connection.t N :=
  {| Connection.pageInfo :=
       {| PageInfo.endCursor := Some cursor; PageInfo.hasNextPage := true |};
     Connection.nodes := nodes |}.

Definition the_repository : Repository.t :=
  {| Repository.nameWithOwner := "acme/widgets"; Repository.name := "widgets";
     Repository.description := None;
     Repository.url := "https://github.com/acme/widgets";
     Repository.isPrivate := false; Repository.isArchived := false |}.

Definition actor (login : string) : option Actor.t :=
  Some {| Actor.login := login |}.

(** An endpoint is given by its answer to each query. *)
Definition endpoint_of
    (reviews : Variables -> Response.t (DataOf ReviewsQuery))
    (commented : Variables -> Response.t (DataOf CommentedQuery))
    (threads : Variables -> Response.t (DataOf ThreadsQuery))
    (issues : Variables -> Response.t (DataOf IssuesQuery))
    (pulls : Variables -> Response.t (DataOf PullRequestsQuery))
    (commits : Variables -> Response.t (DataOf CommitsQuery)) : Endpoint :=
  fun q =>
    match q return Variables -> string -> Response.t (DataOf q) with
    | RepositoryQuery => fun _ _ => ok_response (Some the_repository)
    | ReviewsQuery => fun v _ => reviews v
    | CommentedQuery => fun v _ => commented v
    | ThreadsQuery => fun v _ => threads v
    | IssuesQuery => fun v _ => issues v
    | PullRequestsQuery => fun v _ => pulls v
    | CommitsQuery => fun v _ => commits v
    end.

Definition nothing {N} (_ : Variables)
    : Response.t (option (Connection.t N)) :=
  ok_response (Some (last_page [])).

Definition no_commits (_ : Variables) : Response.t CommitData :=
  ok_response (History (last_page [])).

(** The value of ["cursor"] in the variables of a request. *)
Definition cursor_of (v : Variables) : option string :=
  match List.find (fun kv => String.eqb (fst kv) "cursor") v with
  | Some (_, c) => c
  | None => None
  end.

(** *** alice reviewing: one review in the window on bob's pull request,
    one before the cutoff on carol's *)

Definition review_2024_02_01 : Review.t :=
  {| Review.state := "APPROVED"; Review.body := "Looks good";
     Review.createdAt := "2024-02-01T00:00:00Z";
     Review.url := "https://github.com/acme/widgets/pull/7#review-1";
     Review.comments :=
       {| ReviewComments.totalCount := 0; ReviewComments.nodes := [] |} |}.

Definition review_2023_06_01 : Review.t :=
  {| Review.state := "COMMENTED"; Review.body := "A question";
     Review.createdAt := "2023-06-01T00:00:00Z";
     Review.url := "https://github.com/acme/widgets/pull/3#review-1";
     Review.comments :=
       {| ReviewComments.totalCount := 0; ReviewComments.nodes := [] |} |}.

Definition bobs_pr : ReviewedPR.t :=
  {| ReviewedPR.number := 7; ReviewedPR.title := "Add gears";
     ReviewedPR.url := "https://github.com/acme/widgets/pull/7";
     ReviewedPR.createdAt := "2024-01-20T00:00:00Z";
     ReviewedPR.author := actor "bob";
     ReviewedPR.reviews := [review_2024_02_01] |}.

Definition carols_pr : ReviewedPR.t :=
  {| ReviewedPR.number := 3; ReviewedPR.title := "Fix sprocket";
     ReviewedPR.url := "https://github.com/acme/widgets/pull/3";
     ReviewedPR.createdAt := "2023-05-20T00:00:00Z";
     ReviewedPR.author := actor "carol";
     ReviewedPR.reviews := [review_2023_06_01] |}.

Definition alice_reviews_endpoint : Endpoint :=
  endpoint_of (fun _ => ok_response (Some (last_page [bobs_pr; carols_pr])))
              nothing nothing nothing nothing no_commits.

(** *** An issue opened by bob before the cutoff, on which alice commented
    within the window *)

Definition alices_comment : Comment.t :=
  {| Comment.author := actor "alice"; Comment.body := "Still happens for me";
     Comment.createdAt := "2024-02-10T09:30:00Z";
     Comment.url := "https://github.com/acme/widgets/issues/12#comment-2" |}.

Definition old_issue : Discussed.t :=
  {| Discussed.number := 12; Discussed.title := "Gear slips";
     Discussed.url := "https://github.com/acme/widgets/issues/12";
     Discussed.createdAt := "2023-03-01T08:00:00Z";
     Discussed.author := actor "bob";
     Discussed.comments :=
       {| Comments.totalCount := 1; Comments.nodes := [alices_comment] |} |}.

Definition old_issue_endpoint : Endpoint :=
  endpoint_of nothing nothing nothing
              (fun _ => ok_response (Some (last_page [old_issue])))
              nothing no_commits.

(** *** A pull request of alice's, with one comment from carol within the
    window *)

Definition carols_comment : Comment.t :=
  {| Comment.author := actor "carol"; Comment.body := "Why not a belt?";
     Comment.createdAt := "2024-03-05T10:00:00Z";
     Comment.url := "https://github.com/acme/widgets/pull/21#comment-1" |}.

Definition alices_pr : Discussed.t :=
  {| Discussed.number := 21; Discussed.title := "Chain drive";
     Discussed.url := "https://github.com/acme/widgets/pull/21";
     Discussed.createdAt := "2024-03-01T00:00:00Z";
     Discussed.author := actor "alice";
     Discussed.comments :=
       {| Comments.totalCount := 1; Comments.nodes := [carols_comment] |} |}.

Definition alices_pr_endpoint : Endpoint :=
  endpoint_of nothing
              (fun _ => ok_response (Some (last_page [alices_pr])))
              (fun _ => ok_response (Some (last_page [alices_pr])))
              nothing nothing no_commits.

(** *** A review with 45 comments, of which the page embedded in the
    review holds one *)

Definition busy_review : Review.t :=
  {| Review.state := "CHANGES_REQUESTED"; Review.body := "Many remarks";
     Review.createdAt := "2024-04-02T12:00:00Z";
     Review.url := "https://github.com/acme/widgets/pull/30#review-4";
     Review.comments :=
       {| ReviewComments.totalCount := 45;
          ReviewComments.nodes :=
            [{| ReviewComment.body := "Rename this";
                ReviewComment.path := "src/gear.py";
                ReviewComment.position := Some 4;
                ReviewComment.createdAt := "2024-04-02T12:00:00Z" |}] |} |}.

Definition busy_pr : ReviewedPR.t :=
  {| ReviewedPR.number := 30; ReviewedPR.title := "Rework gearbox";
     ReviewedPR.url := "https://github.com/acme/widgets/pull/30";
     ReviewedPR.createdAt := "2024-04-01T00:00:00Z";
     ReviewedPR.author := actor "bob";
     ReviewedPR.reviews := [busy_review] |}.

Definition busy_review_endpoint : Endpoint :=
  endpoint_of (fun _ => ok_response (Some (last_page [busy_pr])))
              nothing nothing nothing nothing no_commits.

(** *** A newest-first feed of pull requests in two pages, the first of
    which already reaches behind the cutoff *)

Definition pull_request (number : Z) (login createdAt : string)
    : PullRequest.t :=
  {| PullRequest.title := "Change"; PullRequest.body := "";
     PullRequest.url := "https://github.com/acme/widgets/pull/n";
     PullRequest.createdAt := createdAt;
     PullRequest.closedAt := None; PullRequest.mergedAt := None;
     PullRequest.state := "OPEN"; PullRequest.number := number;
     PullRequest.author := actor login;
     PullRequest.additions := 1; PullRequest.deletions := 0;
     PullRequest.changedFiles := 1 |}.

Definition pulls_page_1 : Connection.t PullRequest.t :=
  more_pages [pull_request 41 "alice" "2024-05-01T00:00:00Z";
              pull_request 40 "bob" "2023-12-01T00:00:00Z"] "p2".

Definition pulls_page_2 : Connection.t PullRequest.t :=
  last_page [pull_request 39 "alice" "2023-11-01T00:00:00Z"].

Definition two_pages_of_pulls (v : Variables)
    : Response.t (DataOf PullRequestsQuery) :=
  match cursor_of v with
  | None => ok_response (Some pulls_page_1)
  | Some _ => ok_response (Some pulls_page_2)
  end.

Definition two_pages_endpoint : Endpoint :=
  endpoint_of nothing nothing nothing nothing two_pages_of_pulls no_commits.

(** *** A pull request of bob's on which alice commented within the
    window *)

Definition bobs_discussed_pr : Discussed.t :=
  {| Discussed.number := 18; Discussed.title := "Grease the axle";
     Discussed.url := "https://github.com/acme/widgets/pull/18";
     Discussed.createdAt := "2023-12-20T00:00:00Z";
     Discussed.author := actor "bob";
     Discussed.comments :=
       {| Comments.totalCount := 1; Comments.nodes := [alices_comment] |} |}.

Definition bobs_discussed_endpoint : Endpoint :=
  endpoint_of nothing
              (fun _ => ok_response (Some (last_page [bobs_discussed_pr])))
              nothing nothing nothing no_commits.

(** *** An endpoint that fails on the reviews query *)

Definition failing_reviews_endpoint : Endpoint :=
  endpoint_of (fun _ => server_error None)
              nothing nothing nothing nothing no_commits.

(** *** An endpoint whose commit history gives a first page and fails on
    the second *)

Definition a_commit : Commit.t :=
  {| Commit.oid := "abc123"; Commit.message := "Tighten the chain";
     Commit.committedDate := "2024-02-02T10:00:00Z";
     Commit.url := "https://github.com/acme/widgets/commit/abc123";
     Commit.additions := 3; Commit.deletions := 1; Commit.changedFiles := 1;
     Commit.parents_totalCount := 1 |}.

Definition broken_history (v : Variables) : Response.t CommitData :=
  match cursor_of v with
  | None => ok_response (History (more_pages [a_commit] "c2"))
  | Some _ => server_error NoRepository
  end.

Definition failing_commits_endpoint : Endpoint :=
  endpoint_of nothing nothing nothing nothing nothing broken_history.

(** *** A repository where alice reviewed, was commented on, and took part
    in an issue *)

Definition team_endpoint : Endpoint :=
  endpoint_of (fun _ => ok_response (Some (last_page [bobs_pr; carols_pr])))
              (fun _ => ok_response (Some (last_page [alices_pr])))
              (fun _ => ok_response (Some (last_page [alices_pr])))
              (fun _ => ok_response (Some (last_page [old_issue])))
              nothing no_commits.

(** A host on which [list(s)] enumerates a set in the order in which its
    elements were first added, as CPython does for a small set when the
    hashes of its elements collide, and a host that never fails to write
    the output file. *)
Fixpoint in_insertion_order (s : CollaborationExport.PySet.t)
    : list string :=
  match s with
  | [] => []
  | x :: rest =>
      x :: List.filter (fun y => negb (String.eqb y x))
             (in_insertion_order rest)
  end.

Definition no_write_failure : option exn := None.

Definition team_pr_reviews : list CollaborationExport.ReviewEntry.t :=
  [CollaborationExport.pr_with_review bobs_pr review_2024_02_01].

Definition team_pr_threads : list CollaborationExport.ThreadEntry.t :=
  [CollaborationExport.thread_entry alices_pr
     [CollaborationExport.thread_of carols_comment
        {| Actor.login := "carol" |}]].

Definition team_issue_discussions : list CollaborationExport.IssueEntry.t :=
  [CollaborationExport.issue_entry "alice" old_issue [alices_comment]].

Definition team_report : CollaborationExport.Report.t :=
  {| CollaborationExport.Report.username := "alice";
     CollaborationExport.Report.repository := the_repository;
     CollaborationExport.Report.generated_at := "2024-06-01T12:00:00";
     CollaborationExport.Report.timeframe_days := 365;
     CollaborationExport.Report.since_date := "2024-01-01T00:00:00Z";
     CollaborationExport.Report.statistics :=
       CollaborationExport.get_collaboration_stats in_insertion_order
         team_pr_reviews [] team_pr_threads team_issue_discussions;
     CollaborationExport.Report.pr_reviews := team_pr_reviews;
     CollaborationExport.Report.commented_prs := [];
     CollaborationExport.Report.pr_discussion_threads := team_pr_threads;
     CollaborationExport.Report.issue_discussions :=
       team_issue_discussions |}.

Definition team_log : Log :=
  [(RepositoryQuery, [("owner", Some "acme"); ("name", Some "widgets")]);
   reviews_request "acme" "widgets" "alice" None;
   commented_request "acme" "widgets" None;
   threads_request "acme" "widgets" None;
   issues_request "acme" "widgets" None].

(** *** An issue opened by alice within the window, without comments *)

Definition alices_issue : Discussed.t :=
  {| Discussed.number := 14; Discussed.title := "Add a bell";
     Discussed.url := "https://github.com/acme/widgets/issues/14";
     Discussed.createdAt := "2024-03-01T00:00:00Z";
     Discussed.author := actor "alice";
     Discussed.comments :=
       {| Comments.totalCount := 0; Comments.nodes := [] |} |}.

Definition alices_issue_endpoint : Endpoint :=
  endpoint_of nothing nothing nothing
              (fun _ => ok_response (Some (last_page [alices_issue])))
              nothing no_commits.

(** *** A commit history that answers every probe with the same commit *)

Definition same_commit_endpoint : Endpoint :=
  endpoint_of nothing nothing nothing nothing nothing
              (fun _ => ok_response (History (last_page [a_commit]))).

(** * More concrete feeds *)

(** *** Issues in two pages *)

Definition issues_page_1 : Connection.t Discussed.t :=
  more_pages [alices_issue] "i2".

Definition issues_page_2 : Connection.t Discussed.t :=
  last_page [old_issue].

Definition two_pages_of_issues (v : Variables)
    : Response.t (DataOf IssuesQuery) :=
  match cursor_of v with
  | None => ok_response (Some issues_page_1)
  | Some _ => ok_response (Some issues_page_2)
  end.

Definition two_pages_of_issues_endpoint : Endpoint :=
  endpoint_of nothing nothing nothing two_pages_of_issues nothing no_commits.

(** *** A feed of issues that never ends: every page announces a next one *)

Definition endless_issues_endpoint : Endpoint :=
  endpoint_of nothing nothing nothing
              (fun _ => ok_response (Some (more_pages [] "again")))
              nothing no_commits.

(** An endpoint that knows no repository: the [repository] of every
    answer is null. *)
Definition unknown_repository_endpoint : Endpoint :=
  fun q =>
    match q return Variables -> string -> Response.t (DataOf q) with
    | RepositoryQuery => fun _ _ => ok_response None
    | ReviewsQuery => fun _ _ => ok_response None
    | CommentedQuery => fun _ _ => ok_response None
    | ThreadsQuery => fun _ _ => ok_response None
    | IssuesQuery => fun _ _ => ok_response None
    | PullRequestsQuery => fun _ _ => ok_response None
    | CommitsQuery => fun _ _ => ok_response NoRepository
    end.

(** *** Reviews on the pull requests of erin and heidi *)

Definition erins_pr : ReviewedPR.t :=
  {| ReviewedPR.number := 40; ReviewedPR.title := "Add a flywheel";
     ReviewedPR.url := "https://github.com/acme/widgets/pull/40";
     ReviewedPR.createdAt := "2024-01-25T00:00:00Z";
     ReviewedPR.author := actor "erin";
     ReviewedPR.reviews := [review_2024_02_01] |}.

Definition heidis_pr : ReviewedPR.t :=
  {| ReviewedPR.number := 41; ReviewedPR.title := "Oil the bearings";
     ReviewedPR.url := "https://github.com/acme/widgets/pull/41";
     ReviewedPR.createdAt := "2024-01-26T00:00:00Z";
     ReviewedPR.author := actor "heidi";
     ReviewedPR.reviews := [review_2024_02_01] |}.

(** *** A pull request of alice whose one comment, within the window, was
    written from an account that has since been deleted *)




(** * Properties *)

(** ** Outcomes, requests and loops *)

Lemma fromisoformat_Z_Return s t :
  fromisoformat_Z s = Return t <-> Timestamp.parse s = Some t.
Proof.
  unfold fromisoformat_Z. destruct (Timestamp.parse s); split; congruence.
Qed.

Lemma obind_Return {A B} (m : outcome A) (k : A -> outcome B) b :
  obind m k = Return b <-> exists a, m = Return a /\ k a = Return b.
Proof.
  destruct m; simpl; split; try (intros [a' [? ?]]; congruence); eauto; done.
Qed.

Lemma make_graphql_request_run endpoint q variables token log :
  make_graphql_request endpoint q variables token log
  = (checked (endpoint q variables token), log ++ [(q, variables)]).
Proof.
  unfold make_graphql_request, bind, requests_post, checked, raise, lift, ret.
  destruct (negb _); [done|]. by destruct (Response.errors _).
Qed.

Lemma while_cond_false {S} fuel (cond : S -> bool) body s log :
  cond s = false -> while fuel cond body s log = (Return s, log).
Proof. intros H. destruct fuel; simpl; by rewrite H. Qed.

Lemma collect_app {A B} (g : A -> outcome (list B)) xs ys :
  collect g (xs ++ ys)
  = (l1 <~ collect g xs ;; l2 <~ collect g ys ;; Return (l1 ++ l2))%outcome.
Proof.
  induction xs as [|x xs IH]; simpl.
  - by destruct (collect g ys).
  - destruct (g x) as [l| |]; simpl; [|done..]. rewrite IH.
    destruct (collect g xs) as [l1| |]; simpl; [|done..].
    destruct (collect g ys) as [l2| |]; simpl; [|done..].
    by rewrite app_assoc.
Qed.

(** A contribution reaches the collected list exactly from an element
    that contributes it; every element contributes without failing. *)
Lemma collect_Return {A B} (g : A -> outcome (list B)) xs l :
  collect g xs = Return l ->
  (forall x, x ∈ xs -> exists lx, g x = Return lx)
  /\ (forall e, e ∈ l <-> exists x lx, x ∈ xs /\ g x = Return lx /\ e ∈ lx).
Proof.
  revert l. induction xs as [|x xs IH]; simpl; intros l H.
  - injection H as <-. split.
    + by intros x ?%elem_of_nil.
    + intros e. split; [by intros ?%elem_of_nil|].
      by intros (x & lx & ?%elem_of_nil & _).
  - destruct (g x) as [lx| |] eqn:Hx; simpl in H; [|done..].
    destruct (collect g xs) as [ls| |]; simpl in H; [|done..].
    injection H as <-. destruct (IH ls eq_refl) as [Hall Hiff]. split.
    + intros x' [->|Hx']%elem_of_cons; eauto.
    + intros e. rewrite elem_of_app, Hiff. split.
      * intros [He|(x' & lx' & Hin & Hg & He)].
        -- exists x, lx. split; [left|done].
        -- exists x', lx'. split; [by right|done].
      * intros (x' & lx' & [->|Hin]%elem_of_cons & Hg & He).
        -- left. congruence.
        -- right. eauto.
Qed.

(** When every contribution that does not fail is given by [h], so is the
    collected list. *)
Lemma collect_flat_map {A B} (g : A -> outcome (list B)) (h : A -> list B)
    xs l :
  (forall x lx, g x = Return lx -> lx = h x) ->
  collect g xs = Return l -> l = flat_map h xs.
Proof.
  intros Hg. revert l. induction xs as [|x xs IH]; simpl; intros l H.
  - by injection H.
  - destruct (g x) as [lx| |] eqn:Hx; simpl in H; [|done..].
    destruct (collect g xs) as [ls| |]; simpl in H; [|done..].
    injection H as <-. by rewrite (Hg _ _ Hx), (IH ls).
Qed.

(** A loop whose body only appends what the element contributes. *)
Lemma for_each_appending {A B} (g : A -> outcome (list B))
    (body : A -> list B -> outcome (flow (list B))) xs s :
  (forall x s, body x s
               = (l <~ g x ;; Return (Next (s ++ l)))%outcome) ->
  for_each xs body s = (l <~ collect g xs ;; Return (s ++ l))%outcome.
Proof.
  intros Hbody. revert s. induction xs as [|x xs IH]; intros s; simpl.
  - by rewrite app_nil_r.
  - rewrite Hbody. destruct (g x) as [l| |]; simpl; [|done..].
    rewrite IH. destruct (collect g xs) as [ls| |]; simpl; [|done..].
    by rewrite app_assoc.
Qed.

Section Paged.
Context {N E : Type}.
Context (request : option string -> M (option (Connection.t N))).
Context (answer : option string -> outcome (option (Connection.t N))).
Context (req : option string -> Request).
Context (step : N -> list E -> outcome (flow (list E))).
Context (g : N -> outcome (list E)).
Hypothesis request_run : forall c log, request c log = (answer c, log ++ [req c]).
Hypothesis step_appends : forall x s, step x s = (l <~ g x ;; Return (Next (s ++ l)))%outcome.

Lemma page_body_run s log :
  page_body request step s log =
  (match answer (Paging.cursor s) with
   | Return (Some connection) =>
       match collect g (Connection.nodes connection) with
       | Return l => Return (Next (Paging.advance (Paging.items s ++ l) (Paging.cursor s) (Connection.pageInfo connection)))
       | Raise e => Raise e
       | OutOfFuel => OutOfFuel
       end
   | Return None => Raise TypeError
   | Raise e => Raise e
   | OutOfFuel => OutOfFuel
   end, log ++ [req (Paging.cursor s)]).
Proof.
  unfold page_body, bind. rewrite request_run.
  destruct (answer _) as [[connection|]| |]; simpl; try done.
  unfold lift. rewrite (for_each_appending g) by done.
  by destruct (collect g _).
Qed.

Lemma while_paged_Return fuel s log final log' :
  while fuel Paging.has_next_page (page_body request step) s log = (Return final, log') ->
  exists cursors pages l,
    log' = log ++ map req cursors
    /\ Forall2 (fun c pg => answer c = Return (Some pg)) cursors pages
    /\ collect g (flat_map Connection.nodes pages) = Return l
    /\ Paging.items final = Paging.items s ++ l.
Proof.
  revert s log. induction fuel as [|fuel IH]; intros s log; simpl.
  - destruct (Paging.has_next_page s); [done|]. intros [= <- <-].
    exists [], [], []. simpl. by rewrite !app_nil_r.
  - destruct (Paging.has_next_page s); cycle 1.
    { intros [= <- <-]. exists [], [], []. simpl. by rewrite !app_nil_r. }
    unfold bind at 1. rewrite page_body_run.
    destruct (answer (Paging.cursor s)) as [[connection|]| |] eqn:Hans; try done.
    destruct (collect g (Connection.nodes connection)) as [l1| |] eqn:Hl1; try done.
    intros H. apply IH in H as (cursors & pages & l & -> & Hpages & Hl & Hitems).
    exists (Paging.cursor s :: cursors), (connection :: pages), (l1 ++ l).
    split; [by rewrite <- app_assoc|]. split; [by constructor|]. split.
    + simpl. rewrite collect_app, Hl1, Hl. done.
    + rewrite Hitems. unfold Paging.advance.
      destruct (PageInfo.hasNextPage _); simpl; by rewrite app_assoc.
Qed.
Context (h : N -> list E).
Hypothesis g_spec : forall x l, g x = Return l -> l = h x.

Lemma paged_fetch_Return fuel log final log' :
  paged_fetch fuel request step log = (Return final, log') ->
  exists cursors pages,
    walked answer req log log' cursors pages
    /\ Paging.items final = flat_map h (all_nodes pages).
Proof.
  intros (cursors & pages & l & Hlog & Hpages & Hl & Hitems)%while_paged_Return.
  exists cursors, pages. split; [done|].
  rewrite Hitems. simpl. by apply collect_flat_map with (g := g).
Qed.

(** Enough fuel: the loop returns once the feed ends within the fuel and
    every node contributes without failing. *)
Lemma while_paged_returns n fuel s log pages :
  feed answer n (Paging.cursor s) = Some pages ->
  Paging.has_next_page s = true ->
  (forall x, x ∈ all_nodes pages -> exists l, g x = Return l) ->
  (n <= fuel)%nat ->
  exists final log',
    while fuel Paging.has_next_page (page_body request step) s log
    = (Return final, log')
    /\ Paging.items final = Paging.items s ++ flat_map h (all_nodes pages).
Proof.
  revert fuel s log pages.
  induction n as [|n IH]; intros fuel s log pages Hfeed Hnext Hg Hle;
    [done|].
  destruct fuel as [|fuel]; [lia|]. simpl in Hfeed |- *. rewrite Hnext.
  unfold bind at 1. rewrite page_body_run.
  destruct (answer (Paging.cursor s)) as [[pg|]| |] eqn:Hans; try done.
  assert (Hpg : exists l1, collect g (Connection.nodes pg) = Return l1
                           /\ l1 = flat_map h (Connection.nodes pg)).
  { assert (Hin : forall x, x ∈ Connection.nodes pg ->
                            exists l, g x = Return l).
    { intros x Hx. apply Hg.
      destruct (PageInfo.hasNextPage _);
        [destruct (feed _ _ _); [|done]|]; injection Hfeed as <-;
        unfold all_nodes; simpl; apply elem_of_app; by left. }
    clear -Hin g_spec. induction (Connection.nodes pg) as [|x xs IHxs].
    - by exists [].
    - destruct (Hin x) as [lx Hx]; [left|].
      destruct IHxs as (ls & Hls & ->); [intros; apply Hin; by right|].
      exists (lx ++ flat_map h xs). simpl. rewrite Hx, Hls. simpl.
      split; [done|]. by rewrite (g_spec _ _ Hx). }
  destruct Hpg as (l1 & -> & ->). unfold Paging.advance.
  destruct (PageInfo.hasNextPage (Connection.pageInfo pg)) eqn:Hmore.
  - destruct (feed answer n _) as [pgs|] eqn:Hrest; [|done].
    injection Hfeed as <-.
    match goal with
    | |- context [while fuel _ _ ?s' ?l'] =>
        destruct (IH fuel s' l' pgs) as (final & log' & Hrun & Hitems);
          [exact Hrest|done| |lia|]
    end.
    { intros x Hx. apply Hg. unfold all_nodes. simpl. apply elem_of_app.
      by right. }
    exists final, log'. split; [exact Hrun|].
    rewrite Hitems. unfold all_nodes. simpl.
    by rewrite flat_map_app, app_assoc.
  - injection Hfeed as <-. eexists _, _.
    rewrite while_cond_false by done. split; [done|].
    unfold all_nodes. simpl. by rewrite !app_nil_r.
Qed.

Lemma paged_fetch_returns n fuel log pages :
  feed answer n None = Some pages ->
  (forall x, x ∈ all_nodes pages -> exists l, g x = Return l) ->
  (n <= fuel)%nat ->
  exists final log',
    paged_fetch fuel request step log = (Return final, log')
    /\ Paging.items final = flat_map h (all_nodes pages).
Proof.
  intros Hfeed Hg Hle.
  by apply (while_paged_returns n fuel Paging.start log pages).
Qed.

End Paged.

(** ** The classification loops of github-collaboration-export.py *)

Lemma passesb_true since_datetime timestamp :
  passesb since_datetime timestamp = true <-> passes since_datetime timestamp.
Proof.
  unfold passesb, passes. destruct (Timestamp.parse timestamp) as [t|].
  - rewrite Z.leb_le. split; [eauto|]. by intros (t' & [= <-] & ?).
  - split; [done|]. by intros (t' & ? & _).
Qed.

Lemma no_author_or_login_ne_is_user author username :
  no_author_or_login_ne author username = negb (is_user author username).
Proof. by destruct author. Qed.

Lemma nonempty_true {A} (l : list A) : nonempty l = true <-> l <> [].
Proof. by destruct l. Qed.

Lemma flat_map_filter {A} (p : A -> bool) (xs : list A) :
  flat_map (fun x => if p x then [x] else []) xs = List.filter p xs.
Proof.
  induction xs as [|x xs IH]; simpl; [done|]. rewrite IH. by destruct (p x).
Qed.

Lemma review_step_appends since_datetime pr review s :
  CollaborationExport.review_step since_datetime pr review s
  = (l <~ review_contribution since_datetime pr review ;;
     Return (Next (s ++ l)))%outcome.
Proof.
  unfold CollaborationExport.review_step, review_contribution.
  destruct (fromisoformat_Z _) as [t| |]; simpl; [|done..].
  destruct (since_datetime <=? t); [done|]. by rewrite app_nil_r.
Qed.

Lemma reviewed_pr_step_appends username since_datetime pr s :
  CollaborationExport.reviewed_pr_step username since_datetime pr s
  = (l <~ reviewed_pr_contribution username since_datetime pr ;;
     Return (Next (s ++ l)))%outcome.
Proof.
  unfold CollaborationExport.reviewed_pr_step, reviewed_pr_contribution.
  destruct (nonempty _); simpl; [|by rewrite app_nil_r].
  destruct (no_author_or_login_ne _ _); simpl; [|by rewrite app_nil_r].
  rewrite (for_each_appending (review_contribution since_datetime pr))
    by apply review_step_appends.
  by destruct (collect _ _).
Qed.

Lemma user_comment_step_appends username since_datetime comment s :
  CollaborationExport.user_comment_step username since_datetime comment s
  = (l <~ user_comment_contribution username since_datetime comment ;;
     Return (Next (s ++ l)))%outcome.
Proof.
  unfold CollaborationExport.user_comment_step, user_comment_contribution,
    is_user.
  destruct (truthy _); simpl; [|by rewrite app_nil_r].
  destruct (fromisoformat_Z _) as [t| |]; simpl; [|done..].
  destruct (since_datetime <=? t); [done|]. by rewrite app_nil_r.
Qed.

Lemma user_comments_loop username since_datetime comments :
  for_each comments
    (CollaborationExport.user_comment_step username since_datetime) []
  = collect (user_comment_contribution username since_datetime) comments.
Proof.
  rewrite (for_each_appending
             (user_comment_contribution username since_datetime))
    by apply user_comment_step_appends.
  by destruct (collect _ _).
Qed.

Lemma commented_pr_step_appends username since_datetime pr s :
  CollaborationExport.commented_pr_step username since_datetime pr s
  = (l <~ commented_pr_contribution username since_datetime pr ;;
     Return (Next (s ++ l)))%outcome.
Proof.
  unfold CollaborationExport.commented_pr_step, commented_pr_contribution,
    is_user.
  destruct (truthy _); simpl; [by rewrite app_nil_r|].
  rewrite user_comments_loop.
  destruct (collect _ _) as [ucs| |]; simpl; [|done..].
  destruct (nonempty ucs); [done|]. by rewrite app_nil_r.
Qed.

Lemma thread_step_appends username since_datetime comment s :
  CollaborationExport.thread_step username since_datetime comment s
  = (l <~ thread_contribution username since_datetime comment ;;
     Return (Next (s ++ l)))%outcome.
Proof.
  unfold CollaborationExport.thread_step, thread_contribution.
  destruct (Comment.author comment) as [a|]; simpl; [|by rewrite app_nil_r].
  destruct (negb _); simpl; [|by rewrite app_nil_r].
  destruct (fromisoformat_Z _) as [t| |]; simpl; [|done..].
  destruct (since_datetime <=? t); [done|]. by rewrite app_nil_r.
Qed.

Lemma thread_pr_step_appends username since_datetime pr s :
  CollaborationExport.thread_pr_step username since_datetime pr s
  = (l <~ thread_pr_contribution username since_datetime pr ;;
     Return (Next (s ++ l)))%outcome.
Proof.
  unfold CollaborationExport.thread_pr_step, thread_pr_contribution.
  destruct (no_author_or_login_ne _ _); simpl; [by rewrite app_nil_r|].
  destruct (fromisoformat_Z _) as [t| |]; simpl; [|done..].
  destruct (since_datetime <=? t); simpl; [|by rewrite app_nil_r].
  rewrite (for_each_appending (thread_contribution username since_datetime))
    by apply thread_step_appends.
  destruct (collect _ _) as [ths| |]; simpl; [|done..].
  destruct (nonempty ths); [done|]. by rewrite app_nil_r.
Qed.

Lemma issue_step_appends username since_datetime issue s :
  CollaborationExport.issue_step username since_datetime issue s
  = (l <~ issue_contribution username since_datetime issue ;;
     Return (Next (s ++ l)))%outcome.
Proof.
  unfold CollaborationExport.issue_step, issue_contribution, is_user.
  destruct (fromisoformat_Z _) as [t| |]; simpl; [|done..].
  rewrite user_comments_loop.
  destruct (collect _ _) as [ucs| |]; simpl; [|done..].
  destruct (_ || _); [done|]. by rewrite app_nil_r.
Qed.

Lemma fromisoformat_Z_passesb timestamp t since_datetime :
  fromisoformat_Z timestamp = Return t ->
  passesb since_datetime timestamp = (since_datetime <=? t).
Proof.
  intros H%fromisoformat_Z_Return. unfold passesb. by rewrite H.
Qed.

Lemma flat_map_map_filter {A B} (p : A -> bool) (f : A -> B) xs :
  flat_map (fun x => if p x then [f x] else []) xs
  = map f (List.filter p xs).
Proof.
  induction xs as [|x xs IH]; simpl; [done|]. rewrite IH. by destruct (p x).
Qed.

Lemma reviewed_pr_contribution_Return username since_datetime pr l :
  reviewed_pr_contribution username since_datetime pr = Return l ->
  l = reviewed_pr_entries username since_datetime pr.
Proof.
  unfold reviewed_pr_contribution, reviewed_pr_entries.
  destruct (no_author_or_login_ne _ _); rewrite ?andb_false_r, ?andb_true_r.
  - destruct (nonempty _) eqn:Hne.
    + intros H. rewrite <- flat_map_map_filter.
      eapply collect_flat_map; [|exact H].
      intros review lx. unfold review_contribution.
      destruct (fromisoformat_Z _) as [t| |] eqn:Ht; simpl; [|done..].
      rewrite (fromisoformat_Z_passesb _ _ since_datetime Ht). congruence.
    + destruct (ReviewedPR.reviews pr); [|done]. simpl. congruence.
  - congruence.
Qed.

Lemma user_comments_Return username since_datetime comments l :
  collect (user_comment_contribution username since_datetime) comments
  = Return l ->
  l = user_comments_since username since_datetime comments.
Proof.
  intros H. unfold user_comments_since. rewrite <- flat_map_filter.
  eapply collect_flat_map; [|exact H].
  intros comment lx. unfold user_comment_contribution.
  destruct (is_user _ _); simpl; [|congruence].
  destruct (fromisoformat_Z _) as [t| |] eqn:Ht; simpl; [|done..].
  rewrite (fromisoformat_Z_passesb _ _ since_datetime Ht). congruence.
Qed.

Lemma commented_pr_contribution_Return username since_datetime pr l :
  commented_pr_contribution username since_datetime pr = Return l ->
  l = commented_pr_entries username since_datetime pr.
Proof.
  unfold commented_pr_contribution, commented_pr_entries.
  destruct (is_user _ _); simpl; [congruence|].
  destruct (collect _ _) as [ucs| |] eqn:Hucs; simpl; [|done..].
  apply user_comments_Return in Hucs as ->. congruence.
Qed.

Lemma threads_Return username since_datetime comments l :
  collect (thread_contribution username since_datetime) comments = Return l ->
  l = threads_since username since_datetime comments.
Proof.
  intros H. unfold threads_since.
  eapply collect_flat_map; [|exact H].
  intros comment lx. unfold thread_contribution, threads_of_comment.
  destruct (Comment.author comment) as [a|]; [|congruence].
  destruct (negb _); simpl; [|congruence].
  destruct (fromisoformat_Z _) as [t| |] eqn:Ht; simpl; [|done..].
  rewrite (fromisoformat_Z_passesb _ _ since_datetime Ht). congruence.
Qed.

Lemma thread_pr_contribution_Return username since_datetime pr l :
  thread_pr_contribution username since_datetime pr = Return l ->
  l = thread_pr_entries username since_datetime pr.
Proof.
  unfold thread_pr_contribution, thread_pr_entries.
  rewrite no_author_or_login_ne_is_user.
  destruct (is_user _ _); simpl; [|congruence].
  destruct (fromisoformat_Z _) as [t| |] eqn:Ht; simpl; [|done..].
  rewrite (fromisoformat_Z_passesb _ _ since_datetime Ht).
  destruct (since_datetime <=? t); simpl; [|congruence].
  destruct (collect _ _) as [ths| |] eqn:Hths; simpl; [|done..].
  apply threads_Return in Hths as ->. congruence.
Qed.

Lemma issue_contribution_Return username since_datetime issue l :
  issue_contribution username since_datetime issue = Return l ->
  l = issue_entries username since_datetime issue.
Proof.
  unfold issue_contribution, issue_entries, issue_qualifies.
  destruct (fromisoformat_Z _) as [t| |] eqn:Ht; simpl; [|done..].
  rewrite (fromisoformat_Z_passesb _ _ since_datetime Ht).
  destruct (collect _ _) as [ucs| |] eqn:Hucs; simpl; [|done..].
  apply user_comments_Return in Hucs as ->. congruence.
Qed.

(** *** Contributions do not fail on timestamps that parse *)

Lemma collect_total {A B} (g : A -> outcome (list B)) xs :
  (forall x, x ∈ xs -> exists l, g x = Return l) ->
  exists l, collect g xs = Return l.
Proof.
  induction xs as [|x xs IH]; intros Hg; simpl; [by eexists|].
  destruct (Hg x) as [lx ->]; [left|].
  destruct IH as [ls ->]; [intros; apply Hg; by right|]. by eexists.
Qed.

Lemma parses_fromisoformat_Z timestamp :
  parses timestamp -> exists t, fromisoformat_Z timestamp = Return t.
Proof. intros [t Ht]. exists t. by apply fromisoformat_Z_Return. Qed.

Lemma reviewed_pr_contribution_total username since_datetime pr :
  reviews_parse pr ->
  exists l, reviewed_pr_contribution username since_datetime pr = Return l.
Proof.
  intros Hp. unfold reviewed_pr_contribution.
  destruct (_ && _); [|by eexists]. apply collect_total.
  intros review Hr. unfold review_contribution.
  destruct (parses_fromisoformat_Z _ (Hp review Hr)) as [t ->]. by eexists.
Qed.

Lemma user_comments_total username since_datetime comments :
  (forall c, c ∈ comments -> parses (Comment.createdAt c)) ->
  exists l,
    collect (user_comment_contribution username since_datetime) comments
    = Return l.
Proof.
  intros Hp. apply collect_total. intros c Hc.
  unfold user_comment_contribution. destruct (is_user _ _); [|by eexists].
  destruct (parses_fromisoformat_Z _ (Hp c Hc)) as [t ->]. by eexists.
Qed.

Lemma commented_pr_contribution_total username since_datetime pr :
  discussion_parses pr ->
  exists l, commented_pr_contribution username since_datetime pr = Return l.
Proof.
  intros [_ Hc]. unfold commented_pr_contribution.
  destruct (is_user _ _); [by eexists|].
  destruct (user_comments_total username since_datetime _ Hc) as [ucs ->].
  by eexists.
Qed.

Lemma thread_pr_contribution_total username since_datetime pr :
  discussion_parses pr ->
  exists l, thread_pr_contribution username since_datetime pr = Return l.
Proof.
  intros [Hpr Hc]. unfold thread_pr_contribution.
  destruct (no_author_or_login_ne _ _); [by eexists|].
  destruct (parses_fromisoformat_Z _ Hpr) as [t ->]. simpl.
  destruct (since_datetime <=? t); [|by eexists].
  destruct (collect_total (thread_contribution username since_datetime)
              (Comments.nodes (Discussed.comments pr))) as [ths ->];
    [|by eexists].
  intros c Hin. unfold thread_contribution.
  destruct (Comment.author c) as [a|]; [|by eexists].
  destruct (negb _); [|by eexists].
  destruct (parses_fromisoformat_Z _ (Hc c Hin)) as [t' ->]. by eexists.
Qed.

Lemma issue_contribution_total username since_datetime issue :
  discussion_parses issue ->
  exists l, issue_contribution username since_datetime issue = Return l.
Proof.
  intros [Hi Hc]. unfold issue_contribution.
  destruct (parses_fromisoformat_Z _ Hi) as [t ->]. simpl.
  destruct (user_comments_total username since_datetime _ Hc) as [ucs ->].
  by eexists.
Qed.

(** *** The four category fetches, when they return *)

Section CollabFetch.
Context (endpoint : Endpoint) (fuel : nat).
Context (username owner name token since_date : string).

(** The shape shared by the four fetches: parse the cutoff, walk the feed
    with [paged_fetch], hand back the bucket. *)
Ltac enter_paged_fetch request step :=
  unfold bind at 1, lift at 1;
  let since_datetime := fresh "since_datetime" in
  let Hs := fresh "Hs" in
  destruct (fromisoformat_Z _) as [since_datetime| |] eqn:Hs; [|done..];
  apply fromisoformat_Z_Return in Hs; unfold bind at 1;
  match goal with
  | |- context [while ?fuel _ ?b _ ?log] =>
      change (while fuel Paging.has_next_page b Paging.start)
        with (paged_fetch fuel request (step since_datetime));
      let final := fresh "final" in
      let log1 := fresh "log1" in
      let Hrun := fresh "Hrun" in
      destruct (paged_fetch fuel request (step since_datetime) log)
        as [[final| |] log1] eqn:Hrun; [|done..];
      intros [= <- <-]; exists since_datetime
  end.

Lemma get_user_pr_reviews_Return log bucket log' :
  CollaborationExport.get_user_pr_reviews endpoint fuel username owner name
    token since_date log = (Return bucket, log') ->
  exists since_datetime cursors pages,
    Timestamp.parse since_date = Some since_datetime
    /\ walked (reviews_answer endpoint owner name username token)
              (reviews_request owner name username) log log' cursors pages
    /\ bucket = flat_map (reviewed_pr_entries username since_datetime)
                         (all_nodes pages).
Proof.
  unfold CollaborationExport.get_user_pr_reviews.
  enter_paged_fetch
    (fun c => make_graphql_request endpoint ReviewsQuery
                (reviews_variables owner name username c) token)
    (CollaborationExport.reviewed_pr_step username).
  eapply paged_fetch_Return in Hrun as (cursors & pages & Hwalk & Hitems).
  - exists cursors, pages. eauto.
  - intros c l.
    exact (make_graphql_request_run endpoint ReviewsQuery
             (reviews_variables owner name username c) token l).
  - apply reviewed_pr_step_appends.
  - apply reviewed_pr_contribution_Return.
Qed.

Lemma get_prs_with_user_comments_Return log bucket log' :
  CollaborationExport.get_prs_with_user_comments endpoint fuel username owner
    name token since_date log = (Return bucket, log') ->
  exists since_datetime cursors pages,
    Timestamp.parse since_date = Some since_datetime
    /\ walked (commented_answer endpoint owner name token)
              (commented_request owner name) log log' cursors pages
    /\ bucket = flat_map (commented_pr_entries username since_datetime)
                         (all_nodes pages).
Proof.
  unfold CollaborationExport.get_prs_with_user_comments.
  enter_paged_fetch
    (fun c => make_graphql_request endpoint CommentedQuery
                (paging_variables owner name c) token)
    (CollaborationExport.commented_pr_step username).
  eapply paged_fetch_Return in Hrun as (cursors & pages & Hwalk & Hitems).
  - exists cursors, pages. eauto.
  - intros c l.
    exact (make_graphql_request_run endpoint CommentedQuery
             (paging_variables owner name c) token l).
  - apply commented_pr_step_appends.
  - apply commented_pr_contribution_Return.
Qed.

Lemma get_user_pr_comment_threads_Return log bucket log' :
  CollaborationExport.get_user_pr_comment_threads endpoint fuel username
    owner name token since_date log = (Return bucket, log') ->
  exists since_datetime cursors pages,
    Timestamp.parse since_date = Some since_datetime
    /\ walked (threads_answer endpoint owner name token)
              (threads_request owner name) log log' cursors pages
    /\ bucket = flat_map (thread_pr_entries username since_datetime)
                         (all_nodes pages).
Proof.
  unfold CollaborationExport.get_user_pr_comment_threads.
  enter_paged_fetch
    (fun c => make_graphql_request endpoint ThreadsQuery
                (paging_variables owner name c) token)
    (CollaborationExport.thread_pr_step username).
  eapply paged_fetch_Return in Hrun as (cursors & pages & Hwalk & Hitems).
  - exists cursors, pages. eauto.
  - intros c l.
    exact (make_graphql_request_run endpoint ThreadsQuery
             (paging_variables owner name c) token l).
  - apply thread_pr_step_appends.
  - apply thread_pr_contribution_Return.
Qed.

Lemma get_issue_discussions_Return log bucket log' :
  CollaborationExport.get_issue_discussions endpoint fuel username owner name
    token since_date log = (Return bucket, log') ->
  exists since_datetime cursors pages,
    Timestamp.parse since_date = Some since_datetime
    /\ walked (issues_answer endpoint owner name token)
              (issues_request owner name) log log' cursors pages
    /\ bucket = flat_map (issue_entries username since_datetime)
                         (all_nodes pages).
Proof.
  unfold CollaborationExport.get_issue_discussions.
  enter_paged_fetch
    (fun c => make_graphql_request endpoint IssuesQuery
                (paging_variables owner name c) token)
    (CollaborationExport.issue_step username).
  eapply paged_fetch_Return in Hrun as (cursors & pages & Hwalk & Hitems).
  - exists cursors, pages. eauto.
  - intros c l.
    exact (make_graphql_request_run endpoint IssuesQuery
             (paging_variables owner name c) token l).
  - apply issue_step_appends.
  - apply issue_contribution_Return.
Qed.

(** The shape shared by the four fetches, towards their return. *)
Ltac returns_paged_fetch request step since_datetime Hs :=
  unfold bind at 1, lift at 1;
  rewrite (proj2 (fromisoformat_Z_Return _ _) Hs); unfold bind at 1;
  match goal with
  | |- context [while ?fuel _ ?b _ ?log] =>
      change (while fuel Paging.has_next_page b Paging.start)
        with (paged_fetch fuel request (step since_datetime))
  end.

Lemma get_user_pr_reviews_returns n log pages since_datetime :
  Timestamp.parse since_date = Some since_datetime ->
  feed (reviews_answer endpoint owner name username token) n None
  = Some pages ->
  (forall pr, pr ∈ all_nodes pages -> reviews_parse pr) ->
  (n <= fuel)%nat ->
  exists log',
    CollaborationExport.get_user_pr_reviews endpoint fuel username owner name
      token since_date log
    = (Return (flat_map (reviewed_pr_entries username since_datetime)
                        (all_nodes pages)), log').
Proof.
  intros Hs Hfeed Hparse Hle.
  unfold CollaborationExport.get_user_pr_reviews.
  returns_paged_fetch
    (fun c => make_graphql_request endpoint ReviewsQuery
                (reviews_variables owner name username c) token)
    (CollaborationExport.reviewed_pr_step username) since_datetime Hs.
  destruct (paged_fetch_returns
              (fun c => make_graphql_request endpoint ReviewsQuery
                          (reviews_variables owner name username c) token)
              (reviews_answer endpoint owner name username token)
              (reviews_request owner name username)
              (CollaborationExport.reviewed_pr_step username since_datetime)
              (reviewed_pr_contribution username since_datetime)
              (fun c l => make_graphql_request_run endpoint ReviewsQuery
                            (reviews_variables owner name username c) token l)
              (reviewed_pr_step_appends username since_datetime)
              (reviewed_pr_entries username since_datetime)
              (reviewed_pr_contribution_Return username since_datetime)
              n fuel log pages Hfeed
              (fun x Hx => reviewed_pr_contribution_total _ _ _ (Hparse x Hx)) Hle)
    as (final & log' & -> & <-).
  by exists log'.
Qed.

Lemma get_prs_with_user_comments_returns n log pages since_datetime :
  Timestamp.parse since_date = Some since_datetime ->
  feed (commented_answer endpoint owner name token) n None = Some pages ->
  (forall pr, pr ∈ all_nodes pages -> discussion_parses pr) ->
  (n <= fuel)%nat ->
  exists log',
    CollaborationExport.get_prs_with_user_comments endpoint fuel username
      owner name token since_date log
    = (Return (flat_map (commented_pr_entries username since_datetime)
                        (all_nodes pages)), log').
Proof.
  intros Hs Hfeed Hparse Hle.
  unfold CollaborationExport.get_prs_with_user_comments.
  returns_paged_fetch
    (fun c => make_graphql_request endpoint CommentedQuery
                (paging_variables owner name c) token)
    (CollaborationExport.commented_pr_step username) since_datetime Hs.
  destruct (paged_fetch_returns
              (fun c => make_graphql_request endpoint CommentedQuery
                          (paging_variables owner name c) token)
              (commented_answer endpoint owner name token)
              (commented_request owner name)
              (CollaborationExport.commented_pr_step username since_datetime)
              (commented_pr_contribution username since_datetime)
              (fun c l => make_graphql_request_run endpoint CommentedQuery
                            (paging_variables owner name c) token l)
              (commented_pr_step_appends username since_datetime)
              (commented_pr_entries username since_datetime)
              (commented_pr_contribution_Return username since_datetime)
              n fuel log pages Hfeed
              (fun x Hx => commented_pr_contribution_total _ _ _ (Hparse x Hx)) Hle)
    as (final & log' & -> & <-).
  by exists log'.
Qed.

Lemma get_user_pr_comment_threads_returns n log pages since_datetime :
  Timestamp.parse since_date = Some since_datetime ->
  feed (threads_answer endpoint owner name token) n None = Some pages ->
  (forall pr, pr ∈ all_nodes pages -> discussion_parses pr) ->
  (n <= fuel)%nat ->
  exists log',
    CollaborationExport.get_user_pr_comment_threads endpoint fuel username
      owner name token since_date log
    = (Return (flat_map (thread_pr_entries username since_datetime)
                        (all_nodes pages)), log').
Proof.
  intros Hs Hfeed Hparse Hle.
  unfold CollaborationExport.get_user_pr_comment_threads.
  returns_paged_fetch
    (fun c => make_graphql_request endpoint ThreadsQuery
                (paging_variables owner name c) token)
    (CollaborationExport.thread_pr_step username) since_datetime Hs.
  destruct (paged_fetch_returns
              (fun c => make_graphql_request endpoint ThreadsQuery
                          (paging_variables owner name c) token)
              (threads_answer endpoint owner name token)
              (threads_request owner name)
              (CollaborationExport.thread_pr_step username since_datetime)
              (thread_pr_contribution username since_datetime)
              (fun c l => make_graphql_request_run endpoint ThreadsQuery
                            (paging_variables owner name c) token l)
              (thread_pr_step_appends username since_datetime)
              (thread_pr_entries username since_datetime)
              (thread_pr_contribution_Return username since_datetime)
              n fuel log pages Hfeed
              (fun x Hx => thread_pr_contribution_total _ _ _ (Hparse x Hx)) Hle)
    as (final & log' & -> & <-).
  by exists log'.
Qed.

Lemma get_issue_discussions_returns n log pages since_datetime :
  Timestamp.parse since_date = Some since_datetime ->
  feed (issues_answer endpoint owner name token) n None = Some pages ->
  (forall issue, issue ∈ all_nodes pages -> discussion_parses issue) ->
  (n <= fuel)%nat ->
  exists log',
    CollaborationExport.get_issue_discussions endpoint fuel username owner
      name token since_date log
    = (Return (flat_map (issue_entries username since_datetime)
                        (all_nodes pages)), log').
Proof.
  intros Hs Hfeed Hparse Hle.
  unfold CollaborationExport.get_issue_discussions.
  returns_paged_fetch
    (fun c => make_graphql_request endpoint IssuesQuery
                (paging_variables owner name c) token)
    (CollaborationExport.issue_step username) since_datetime Hs.
  destruct (paged_fetch_returns
              (fun c => make_graphql_request endpoint IssuesQuery
                          (paging_variables owner name c) token)
              (issues_answer endpoint owner name token)
              (issues_request owner name)
              (CollaborationExport.issue_step username since_datetime)
              (issue_contribution username since_datetime)
              (fun c l => make_graphql_request_run endpoint IssuesQuery
                            (paging_variables owner name c) token l)
              (issue_step_appends username since_datetime)
              (issue_entries username since_datetime)
              (issue_contribution_Return username since_datetime)
              n fuel log pages Hfeed
              (fun x Hx => issue_contribution_total _ _ _ (Hparse x Hx)) Hle)
    as (final & log' & -> & <-).
  by exists log'.
Qed.

End CollabFetch.

(** *** Who is in a bucket *)

Lemma elem_of_flat_map {A B} (f : A -> list B) (l : list A) (y : B) :
  y ∈ flat_map f l <-> exists x, x ∈ l /\ y ∈ f x.
Proof.
  rewrite list_elem_of_In, in_flat_map.
  split; intros (x & Hx & Hy); exists x;
    by rewrite ?list_elem_of_In in *.
Qed.

Lemma elem_of_filter_bool {A} (p : A -> bool) (l : list A) (x : A) :
  x ∈ List.filter p l <-> x ∈ l /\ p x = true.
Proof. by rewrite !list_elem_of_In, filter_In. Qed.

Lemma elem_of_reviews_bucket username since_datetime nodes e :
  e ∈ flat_map (reviewed_pr_entries username since_datetime) nodes
  <-> exists pr review,
        pr ∈ nodes
        /\ review ∈ ReviewedPR.reviews pr
        /\ is_user (ReviewedPR.author pr) username = false
        /\ passes since_datetime (Review.createdAt review)
        /\ e = CollaborationExport.pr_with_review pr review.
Proof.
  rewrite elem_of_flat_map. unfold reviewed_pr_entries. split.
  - intros (pr & Hpr & He). rewrite no_author_or_login_ne_is_user in He.
    destruct (is_user _ _) eqn:Hu; simpl in He; [by apply elem_of_nil in He|].
    apply list_elem_of_In, in_map_iff in He as (review & <- & Hr).
    apply list_elem_of_In, elem_of_filter_bool in Hr as [Hr Hp%passesb_true].
    by exists pr, review.
  - intros (pr & review & Hpr & Hr & Hu & Hp & ->).
    exists pr. split; [done|].
    rewrite no_author_or_login_ne_is_user, Hu. simpl.
    apply list_elem_of_In, in_map, list_elem_of_In, elem_of_filter_bool.
    split; [done|]. by apply passesb_true.
Qed.

Lemma elem_of_user_comments_since username since_datetime comments c :
  c ∈ user_comments_since username since_datetime comments
  <-> c ∈ comments
      /\ is_user (Comment.author c) username = true
      /\ passes since_datetime (Comment.createdAt c).
Proof.
  unfold user_comments_since.
  by rewrite elem_of_filter_bool, andb_true_iff, passesb_true.
Qed.

Lemma elem_of_threads_since username since_datetime comments thread :
  thread ∈ threads_since username since_datetime comments
  <-> exists c a,
        c ∈ comments
        /\ Comment.author c = Some a
        /\ Actor.login a <> username
        /\ passes since_datetime (Comment.createdAt c)
        /\ thread = CollaborationExport.thread_of c a.
Proof.
  unfold threads_since. rewrite elem_of_flat_map. split.
  - intros (c & Hc & Ht). unfold threads_of_comment in Ht.
    destruct (Comment.author c) as [a|] eqn:Ha; [|by apply elem_of_nil in Ht].
    destruct (String.eqb_spec (Actor.login a) username) as [|Hne];
      simpl in Ht; [by apply elem_of_nil in Ht|].
    destruct (passesb _ _) eqn:Hp; [|by apply elem_of_nil in Ht].
    apply list_elem_of_singleton in Ht as ->. apply passesb_true in Hp.
    by exists c, a.
  - intros (c & a & Hc & Ha & Hne & Hp%passesb_true & ->).
    exists c. split; [done|]. unfold threads_of_comment. rewrite Ha, Hp.
    destruct (String.eqb_spec (Actor.login a) username); [done|].
    simpl. by apply list_elem_of_singleton.
Qed.

Lemma elem_of_commented_bucket username since_datetime nodes e :
  e ∈ flat_map (commented_pr_entries username since_datetime) nodes
  <-> exists pr,
        pr ∈ nodes
        /\ is_user (Discussed.author pr) username = false
        /\ user_comments_since username since_datetime
             (Comments.nodes (Discussed.comments pr)) <> []
        /\ e = CollaborationExport.commented_entry pr
                 (user_comments_since username since_datetime
                    (Comments.nodes (Discussed.comments pr))).
Proof.
  rewrite elem_of_flat_map. unfold commented_pr_entries.
  split; intros (pr & Hpr & H); exists pr; (split; [done|]).
  - destruct (is_user _ _); simpl in H; [by apply elem_of_nil in H|].
    destruct (nonempty _) eqn:Hne; [|by apply elem_of_nil in H].
    apply list_elem_of_singleton in H. by apply nonempty_true in Hne.
  - destruct H as (-> & Hne%nonempty_true & ->). simpl. rewrite Hne.
    by apply list_elem_of_singleton.
Qed.

Lemma elem_of_threads_bucket username since_datetime nodes e :
  e ∈ flat_map (thread_pr_entries username since_datetime) nodes
  <-> exists pr,
        pr ∈ nodes
        /\ is_user (Discussed.author pr) username = true
        /\ passes since_datetime (Discussed.createdAt pr)
        /\ threads_since username since_datetime
             (Comments.nodes (Discussed.comments pr)) <> []
        /\ e = CollaborationExport.thread_entry pr
                 (threads_since username since_datetime
                    (Comments.nodes (Discussed.comments pr))).
Proof.
  rewrite elem_of_flat_map. unfold thread_pr_entries.
  split; intros (pr & Hpr & H); exists pr; (split; [done|]).
  - destruct (is_user _ _); simpl in H; [|by apply elem_of_nil in H].
    destruct (passesb _ _) eqn:Hp; simpl in H; [|by apply elem_of_nil in H].
    destruct (nonempty _) eqn:Hne; [|by apply elem_of_nil in H].
    apply list_elem_of_singleton in H.
    by apply nonempty_true in Hne; apply passesb_true in Hp.
  - destruct H as (-> & ->%passesb_true & Hne%nonempty_true & ->). simpl.
    rewrite Hne. by apply list_elem_of_singleton.
Qed.

Lemma issue_qualifies_true username since_datetime issue :
  issue_qualifies username since_datetime issue = true
  <-> (is_user (Discussed.author issue) username = true
       /\ passes since_datetime (Discussed.createdAt issue))
      \/ (exists c,
            c ∈ Comments.nodes (Discussed.comments issue)
            /\ is_user (Comment.author c) username = true
            /\ passes since_datetime (Comment.createdAt c)).
Proof.
  unfold issue_qualifies.
  rewrite orb_true_iff, andb_true_iff, passesb_true, nonempty_true.
  apply or_iff_compat_l. split.
  - intros Hne.
    destruct (user_comments_since _ _ _) as [|c l] eqn:Hl; [done|].
    exists c. apply elem_of_user_comments_since. rewrite Hl. left.
  - intros (c & Hc) Hnil.
    apply elem_of_user_comments_since in Hc. rewrite Hnil in Hc.
    by apply elem_of_nil in Hc.
Qed.

Lemma elem_of_issues_bucket username since_datetime nodes e :
  e ∈ flat_map (issue_entries username since_datetime) nodes
  <-> exists issue,
        issue ∈ nodes
        /\ issue_qualifies username since_datetime issue = true
        /\ e = CollaborationExport.issue_entry username issue
                 (user_comments_since username since_datetime
                    (Comments.nodes (Discussed.comments issue))).
Proof.
  rewrite elem_of_flat_map. unfold issue_entries.
  split; intros (issue & Hi & H); exists issue; (split; [done|]).
  - destruct (issue_qualifies _ _ _); [|by apply elem_of_nil in H].
    by apply list_elem_of_singleton in H.
  - destruct H as (-> & ->). by apply list_elem_of_singleton.
Qed.

(** ** The aggregator *)

Lemma elem_of_elements (s : CollaborationExport.PySet.t) x :
  x ∈ CollaborationExport.PySet.elements s <-> x ∈ (s : list string).
Proof. unfold CollaborationExport.PySet.elements. apply elem_of_list_to_set. Qed.

Lemma elem_of_add x (s : CollaborationExport.PySet.t) y :
  y ∈ CollaborationExport.PySet.elements (CollaborationExport.PySet.add x s)
  <-> y ∈ CollaborationExport.PySet.elements s \/ x = y.
Proof.
  rewrite !elem_of_elements. unfold CollaborationExport.PySet.add.
  rewrite elem_of_app, list_elem_of_singleton. split; intros [?|?]; auto.
Qed.

(** A loop that adds to a set: what is in the set afterwards. *)
Lemma fold_left_adds {A}
    (F : CollaborationExport.PySet.t -> A -> CollaborationExport.PySet.t)
    (Q : A -> string -> Prop) (l : list A) (c0 : CollaborationExport.PySet.t)
    (x : string) :
  (forall c e y,
     y ∈ CollaborationExport.PySet.elements (F c e)
     <-> y ∈ CollaborationExport.PySet.elements c \/ Q e y) ->
  x ∈ CollaborationExport.PySet.elements (fold_left F l c0)
  <-> x ∈ CollaborationExport.PySet.elements c0
      \/ exists e, e ∈ l /\ Q e x.
Proof.
  intros HF. revert c0. induction l as [|e l IH]; intros c0; simpl.
  - split; [auto|]. intros [?|(e & ?%elem_of_nil & _)]; done.
  - rewrite IH, HF. split.
    + intros [[?|?]|(e' & ? & ?)]; [by left|right..].
      * exists e. split; [left|done].
      * exists e'. split; [by right|done].
    + intros [?|(e' & [->|?]%elem_of_cons & ?)]; [by left; left|by left; right|].
      right. by exists e'.
Qed.

Lemma elem_of_add_unless_Unknown x c y :
  y ∈ CollaborationExport.PySet.elements
        (CollaborationExport.add_unless_Unknown x c)
  <-> y ∈ CollaborationExport.PySet.elements c \/ (x = y /\ y <> "Unknown").
Proof.
  unfold CollaborationExport.add_unless_Unknown.
  destruct (String.eqb_spec x "Unknown") as [->|Hne]; simpl.
  - split; [auto|]. by intros [?|[<- ?]].
  - rewrite elem_of_add. split.
    + intros [?|<-]; auto.
    + intros [?|[-> ?]]; auto.
Qed.

(** The elements of the set [collaborators] after the four loops. *)
Lemma elem_of_collaborators pr_reviews commented_prs pr_threads
    issue_discussions x :
  x ∈ CollaborationExport.PySet.elements
        (CollaborationExport.collaborators pr_reviews commented_prs
           pr_threads issue_discussions)
  <-> x <> "Unknown"
      /\ named_by pr_reviews commented_prs pr_threads issue_discussions x.
Proof.
  unfold CollaborationExport.collaborators, named_by. cbv zeta.
  rewrite (fold_left_adds _
    (fun e y => CollaborationExport.IssueEntry.issue_author e = y
                /\ y <> "Unknown"
                /\ truthy (CollaborationExport.IssueEntry.is_authored_by_user e)
                   = false)); cycle 1.
  { intros c e y.
    destruct (String.eqb_spec (CollaborationExport.IssueEntry.issue_author e)
                "Unknown") as [Heq|Hne]; simpl.
    - split; [auto|]. intros [?|(<- & ? & _)]; done.
    - destruct (truthy _); simpl.
      + split; [auto|]. intros [?|(_ & _ & ?)]; done.
      + rewrite elem_of_add. split.
        * intros [?|<-]; auto.
        * intros [?|(-> & _)]; auto. }
  rewrite (fold_left_adds _
    (fun e y => exists thread,
       thread ∈ CollaborationExport.ThreadEntry.discussion_threads e
       /\ CollaborationExport.Thread.comment_author thread = y
       /\ y <> "Unknown")); cycle 1.
  { intros c e y.
    rewrite (fold_left_adds _
      (fun thread y =>
         CollaborationExport.Thread.comment_author thread = y
         /\ y <> "Unknown"))
      by (intros; apply elem_of_add_unless_Unknown).
    split; (intros [?|(th & ? & ?)]; [by left|right; eauto]). }
  rewrite (fold_left_adds _
    (fun e y => CollaborationExport.CommentedEntry.pr_author e = y
                /\ y <> "Unknown"))
    by (intros; apply elem_of_add_unless_Unknown).
  rewrite (fold_left_adds _
    (fun e y => CollaborationExport.ReviewEntry.pr_author e = y
                /\ y <> "Unknown"))
    by (intros; apply elem_of_add_unless_Unknown).
  unfold CollaborationExport.PySet.new. rewrite elem_of_elements. split.
  - intros [[[[[]%elem_of_nil|(e & ? & ? & ?)]|(e & ? & ? & ?)]
             |(e & ? & th & ? & ? & ?)]|(e & ? & ? & ? & ?)];
      (split; [done|]); eauto 10.
  - intros (Hx & [(e & ? & ?)|[(e & ? & ?)|[(e & th & ? & ? & ?)
                                           |(e & ? & ? & ?)]]]).
    + left; left; left; right. eauto.
    + left; left; right. eauto.
    + left; right. eauto 10.
    + right. eauto 10.
Qed.

(** The names that the statistics list, on a host whose [list(s)]
    enumerates [s]. *)
Lemma elem_of_collaborator_list listed pr_reviews commented_prs pr_threads
    issue_discussions x :
  enumerates listed ->
  x ∈ CollaborationExport.Stats.collaborator_list
        (CollaborationExport.get_collaboration_stats listed pr_reviews
           commented_prs pr_threads issue_discussions)
  <-> x <> "Unknown"
      /\ named_by pr_reviews commented_prs pr_threads issue_discussions x.
Proof.
  intros Hlisted. unfold CollaborationExport.get_collaboration_stats.
  cbn [CollaborationExport.Stats.collaborator_list].
  rewrite (proj2 (Hlisted _)). apply elem_of_collaborators.
Qed.

Lemma sum_acc {A} (f : A -> Z) l a :
  fold_left (fun total x => total + f x) l a = a + sum f l.
Proof.
  unfold sum. revert a. induction l as [|x l IH]; intros a; simpl; [lia|].
  rewrite (IH (a + f x)), (IH (0 + f x)). lia.
Qed.

Lemma sum_cons {A} (f : A -> Z) x l : sum f (x :: l) = f x + sum f l.
Proof. unfold sum at 1. simpl. apply sum_acc. Qed.

Lemma sum_Permutation {A} (f : A -> Z) l l' :
  Permutation l l' -> sum f l = sum f l'.
Proof.
  induction 1; rewrite ?sum_cons; [done|lia|lia|congruence].
Qed.

Lemma len_Permutation {A} (l l' : list A) :
  Permutation l l' -> len l = len l'.
Proof. intros H. unfold len. by rewrite (Permutation_length H). Qed.

Lemma named_by_Permutation a a' b b' c c' d d' x :
  Permutation a a' -> Permutation b b' -> Permutation c c' ->
  Permutation d d' ->
  named_by a b c d x -> named_by a' b' c' d' x.
Proof.
  intros Ha Hb Hc Hd. unfold named_by.
  intros [(e & He & ?)|[(e & He & ?)|[(e & th & He & ?)|(e & He & ?)]]].
  - left. exists e. by rewrite <- Ha.
  - right; left. exists e. by rewrite <- Hb.
  - right; right; left. exists e, th. by rewrite <- Hc.
  - right; right; right. exists e. by rewrite <- Hd.
Qed.

Lemma collaborators_Permutation a a' b b' c c' d d' :
  Permutation a a' -> Permutation b b' -> Permutation c c' ->
  Permutation d d' ->
  CollaborationExport.PySet.elements (CollaborationExport.collaborators a b c d)
  = CollaborationExport.PySet.elements
      (CollaborationExport.collaborators a' b' c' d').
Proof.
  intros Ha Hb Hc Hd. apply set_eq. intros x.
  rewrite !elem_of_collaborators.
  split; intros [Hx Hn]; (split; [done|]);
    eapply named_by_Permutation; try exact Hn; done.
Qed.

Lemma collaborator_list_Permutation listed a a' b b' c c' d d' :
  enumerates listed ->
  Permutation a a' -> Permutation b b' -> Permutation c c' ->
  Permutation d d' ->
  Permutation
    (CollaborationExport.Stats.collaborator_list
       (CollaborationExport.get_collaboration_stats listed a b c d))
    (CollaborationExport.Stats.collaborator_list
       (CollaborationExport.get_collaboration_stats listed a' b' c' d')).
Proof.
  intros Hlisted Ha Hb Hc Hd.
  unfold CollaborationExport.get_collaboration_stats.
  cbn [CollaborationExport.Stats.collaborator_list].
  apply NoDup_Permutation; [apply Hlisted..|]. intros x.
  rewrite !(proj2 (Hlisted _)).
  by rewrite (collaborators_Permutation a a' b b' c c' d d').
Qed.

(** The statistics, every field in terms of the buckets and of the set of
    collaborators. *)
Lemma get_collaboration_stats_fields listed a b c d :
  CollaborationExport.get_collaboration_stats listed a b c d
  = let collaborators := CollaborationExport.collaborators a b c d in
    {| CollaborationExport.Stats.unique_collaborators :=
         CollaborationExport.PySet.len collaborators;
       CollaborationExport.Stats.collaborator_list := listed collaborators;
       CollaborationExport.Stats.total_pr_reviews := len a;
       CollaborationExport.Stats.total_review_comments :=
         sum CollaborationExport.ReviewEntry.review_comments_count a;
       CollaborationExport.Stats.total_prs_commented_on := len b;
       CollaborationExport.Stats.total_pr_comments :=
         sum CollaborationExport.CommentedEntry.comment_count b;
       CollaborationExport.Stats.total_pr_discussion_threads :=
         sum CollaborationExport.ThreadEntry.thread_count c;
       CollaborationExport.Stats.total_issues_engaged_with := len d;
       CollaborationExport.Stats.total_issue_comments :=
         sum CollaborationExport.IssueEntry.comment_count d;
       CollaborationExport.Stats.total_collaboration_touchpoints :=
         len a + sum CollaborationExport.ReviewEntry.review_comments_count a
         + sum CollaborationExport.CommentedEntry.comment_count b
         + sum CollaborationExport.ThreadEntry.thread_count c
         + sum CollaborationExport.IssueEntry.comment_count d |}.
Proof. reflexivity. Qed.

(** Listing a set in the order of first insertion enumerates it. *)
Lemma in_insertion_order_enumerates : enumerates in_insertion_order.
Proof.
  intros s. induction s as [|x s [IHnd IHin]].
  - split; [constructor|]. intros x. rewrite elem_of_elements. done.
  - cbn [in_insertion_order]. split.
    + constructor.
      * rewrite list_elem_of_In, filter_In, String.eqb_refl. by intros [_ ?].
      * by apply NoDup_ListNoDup, List.NoDup_filter, NoDup_ListNoDup.
    + intros y. rewrite elem_of_elements, !elem_of_cons.
      rewrite list_elem_of_In, filter_In, <- list_elem_of_In, IHin,
        elem_of_elements.
      destruct (String.eqb_spec y x) as [->|Hne]; simpl.
      * split; auto.
      * split; [intros [?|[? _]]; auto|intros [?|?]; [done|auto]].
Qed.

(** ** Deduplication of commits *)

Lemma find_app {A} (f : A -> bool) (l1 l2 : list A) :
  find f (l1 ++ l2)
  = match find f l1 with Some x => Some x | None => find f l2 end.
Proof. induction l1 as [|a l1 IH]; simpl; [done|]. by destruct (f a). Qed.

Lemma find_oid_None k l :
  k ∉ map Commit.oid l -> find (oid_is k) l = None.
Proof.
  induction l as [|c l IH]; [done|].
  intros Hk. cbn [find]. unfold oid_is at 1.
  destruct (String.eqb_spec (Commit.oid c) k) as [Heq|Hne].
  - exfalso. apply Hk. rewrite <- Heq. cbn [map]. left.
  - apply IH. intros H. apply Hk. cbn [map]. by right.
Qed.

Lemma dedup_inv_fold l :
  dedup_inv l (fold_left WorkSummary.dedup_step l WorkSummary.Dedup.start).
Proof.
  induction l as [|c l IH] using rev_ind.
  - split; simpl;
      [set_solver | done | constructor | by intros c ?%elem_of_nil | done].
  - rewrite fold_left_app. simpl.
    set (s := fold_left WorkSummary.dedup_step l WorkSummary.Dedup.start) in *.
    destruct IH as [Hseen Hkeys Hnd Hfirst Hord].
    unfold WorkSummary.dedup_step.
    destruct (decide (Commit.oid c ∈ WorkSummary.Dedup.seen_oids s))
      as [Hin|Hout].
    + split.
      * intros k. rewrite map_app, elem_of_app, Hseen. simpl.
        rewrite list_elem_of_singleton.
        split; [tauto|]. intros [?| ->]; [done|]. by apply Hseen.
      * intros k. rewrite map_app, elem_of_app, Hkeys. simpl.
        rewrite list_elem_of_singleton.
        split; [tauto|]. intros [?| ->]; [done|]. by apply Hseen.
      * done.
      * intros c' Hc'. rewrite find_app, (Hfirst c' Hc'). done.
      * by apply sublist_inserts_r.
    + assert (Hnew : Commit.oid c ∉ map Commit.oid l) by (by rewrite <- Hseen).
      split; simpl.
      * intros k.
        rewrite map_app, elem_of_app, elem_of_union, elem_of_singleton, Hseen.
        simpl. rewrite list_elem_of_singleton. tauto.
      * intros k. rewrite !map_app, !elem_of_app, Hkeys. done.
      * rewrite map_app. simpl. apply NoDup_app. split; [done|]. split.
        -- intros k Hk ->%list_elem_of_singleton. by apply Hnew, Hkeys.
        -- apply NoDup_singleton.
      * intros c' [Hc'| ->%list_elem_of_singleton]%elem_of_app;
          rewrite find_app.
        -- by rewrite (Hfirst c' Hc').
        -- rewrite find_oid_None by done. simpl. unfold oid_is.
           by rewrite String.eqb_refl.
      * by apply sublist_app.
Qed.

Lemma first_index_lt k l p : first_index k l = Some p -> (p < length l)%nat.
Proof.
  revert p. induction l as [|c l IH]; intros p; simpl; [done|].
  destruct (oid_is k c); [intros [= <-]; lia|].
  destruct (first_index k l) as [q|]; [|done]. intros [= <-].
  specialize (IH q eq_refl). lia.
Qed.

Lemma first_index_app_l k l l' p :
  first_index k l = Some p -> first_index k (l ++ l') = Some p.
Proof.
  revert p. induction l as [|c l IH]; intros p; simpl; [done|].
  destruct (oid_is k c); [done|].
  destruct (first_index k l) as [q|]; [|done]. intros [= <-].
  by rewrite (IH q eq_refl).
Qed.

Lemma first_index_is_Some k l :
  k ∈ map Commit.oid l -> is_Some (first_index k l).
Proof.
  induction l as [|c l IH]; cbn [map first_index]; [by intros ?%elem_of_nil|].
  unfold oid_is at 1.
  destruct (String.eqb_spec (Commit.oid c) k) as [Heq|Hne]; [by eexists|].
  intros [?|Hin]%elem_of_cons; [congruence|].
  destruct (IH Hin) as [p ->]. by eexists.
Qed.

Lemma first_index_new c l :
  Commit.oid c ∉ map Commit.oid l ->
  first_index (Commit.oid c) (l ++ [c]) = Some (length l).
Proof.
  induction l as [|c' l IH]; cbn [map first_index app length].
  - intros _. unfold oid_is. by rewrite String.eqb_refl.
  - intros Hnot. unfold oid_is at 1.
    destruct (String.eqb_spec (Commit.oid c') (Commit.oid c)) as [Heq|Hne].
    + exfalso. apply Hnot. rewrite Heq. left.
    + rewrite IH; [done|]. intros Hin. apply Hnot. by right.
Qed.

(** The records kept stand in the order in which their oids first occur
    among the commits gone through. *)
Lemma dedup_order_fold l i j ci cj :
  let unique_commits :=
    WorkSummary.Dedup.unique_commits
      (fold_left WorkSummary.dedup_step l WorkSummary.Dedup.start) in
  unique_commits !! i = Some ci ->
  unique_commits !! j = Some cj ->
  (i < j)%nat ->
  exists pi pj,
    first_index (Commit.oid ci) l = Some pi
    /\ first_index (Commit.oid cj) l = Some pj
    /\ (pi < pj)%nat.
Proof.
  cbv zeta. revert i j ci cj.
  induction l as [|c l IH] using rev_ind; intros i j ci cj; [done|].
  rewrite fold_left_app. cbn [fold_left].
  destruct (dedup_inv_fold l) as [Hseen Hkeys _ _ _].
  set (s := fold_left WorkSummary.dedup_step l WorkSummary.Dedup.start) in *.
  unfold WorkSummary.dedup_step.
  destruct (decide (Commit.oid c ∈ WorkSummary.Dedup.seen_oids s))
    as [Hin|Hout].
  - intros Hi Hj Hlt.
    destruct (IH i j ci cj Hi Hj Hlt) as (pi & pj & Hpi & Hpj & Hp).
    exists pi, pj. by rewrite !(first_index_app_l _ _ [c] _) by done.
  - cbn [WorkSummary.Dedup.unique_commits]. intros Hi Hj Hlt.
    assert (Hnew : Commit.oid c ∉ map Commit.oid l) by (by rewrite <- Hseen).
    assert (Hilt : (i < length (WorkSummary.Dedup.unique_commits s))%nat).
    { apply lookup_lt_Some in Hj. rewrite length_app in Hj. simpl in Hj.
      lia. }
    rewrite lookup_app_l in Hi by done.
    destruct (decide (j < length (WorkSummary.Dedup.unique_commits s))%nat)
      as [Hjlt|Hjge].
    + rewrite lookup_app_l in Hj by done.
      destruct (IH i j ci cj Hi Hj Hlt) as (pi & pj & Hpi & Hpj & Hp).
      exists pi, pj. by rewrite !(first_index_app_l _ _ [c] _) by done.
    + rewrite lookup_app_r in Hj by lia.
      destruct (j - length (WorkSummary.Dedup.unique_commits s))%nat
        as [|n] eqn:Hn; [|done].
      injection Hj as <-.
      assert (Hci : Commit.oid ci ∈ map Commit.oid l).
      { apply Hkeys, list_elem_of_fmap. exists ci. split; [done|].
        by eapply list_elem_of_lookup_2. }
      destruct (first_index_is_Some _ _ Hci) as [pi Hpi].
      exists pi, (length l). split; [by apply first_index_app_l|].
      split; [by apply first_index_new|]. by eapply first_index_lt.
Qed.

(** C4.  Whatever the concatenated probe results are, the deduplicated
    list has no two entries with the same oid, has an entry for exactly
    the oids of the input, holds for each oid the first input record
    carrying it, and keeps these records in the order in which their oids
    first occur in the input: of two entries, the one that stands first
    is the one whose oid occurs first.  In particular it is a subsequence
    of the input. *)
Theorem C4_remove_duplicates_first_seen (all_commits : list Commit.t) :
  let unique_commits := WorkSummary.remove_duplicates all_commits in
  NoDup (map Commit.oid unique_commits)
  /\ (forall k, k ∈ map Commit.oid unique_commits
                <-> k ∈ map Commit.oid all_commits)
  /\ (forall c, c ∈ unique_commits ->
                find (oid_is (Commit.oid c)) all_commits = Some c)
  /\ (forall i j ci cj,
        unique_commits !! i = Some ci ->
        unique_commits !! j = Some cj ->
        (i < j)%nat ->
        exists pi pj,
          first_index (Commit.oid ci) all_commits = Some pi
          /\ first_index (Commit.oid cj) all_commits = Some pj
          /\ (pi < pj)%nat)
  /\ sublist unique_commits all_commits.
Proof.
  destruct (dedup_inv_fold all_commits) as [_ Hkeys Hnd Hfirst Hord].
  unfold WorkSummary.remove_duplicates. cbv zeta.
  repeat (split; [done|]). split; [|done].
  intros i j ci cj. apply dedup_order_fold.
Qed.

(** ** The loops of github-work-summary.py *)

(** A property of the loop variables and the log that every iteration
    keeps holds when the loop returns. *)
Lemma while_invariant {S} (I : S -> Log -> Prop) fuel (cond : S -> bool)
    body s log out log' :
  (forall s log r log1,
     I s log -> cond s = true -> body s log = (Return r, log1) ->
     I (state_of r) log1) ->
  I s log ->
  while fuel cond body s log = (Return out, log') ->
  I out log'.
Proof.
  intros Hbody. revert s log. induction fuel as [|fuel IH]; intros s log HI;
    simpl; destruct (cond s) eqn:Hc; try done;
    try (by intros [= <- <-]).
  unfold bind. destruct (body s log) as [[r| |] log1] eqn:Hb; [|done..].
  specialize (Hbody _ _ _ _ HI Hc Hb). destruct r as [s'|s']; simpl in Hbody.
  - by apply IH.
  - by intros [= <- <-].
Qed.

(** The loop over one page of pull requests: what it adds was authored by
    the target user and passes the filter, and it leaves
    [continue_fetching] false as soon as the page holds a pull request
    older than the cutoff. *)
Lemma pr_loop_Return username since_datetime prs all_prs cf all_prs' cf' :
  for_each prs (WorkSummary.pr_step username since_datetime) (all_prs, cf)
  = Return (all_prs', cf') ->
  (forall pr, pr ∈ all_prs' ->
     pr ∈ all_prs
     \/ (is_user (PullRequest.author pr) username = true
         /\ passes since_datetime (PullRequest.createdAt pr)))
  /\ ((exists pr, pr ∈ prs /\ older since_datetime (PullRequest.createdAt pr))
      -> cf' = false).
Proof.
  revert all_prs cf. induction prs as [|pr prs IH]; intros all_prs cf; simpl.
  - intros [= <- <-]. split; [auto|]. by intros (pr & ?%elem_of_nil & _).
  - destruct (fromisoformat_Z (PullRequest.createdAt pr)) as [t| |] eqn:Ht;
      simpl; [|done..].
    apply fromisoformat_Z_Return in Ht.
    fold (is_user (PullRequest.author pr) username).
    destruct (is_user _ _ && (since_datetime <=? t)) eqn:Hadd.
    + intros [Hall Hold]%IH. apply andb_true_iff in Hadd as [Hu Hle%Z.leb_le].
      split.
      * intros pr' [[?| ->%list_elem_of_singleton]%elem_of_app|?]%Hall; auto.
        right. split; [done|]. by exists t.
      * intros (pr' & [->|Hin]%elem_of_cons & Ho); [|eauto].
        destruct Ho as (t' & Ht' & ?). assert (t' = t) by congruence. lia.
    + destruct (t <? since_datetime) eqn:Hlt.
      * intros [= <- <-]. auto.
      * intros [Hall Hold]%IH. split; [done|].
        intros (pr' & [->|Hin]%elem_of_cons & Ho); [|eauto].
        destruct Ho as (t' & Ht' & ?). assert (t' = t) by congruence.
        apply Z.ltb_ge in Hlt. lia.
Qed.

Lemma get_user_pull_requests_unfold endpoint fuel username owner name token
    since_date :
  WorkSummary.get_user_pull_requests endpoint fuel username owner name token
    since_date
  = (since_datetime <- lift (fromisoformat_Z since_date) ;;
     final <- while fuel pulls_cond
                (pulls_body endpoint username owner name token since_datetime)
                WorkSummary.PRLoop.start ;;
     ret (WorkSummary.PRLoop.all_prs final))%M.
Proof. reflexivity. Qed.

(** One iteration of the loop of [get_user_pull_requests]. *)
Lemma pulls_body_run endpoint username owner name token since_datetime s log :
  exists o,
    pulls_body endpoint username owner name token since_datetime s log
    = (o, log ++ [pulls_request owner name (WorkSummary.PRLoop.cursor s)])
    /\ forall r, o = Return r ->
         exists pg all_prs cf,
           pulls_answer endpoint owner name token (WorkSummary.PRLoop.cursor s)
           = Return (Some pg)
           /\ for_each (Connection.nodes pg)
                (WorkSummary.pr_step username since_datetime)
                (WorkSummary.PRLoop.all_prs s,
                 WorkSummary.PRLoop.continue_fetching s)
              = Return (all_prs, cf)
           /\ r = Next (state_of r)
           /\ WorkSummary.PRLoop.all_prs (state_of r) = all_prs
           /\ WorkSummary.PRLoop.continue_fetching (state_of r) = cf
           /\ (cf = false -> pulls_cond (state_of r) = false).
Proof.
  unfold pulls_body, bind at 1.
  rewrite (make_graphql_request_run endpoint PullRequestsQuery).
  fold (paging_variables owner name (WorkSummary.PRLoop.cursor s)).
  fold (pulls_answer endpoint owner name token (WorkSummary.PRLoop.cursor s)).
  fold (pulls_request owner name (WorkSummary.PRLoop.cursor s)).
  destruct (pulls_answer _ _ _ _ _) as [[pg|]| |] eqn:Hans;
    try (eexists; split; [reflexivity|done]).
  unfold bind, repository_field, ret, lift.
  destruct (for_each _ _ _) as [[all_prs cf]| |] eqn:Hloop;
    try (eexists; split; [reflexivity|done]).
  destruct (cf && PageInfo.hasNextPage _) eqn:Hnext;
    (eexists; split; [reflexivity|]); intros r [= <-];
    exists pg, all_prs, cf; simpl; repeat (split; [done|]).
  - intros ->. done.
  - intros _. done.
Qed.

(** The requests of the loop of [get_user_pull_requests], whatever its
    outcome: once a page holding a pull request older than the cutoff has
    been fetched, no further request is sent. *)
Lemma pulls_while_log endpoint username owner name token since_datetime
    fuel s log o log' :
  while fuel pulls_cond
    (pulls_body endpoint username owner name token since_datetime) s log
  = (o, log') ->
  exists cursors,
    log' = log ++ map (pulls_request owner name) cursors
    /\ forall pre c post pg pr,
         cursors = pre ++ c :: post ->
         pulls_answer endpoint owner name token c = Return (Some pg) ->
         pr ∈ Connection.nodes pg ->
         older since_datetime (PullRequest.createdAt pr) ->
         post = [].
Proof.
  assert (Hnone : forall l : Log,
            exists cursors : list (option string),
              l = l ++ map (pulls_request owner name) cursors
              /\ forall pre c post pg pr,
                   cursors = pre ++ c :: post ->
                   pulls_answer endpoint owner name token c
                   = Return (Some pg) ->
                   pr ∈ Connection.nodes pg ->
                   older since_datetime (PullRequest.createdAt pr) ->
                   post = []).
  { intros l. exists []. split; [by rewrite app_nil_r|].
    intros pre c post pg pr H. by destruct pre. }
  assert (Hone : forall l c,
            exists cursors : list (option string),
              l ++ [pulls_request owner name c]
              = l ++ map (pulls_request owner name) cursors
              /\ forall pre c' post pg pr,
                   cursors = pre ++ c' :: post ->
                   pulls_answer endpoint owner name token c'
                   = Return (Some pg) ->
                   pr ∈ Connection.nodes pg ->
                   older since_datetime (PullRequest.createdAt pr) ->
                   post = []).
  { intros l c. exists [c]. split; [done|].
    intros pre c' post pg pr H _ _ _.
    destruct pre as [|? [|? ?]]; simpl in H; [|done..]. by injection H. }
  revert s log o log'.
  induction fuel as [|fuel IH]; intros s log o log'; simpl.
  - destruct (pulls_cond s); intros [= <- <-]; apply Hnone.
  - destruct (pulls_cond s) eqn:Hc; [|intros [= <- <-]; apply Hnone].
    unfold bind.
    destruct (pulls_body_run endpoint username owner name token since_datetime
                s log) as (ob & -> & Hob).
    destruct ob as [r| |]; [|intros [= <- <-]; apply Hone..].
    destruct (Hob r eq_refl)
      as (pg & all_prs & cf & Hans & Hloop & Hr & _ & _ & Hstop).
    rewrite Hr. set (s' := state_of r) in *. intros Hrun.
    destruct (pulls_cond s') eqn:Hc'.
    + destruct (IH _ _ _ _ Hrun) as (cursors & -> & Hlast).
      exists (WorkSummary.PRLoop.cursor s :: cursors).
      split; [by rewrite <- app_assoc|].
      intros pre c post pg' pr Hdec Hans' Hpr Hold.
      destruct pre as [|c0 pre]; simpl in Hdec; injection Hdec as <- ->.
      * exfalso. rewrite Hans in Hans'. injection Hans' as <-.
        apply pr_loop_Return in Hloop as [_ Hcf].
        assert (Hcf0 : cf = false) by (apply Hcf; eauto).
        by specialize (Hstop Hcf0).
      * by eapply Hlast.
    + rewrite while_cond_false in Hrun by done. injection Hrun as <- <-.
      apply Hone.
Qed.

(** ** Failures of the runner *)

Section Propagation.
Context (endpoint : Endpoint) (token : string) (P : Request -> Prop).

Lemma propagates_ret {A} (a : A) : propagates endpoint token P (ret a).
Proof.
  intros log o log' [= <- <-]. exists []. split; [by rewrite app_nil_r|].
  intros pre r post e H. by destruct pre.
Qed.

Lemma propagates_lift {A} (x : outcome A) :
  propagates endpoint token P (lift x).
Proof.
  intros log o log' [= <- <-]. exists []. split; [by rewrite app_nil_r|].
  intros pre r post e H. by destruct pre.
Qed.

Lemma propagates_request q variables :
  propagates endpoint token P (make_graphql_request endpoint q variables token).
Proof.
  intros log o log'. rewrite make_graphql_request_run. intros [= <- <-].
  exists [(q, variables)]. split; [done|].
  intros pre r post e H _ Hf.
  destruct pre as [|x pre]; [|by destruct pre]. injection H as <- <-.
  by split.
Qed.

Lemma propagates_bind {A B} (m : M A) (k : A -> M B) :
  propagates endpoint token P m ->
  (forall a, propagates endpoint token P (k a)) ->
  propagates endpoint token P (bind m k).
Proof.
  intros Hm Hk log o log'. unfold bind.
  destruct (m log) as [om log1] eqn:Hrun.
  destruct (Hm _ _ _ Hrun) as (sent1 & -> & H1).
  destruct om as [a| |]; [|intros [= <- <-]; exists sent1; (split; [reflexivity|]);
                          intros pre r post e0 Hsplit HP Hf;
                          by destruct (H1 pre r post e0 Hsplit HP Hf)
                            as [[= ->] ?]..].
  intros Hrun2. destruct (Hk a _ _ _ Hrun2) as (sent2 & -> & H2).
  exists (sent1 ++ sent2). split; [by rewrite app_assoc|].
  intros pre r post e Hsplit HP Hf.
  apply List.app_eq_app in Hsplit as (l & [[-> Hl]|[-> Hl]]).
  - destruct l as [|x l].
    + simpl in Hl. apply (H2 [] r post e); [by symmetry|done..].
    + injection Hl as -> ->.
      by destruct (H1 pre x l e eq_refl HP Hf) as [[=] _].
  - by apply (H2 l r post e).
Qed.

Lemma propagates_while {S} fuel (cond : S -> bool) body s :
  (forall s, propagates endpoint token P (body s)) ->
  propagates endpoint token P (while fuel cond body s).
Proof.
  intros Hbody. revert s. induction fuel as [|fuel IH]; intros s; simpl;
    destruct (cond s); try apply propagates_ret; try apply propagates_lift.
  apply propagates_bind; [done|]. intros [s'|s']; [done|].
  apply propagates_ret.
Qed.

(** A computation that never raises and sends no selected request
    propagates, vacuously. *)
Lemma quiet_propagates {A} (Q : Request -> Prop) (m : M A) :
  quiet Q m -> (forall r, Q r -> ~ P r) -> propagates endpoint token P m.
Proof.
  intros Hq HQP log o log' Hrun.
  destruct (Hq _ _ _ Hrun) as (_ & sent & -> & Hsent).
  exists sent. split; [done|]. intros pre r post e -> HP _.
  rewrite Forall_forall in Hsent. destruct (HQP r); [|done].
  apply Hsent, elem_of_app. right. left.
Qed.

End Propagation.

Lemma quiet_ret {A} Q (a : A) : quiet Q (ret a).
Proof.
  intros log o log' [= <- <-]. split; [done|]. exists [].
  by rewrite app_nil_r.
Qed.

Lemma quiet_bind {A B} Q (m : M A) (k : A -> M B) :
  quiet Q m -> (forall a, quiet Q (k a)) -> quiet Q (bind m k).
Proof.
  intros Hm Hk log o log'. unfold bind.
  destruct (m log) as [om log1] eqn:Hrun.
  destruct (Hm _ _ _ Hrun) as (Hne & sent1 & -> & H1).
  destruct om as [a| |]; [|by destruct (Hne e)|].
  2: { intros [= <- <-]. split; [done|]. by exists sent1. }
  intros Hrun2. destruct (Hk a _ _ _ Hrun2) as (Hne2 & sent2 & -> & H2).
  split; [done|]. exists (sent1 ++ sent2). split; [by rewrite app_assoc|].
  by apply Forall_app.
Qed.

Lemma quiet_while {S} Q fuel (cond : S -> bool) body s :
  (forall s, quiet Q (body s)) -> quiet Q (while fuel cond body s).
Proof.
  intros Hbody. revert s. induction fuel as [|fuel IH]; intros s; simpl;
    destruct (cond s); try apply quiet_ret.
  - intros log o log' [= <- <-]. split; [done|]. exists [].
    by rewrite app_nil_r.
  - apply quiet_bind; [done|]. intros [s'|s']; [done|]. apply quiet_ret.
Qed.

Lemma quiet_for_each_M {A S} Q (xs : list A) (body : A -> S -> M S) s :
  (forall x s, quiet Q (body x s)) -> quiet Q (for_each_M xs body s).
Proof.
  intros Hbody. revert s. induction xs as [|x xs IH]; intros s; simpl.
  - apply quiet_ret.
  - by apply quiet_bind.
Qed.

(** The [try] of a commit-history probe catches what the runner raises. *)
Lemma quiet_commit_page_step endpoint owner name token since_date email s :
  quiet is_commits_request
    (WorkSummary.commit_page_step endpoint owner name token since_date email
       s).
Proof.
  intros log o log'. unfold WorkSummary.commit_page_step, try_except, bind.
  rewrite (make_graphql_request_run endpoint CommitsQuery).
  assert (Hsent : exists sent,
            log ++ [(CommitsQuery,
                     commits_variables owner name since_date email
                       (WorkSummary.CommitLoop.cursor s))]
            = log ++ sent /\ Forall is_commits_request sent).
  { eexists. split; [done|]. by constructor. }
  destruct (checked _) as [[| |history]| |]; intros [= <- <-]; by split.
Qed.

Lemma quiet_get_user_commits endpoint fuel username owner name token
    since_date :
  quiet is_commits_request
    (WorkSummary.get_user_commits endpoint fuel username owner name token
       since_date).
Proof.
  unfold WorkSummary.get_user_commits.
  apply quiet_bind; [|intros; apply quiet_ret].
  apply quiet_for_each_M. intros email all_commits. unfold WorkSummary.probe.
  apply quiet_bind; [|intros; apply quiet_ret].
  apply quiet_while. intros s. apply quiet_commit_page_step.
Qed.

(** Decomposes a computation along its binds, loops and branches. *)
Ltac propagation :=
  repeat first
    [ apply propagates_ret
    | apply propagates_lift
    | apply propagates_request
    | apply propagates_while; intros ?
    | apply propagates_bind; [|intros ?]
    | match goal with
      | |- propagates _ _ _ (repository_field ?d) => destruct d
      | |- propagates _ _ _ (match ?x with _ => _ end) => destruct x
      end ].

Lemma propagates_get_repository_info endpoint token P owner name :
  propagates endpoint token P (get_repository_info endpoint owner name token).
Proof. unfold get_repository_info. propagation. Qed.

Lemma propagates_collaboration_main_try endpoint listed token P fuel username
    owner name since_date timeframe generated_at :
  propagates endpoint token P
    (CollaborationExport.main_try endpoint listed fuel username owner name
       token since_date timeframe generated_at).
Proof.
  unfold CollaborationExport.main_try,
    CollaborationExport.get_user_pr_reviews,
    CollaborationExport.get_prs_with_user_comments,
    CollaborationExport.get_user_pr_comment_threads,
    CollaborationExport.get_issue_discussions.
  apply propagates_bind; [apply propagates_get_repository_info|intros ?].
  propagation.
Qed.

Lemma propagates_get_user_pull_requests endpoint token P fuel username owner
    name since_date :
  propagates endpoint token P
    (WorkSummary.get_user_pull_requests endpoint fuel username owner name
       token since_date).
Proof.
  unfold WorkSummary.get_user_pull_requests. propagation.
Qed.

Lemma propagates_summary_main_try endpoint token fuel username owner name
    since_date timeframe generated_at :
  propagates endpoint token (fun r => fst r <> CommitsQuery)
    (WorkSummary.main_try endpoint fuel username owner name token since_date
       timeframe generated_at).
Proof.
  unfold WorkSummary.main_try.
  apply propagates_bind; [apply propagates_get_repository_info|intros ?].
  apply propagates_bind; [apply propagates_get_user_pull_requests|intros ?].
  apply propagates_bind; [|intros ?; apply propagates_ret].
  eapply quiet_propagates; [apply quiet_get_user_commits|].
  intros r Hr Hne. by apply Hne.
Qed.

(** ** What the buckets hold *)

Lemma login_or_Unknown_not_user author username :
  is_user author username = false ->
  login_or_Unknown author = "Unknown" \/ login_or_Unknown author <> username.
Proof.
  destruct author as [a|]; simpl; [|by left].
  unfold is_user. simpl. intros H%String.eqb_neq. by right.
Qed.

Lemma get_user_pull_requests_Return endpoint fuel username owner name token
    since_date log bucket log' :
  WorkSummary.get_user_pull_requests endpoint fuel username owner name token
    since_date log = (Return bucket, log') ->
  exists since_datetime,
    Timestamp.parse since_date = Some since_datetime
    /\ forall pr,
         pr ∈ bucket ->
         is_user (PullRequest.author pr) username = true
         /\ passes since_datetime (PullRequest.createdAt pr).
Proof.
  rewrite get_user_pull_requests_unfold. unfold bind at 1, lift at 1.
  destruct (fromisoformat_Z since_date) as [since_datetime| |] eqn:Hs;
    [|done..].
  apply fromisoformat_Z_Return in Hs. unfold bind.
  destruct (while _ _ _ _ _) as [[final| |] log1] eqn:Hw; [|done..].
  intros [= <- <-]. exists since_datetime. split; [done|].
  refine (while_invariant
            (fun s _ => forall pr,
               pr ∈ WorkSummary.PRLoop.all_prs s ->
               is_user (PullRequest.author pr) username = true
               /\ passes since_datetime (PullRequest.createdAt pr))
            _ _ _ _ _ _ _ _ _ Hw); [|by intros pr ?%elem_of_nil].
  intros s l r l1 HI _ Hbody.
  destruct (pulls_body_run endpoint username owner name token since_datetime
              s l) as (ob & Hrun & Hob).
  rewrite Hrun in Hbody. injection Hbody as -> <-.
  destruct (Hob r eq_refl) as (pg & all_prs & cf & _ & Hloop & _ & -> & _).
  apply pr_loop_Return in Hloop as [Hall _].
  intros pr [Hin|Hnew]%Hall; auto.
Qed.

(** The run of github-collaboration-export.py that writes a report: the
    four fetches returned its buckets, one after the other. *)
Lemma collaboration_main_Wrote endpoint listed write_failure fuel username
    owner name token since_date timeframe generated_at result log :
  CollaborationExport.main endpoint listed write_failure fuel username owner
    name token since_date timeframe generated_at
  = (CollaborationExport.Wrote result, log) ->
  exists log0 log1 log2 log3,
    CollaborationExport.get_user_pr_reviews endpoint fuel username owner name
      token since_date log0
    = (Return (CollaborationExport.Report.pr_reviews result), log1)
    /\ CollaborationExport.get_prs_with_user_comments endpoint fuel username
         owner name token since_date log1
       = (Return (CollaborationExport.Report.commented_prs result), log2)
    /\ CollaborationExport.get_user_pr_comment_threads endpoint fuel
         username owner name token since_date log2
       = (Return (CollaborationExport.Report.pr_discussion_threads result),
          log3)
    /\ CollaborationExport.get_issue_discussions endpoint fuel username
         owner name token since_date log3
       = (Return (CollaborationExport.Report.issue_discussions result), log)
    /\ CollaborationExport.Report.statistics result
       = CollaborationExport.get_collaboration_stats listed
           (CollaborationExport.Report.pr_reviews result)
           (CollaborationExport.Report.commented_prs result)
           (CollaborationExport.Report.pr_discussion_threads result)
           (CollaborationExport.Report.issue_discussions result).
Proof.
  unfold CollaborationExport.main, CollaborationExport.main_try, bind, ret.
  destruct (get_repository_info _ _ _ _ _) as [[repository| |] log0];
    [|done..].
  destruct (CollaborationExport.get_user_pr_reviews _ _ _ _ _ _ _ _)
    as [[b1| |] log1] eqn:H1; [|done..].
  destruct (CollaborationExport.get_prs_with_user_comments _ _ _ _ _ _ _ _)
    as [[b2| |] log2] eqn:H2; [|done..].
  destruct (CollaborationExport.get_user_pr_comment_threads _ _ _ _ _ _ _ _)
    as [[b3| |] log3] eqn:H3; [|done..].
  destruct (CollaborationExport.get_issue_discussions _ _ _ _ _ _ _ _)
    as [[b4| |] log4] eqn:H4; [|done..].
  destruct write_failure; [done|].
  intros [= <- <-]. simpl. by exists log0, log1, log2, log3.
Qed.

(** No bucket of a fetch that returned names the target user as a
    collaborator. *)
Lemma named_by_not_user username since1 since2 since3 since4 n1 n2 n3 n4 :
  named_by (flat_map (reviewed_pr_entries username since1) n1)
           (flat_map (commented_pr_entries username since2) n2)
           (flat_map (thread_pr_entries username since3) n3)
           (flat_map (issue_entries username since4) n4) username ->
  username = "Unknown".
Proof.
  intros [(e & He & Hx)|[(e & He & Hx)|[(e & th & He & Hth & Hx)
                                        |(e & He & Hx & Hnot)]]].
  - apply elem_of_reviews_bucket in He as (pr & r & _ & _ & Hu & _ & ->).
    simpl in Hx. by destruct (login_or_Unknown_not_user _ _ Hu); congruence.
  - apply elem_of_commented_bucket in He as (pr & _ & Hu & _ & ->).
    simpl in Hx. by destruct (login_or_Unknown_not_user _ _ Hu); congruence.
  - apply elem_of_threads_bucket in He as (pr & _ & _ & _ & _ & ->).
    simpl in Hth.
    apply elem_of_threads_since in Hth as (c & a & _ & _ & Hne & _ & ->).
    by simpl in Hx.
  - apply elem_of_issues_bucket in He as (issue & _ & _ & ->).
    simpl in Hx, Hnot.
    by destruct (login_or_Unknown_not_user _ _ Hnot); congruence.
Qed.

Lemma remove_duplicates_twice c : WorkSummary.remove_duplicates [c; c] = [c].
Proof.
  unfold WorkSummary.remove_duplicates. cbn [fold_left].
  unfold WorkSummary.dedup_step at 2.
  cbn [WorkSummary.Dedup.start WorkSummary.Dedup.seen_oids
       WorkSummary.Dedup.unique_commits].
  rewrite decide_False by set_solver.
  unfold WorkSummary.dedup_step.
  cbn [WorkSummary.Dedup.seen_oids WorkSummary.Dedup.unique_commits].
  rewrite decide_True by set_solver. reflexivity.
Qed.

(** The commits are not looked at before they are deduplicated: when every
    probe is answered with one page holding the commit [c], the bucket is
    [c], whatever the date of [c] and the cutoff. *)
Lemma get_user_commits_unfiltered c fuel username owner name token since_date
    log :
  fst (WorkSummary.get_user_commits
         (endpoint_of nothing nothing nothing nothing nothing
            (fun _ => ok_response (History (last_page [c]))))
         (S fuel) username owner name token since_date log)
  = Return [c].
Proof.
  unfold WorkSummary.get_user_commits.
  set (R := WorkSummary.remove_duplicates).
  unfold bind at 1. simpl for_each_M.
  unfold bind, WorkSummary.probe. simpl.
  unfold bind, WorkSummary.commit_page_step, try_except, bind.
  rewrite !(make_graphql_request_run _ CommitsQuery). simpl.
  rewrite while_cond_false by done. simpl.
  rewrite while_cond_false by done. simpl.
  subst R. by rewrite remove_duplicates_twice.
Qed.

(** ** The commit-history probes *)

Lemma checked_not_OutOfFuel {D} (response : Response.t D) :
  checked response <> OutOfFuel.
Proof.
  unfold checked. destruct (negb _); [done|]. by destruct (Response.errors _).
Qed.

(** One iteration of a probe: one request, and never an exception. *)
Lemma commit_page_step_run endpoint owner name token since_date email s log :
  WorkSummary.commit_page_step endpoint owner name token since_date email s
    log
  = (Return
       (after_commit_page
          (commits_answer endpoint owner name token since_date email
             (WorkSummary.CommitLoop.cursor s)) s),
     log ++ [commits_request owner name since_date email
               (WorkSummary.CommitLoop.cursor s)]).
Proof.
  unfold WorkSummary.commit_page_step, try_except, bind.
  rewrite (make_graphql_request_run endpoint CommitsQuery).
  fold (commits_variables owner name since_date email
          (WorkSummary.CommitLoop.cursor s)).
  fold (commits_request owner name since_date email
          (WorkSummary.CommitLoop.cursor s)).
  unfold commits_answer, after_commit_page.
  pose proof (checked_not_OutOfFuel
                (endpoint CommitsQuery
                   (commits_variables owner name since_date email
                      (WorkSummary.CommitLoop.cursor s)) token)) as Hfuel.
  by destruct (checked _) as [[| |history]| |].
Qed.

Lemma all_commits_after_commit_page a s :
  WorkSummary.CommitLoop.all_commits (state_of (after_commit_page a s))
  = WorkSummary.CommitLoop.all_commits s ++ history_nodes a.
Proof.
  destruct a as [[| |history]| |]; simpl; by rewrite ?app_nil_r.
Qed.

(** A probe that returns: the requests it sent, and the commits it added
    to [all_commits]. *)
Lemma probe_while_Return endpoint owner name token since_date email fuel s
    log final log' :
  while fuel WorkSummary.CommitLoop.has_next_page
    (WorkSummary.commit_page_step endpoint owner name token since_date email)
    s log = (Return final, log') ->
  WorkSummary.CommitLoop.has_next_page s = true ->
  exists cursors,
    probe_walk (commits_answer endpoint owner name token since_date email)
      (WorkSummary.CommitLoop.cursor s) cursors
    /\ (length cursors < fuel)%nat
    /\ log' = log ++ map (commits_request owner name since_date email)
                         (WorkSummary.CommitLoop.cursor s :: cursors)
    /\ WorkSummary.CommitLoop.all_commits final
       = WorkSummary.CommitLoop.all_commits s
         ++ flat_map (fun c =>
                        history_nodes
                          (commits_answer endpoint owner name token
                             since_date email c))
                     (WorkSummary.CommitLoop.cursor s :: cursors).
Proof.
  revert s log. induction fuel as [|fuel IH]; intros s log; simpl;
    intros Hrun Hnext; rewrite Hnext in Hrun; [done|].
  unfold bind at 1 in Hrun. rewrite commit_page_step_run in Hrun.
  pose proof (all_commits_after_commit_page
                (commits_answer endpoint owner name token since_date email
                   (WorkSummary.CommitLoop.cursor s)) s) as Hall.
  destruct (commits_answer endpoint owner name token since_date email
              (WorkSummary.CommitLoop.cursor s))
    as [[| |history]| |] eqn:Ha; simpl in Hrun, Hall.
  1, 2: injection Hrun as <- <-; exists [];
    cbn [probe_walk flat_map map length]; rewrite Ha, !app_nil_r;
    (split; [done|]); split; [lia|done].
  - destruct (PageInfo.hasNextPage (Connection.pageInfo history)) eqn:Hmore.
    + apply IH in Hrun as (cursors & Hwalk & Hlen & -> & Hfinal); [|done].
      cbn [WorkSummary.CommitLoop.cursor WorkSummary.CommitLoop.all_commits]
        in *.
      exists (PageInfo.endCursor (Connection.pageInfo history) :: cursors).
      cbn [probe_walk flat_map map length].
      split; [split; [by exists history|done]|].
      split; [lia|]. split; [by rewrite <- app_assoc|].
      rewrite Hfinal. cbn [history_nodes flat_map].
      by rewrite <- !app_assoc.
    + rewrite while_cond_false in Hrun by done. injection Hrun as <- <-.
      exists []. cbn [probe_walk flat_map map length]. rewrite Ha.
      cbn [history_nodes WorkSummary.CommitLoop.all_commits].
      rewrite !app_nil_r.
      split; [by intros h [= <-]|]. split; [lia|done].
  - rewrite while_cond_false in Hrun by done. injection Hrun as <- <-.
    exists []. cbn [probe_walk flat_map map length]. rewrite Ha.
    cbn [history_nodes WorkSummary.CommitLoop.all_commits].
    rewrite !app_nil_r. split; [done|]. split; [lia|done].
  - rewrite while_cond_false in Hrun by done. injection Hrun as <- <-.
    exists []. cbn [probe_walk flat_map map length]. rewrite Ha.
    cbn [history_nodes WorkSummary.CommitLoop.all_commits].
    rewrite !app_nil_r. split; [done|]. split; [lia|done].
Qed.

Lemma probe_Return endpoint fuel owner name token since_date email
    all_commits log all_commits' log' :
  WorkSummary.probe endpoint fuel owner name token since_date email
    all_commits log = (Return all_commits', log') ->
  exists cursors,
    probe_walk (commits_answer endpoint owner name token since_date email)
      None cursors
    /\ (length cursors < fuel)%nat
    /\ log' = log ++ map (commits_request owner name since_date email)
                         (None :: cursors)
    /\ all_commits'
       = all_commits
         ++ flat_map (fun c =>
                        history_nodes
                          (commits_answer endpoint owner name token
                             since_date email c))
                     (None :: cursors).
Proof.
  unfold WorkSummary.probe, bind.
  destruct (while _ _ _ _ _) as [[final| |] log1] eqn:Hrun; [|done..].
  intros [= <- <-].
  by apply probe_while_Return in Hrun as (cursors & ? & ? & -> & ->);
    [exists cursors|].
Qed.

(** A probe whose walk ends within the fuel returns. *)
Lemma probe_while_returns endpoint owner name token since_date email cursors :
  forall fuel s log,
    probe_walk (commits_answer endpoint owner name token since_date email)
      (WorkSummary.CommitLoop.cursor s) cursors ->
    WorkSummary.CommitLoop.has_next_page s = true ->
    (length cursors < fuel)%nat ->
    exists final,
      while fuel WorkSummary.CommitLoop.has_next_page
        (WorkSummary.commit_page_step endpoint owner name token since_date
           email) s log
      = (Return final,
         log ++ map (commits_request owner name since_date email)
                    (WorkSummary.CommitLoop.cursor s :: cursors))
      /\ WorkSummary.CommitLoop.all_commits final
         = WorkSummary.CommitLoop.all_commits s
           ++ flat_map (fun c =>
                          history_nodes
                            (commits_answer endpoint owner name token
                               since_date email c))
                       (WorkSummary.CommitLoop.cursor s :: cursors).
Proof.
  induction cursors as [|c' cursors IH]; intros fuel s log Hwalk Hnext Hlen;
    (destruct fuel as [|fuel]; [simpl in Hlen; lia|]);
    simpl while; rewrite Hnext; unfold bind at 1;
    rewrite commit_page_step_run.
  - simpl in Hwalk.
    pose proof (checked_not_OutOfFuel
                  (endpoint CommitsQuery
                     (commits_variables owner name since_date email
                        (WorkSummary.CommitLoop.cursor s)) token)) as Hfuel.
    fold (commits_answer endpoint owner name token since_date email
            (WorkSummary.CommitLoop.cursor s)) in Hfuel.
    destruct (commits_answer endpoint owner name token since_date email
                (WorkSummary.CommitLoop.cursor s))
      as [[| |history]| |] eqn:Ha; [| | | |done]; simpl.
    1, 2: eexists; split; [reflexivity|by rewrite Ha, app_nil_r].
    + rewrite (Hwalk history eq_refl).
      rewrite while_cond_false by done. eexists. split; [reflexivity|].
      rewrite Ha. simpl. by rewrite app_nil_r.
    + rewrite while_cond_false by done. eexists. split; [reflexivity|].
      rewrite Ha. simpl. by rewrite app_nil_r.
  - destruct Hwalk as [(history & Ha & Hmore & <-) Hwalk]. rewrite Ha.
    unfold after_commit_page. cbv zeta. rewrite Hmore.
    match goal with
    | |- context [while fuel _ _ ?s' ?l'] =>
        destruct (IH fuel s' l') as (final & -> & Hfinal);
          [done|done|simpl in Hlen; lia|]
    end.
    exists final. split; [simpl; by rewrite <- app_assoc|].
    rewrite Hfinal. simpl. by rewrite Ha, <- !app_assoc.
Qed.

Lemma probe_returns endpoint fuel owner name token since_date email cursors
    all_commits log :
  probe_walk (commits_answer endpoint owner name token since_date email)
    None cursors ->
  (length cursors < fuel)%nat ->
  WorkSummary.probe endpoint fuel owner name token since_date email
    all_commits log
  = (Return
       (all_commits
        ++ flat_map (fun c =>
                       history_nodes
                         (commits_answer endpoint owner name token
                            since_date email c))
                    (None :: cursors)),
     log ++ map (commits_request owner name since_date email)
                (None :: cursors)).
Proof.
  intros Hwalk Hlen. unfold WorkSummary.probe, bind.
  match goal with
  | |- context [while fuel _ _ ?s ?l] =>
      destruct (probe_while_returns endpoint owner name token since_date
                  email cursors fuel s l) as (final & -> & ->); done
  end.
Qed.

Lemma flat_map_pair {A B C} (a : A) (f : A -> B -> list C) (l : list B) :
  flat_map (fun p => f (fst p) (snd p)) (map (pair a) l) = flat_map (f a) l.
Proof. induction l as [|b l IH]; simpl; [done|]. by rewrite IH. Qed.

Lemma map_pair {A B C} (a : A) (f : A -> B -> C) (l : list B) :
  map (fun p => f (fst p) (snd p)) (map (pair a) l) = map (f a) l.
Proof. induction l as [|b l IH]; simpl; [done|]. by rewrite IH. Qed.

(** A run of [get_user_commits] that returns is the run of its two
    probes, the second starting from the commits of the first. *)
Lemma get_user_commits_probes endpoint fuel username owner name token
    since_date log bucket log' :
  WorkSummary.get_user_commits endpoint fuel username owner name token
    since_date log = (Return bucket, log') ->
  exists commits1 log1 commits2,
    WorkSummary.probe endpoint fuel owner name token since_date
      (String.append username "@users.noreply.github.com") [] log
    = (Return commits1, log1)
    /\ WorkSummary.probe endpoint fuel owner name token since_date username
         commits1 log1
       = (Return commits2, log')
    /\ bucket = WorkSummary.remove_duplicates commits2.
Proof.
  unfold WorkSummary.get_user_commits, WorkSummary.email_formats.
  cbn [for_each_M]. unfold bind at 1 2.
  destruct (WorkSummary.probe _ _ _ _ _ _ _ [] log)
    as [[commits1| |] log1] eqn:H1; [|done..].
  unfold bind at 1.
  destruct (WorkSummary.probe endpoint fuel owner name token since_date
              username commits1 log1)
    as [[commits2| |] log2] eqn:H2; [|done..].
  intros [= <- <-]. by exists commits1, log1, commits2.
Qed.


(** ** The first requests of [main] *)

(** The request of [get_repository_info]. *)
Lemma get_repository_info_run endpoint owner name token log :
  get_repository_info endpoint owner name token log
  = (match
       checked (endpoint RepositoryQuery
                  [("owner", Some owner); ("name", Some name)] token)
     with
     | Return (Some repository) => Return repository
     | Return None => Raise (RepositoryNotFound owner name)
     | Raise e => Raise e
     | OutOfFuel => OutOfFuel
     end,
     log ++ [(RepositoryQuery,
              [("owner", Some owner); ("name", Some name)])]).
Proof.
  unfold get_repository_info, bind.
  rewrite (make_graphql_request_run endpoint RepositoryQuery).
  by destruct (checked _) as [[repository|]| |].
Qed.

Lemma get_user_pull_requests_log endpoint fuel username owner name token
    since_date log o log' :
  WorkSummary.get_user_pull_requests endpoint fuel username owner name token
    since_date log = (o, log') ->
  exists cursors, log' = log ++ map (pulls_request owner name) cursors.
Proof.
  rewrite get_user_pull_requests_unfold. unfold bind at 1, lift at 1.
  destruct (fromisoformat_Z since_date) as [since_datetime| |];
    [|intros [= <- <-]; exists []; by rewrite app_nil_r..].
  unfold bind.
  destruct (while _ _ _ _ _) as [o1 log1] eqn:Hw.
  apply pulls_while_log in Hw as (cursors & -> & _).
  exists cursors. by destruct o1; injection H as <- <-.
Qed.


(** ** What a failure does to a probe and to the run *)

(** A probe sends nothing after a request that is not answered with a page
    of history announcing a next page. *)
Lemma probe_walk_stops answer c0 cursors pre c post :
  probe_walk answer c0 cursors ->
  c0 :: cursors = pre ++ c :: post ->
  (forall commit_history,
     answer c = Return (History commit_history) ->
     PageInfo.hasNextPage (Connection.pageInfo commit_history) = false) ->
  post = [].
Proof.
  revert c0 pre. induction cursors as [|c' cursors IH]; intros c0 pre.
  - intros _ Hsplit _. destruct pre as [|x pre]; [by injection Hsplit|].
    injection Hsplit as _ Hsplit. by destruct pre.
  - intros [(history & Ha & Hmore & _) Hwalk] Hsplit Hlast.
    destruct pre as [|x pre].
    + injection Hsplit as <- _. rewrite (Hlast history Ha) in Hmore. done.
    + injection Hsplit as _ Hsplit. by apply (IH c' pre).
Qed.

Lemma get_user_commits_returns endpoint fuel username owner name token
    since_date log cursors1 cursors2 :
  probe_walk
    (commits_answer endpoint owner name token since_date
       (String.append username "@users.noreply.github.com"))
    None cursors1 ->
  probe_walk (commits_answer endpoint owner name token since_date username)
    None cursors2 ->
  (length cursors1 < fuel)%nat ->
  (length cursors2 < fuel)%nat ->
  WorkSummary.get_user_commits endpoint fuel username owner name token
    since_date log
  = (Return
       (WorkSummary.remove_duplicates
          (flat_map (fun p =>
                       history_nodes
                         (commits_answer endpoint owner name token
                            since_date (fst p) (snd p)))
                    (probes username cursors1 cursors2))),
     log ++ map (fun p =>
                   commits_request owner name since_date (fst p) (snd p))
                (probes username cursors1 cursors2)).
Proof.
  intros Hwalk1 Hwalk2 Hlen1 Hlen2.
  unfold WorkSummary.get_user_commits, WorkSummary.email_formats.
  cbn [for_each_M]. unfold bind at 1 2.
  rewrite (probe_returns _ _ _ _ _ _ _ cursors1) by done.
  unfold bind at 1.
  rewrite (probe_returns _ _ _ _ _ _ _ cursors2) by done.
  unfold ret, probes.
  rewrite map_app, flat_map_app.
  rewrite !(map_pair _ (commits_request owner name since_date)).
  rewrite !(flat_map_pair _
              (fun email c =>
                 history_nodes
                   (commits_answer endpoint owner name token since_date
                      email c))).
  by rewrite (app_assoc log).
Qed.

(** A run of github-work-summary.py that sent a commit-history request
    has its repository and its pull requests, and ends as
    [get_user_commits] and the write of the report do. *)
Lemma summary_main_reaches_commits endpoint write_failure fuel username owner
    name token since_date timeframe generated_at run log r :
  WorkSummary.main endpoint write_failure fuel username owner name token
    since_date timeframe generated_at = (run, log) ->
  r ∈ log ->
  fst r = CommitsQuery ->
  exists repository pull_requests log1 out,
    WorkSummary.get_user_commits endpoint fuel username owner name token
      since_date log1 = (out, log)
    /\ run = match out with
             | Return commits =>
                 match write_failure with
                 | None =>
                     WorkSummary.Wrote
                       {| WorkSummary.Report.username := username;
                          WorkSummary.Report.repository := repository;
                          WorkSummary.Report.generated_at := generated_at;
                          WorkSummary.Report.timeframe_days := timeframe;
                          WorkSummary.Report.since_date := since_date;
                          WorkSummary.Report.statistics :=
                            {| WorkSummary.Statistics.total_pull_requests :=
                                 len pull_requests;
                               WorkSummary.Statistics.total_commits :=
                                 len commits |};
                          WorkSummary.Report.pull_requests := pull_requests;
                          WorkSummary.Report.commits := commits |}
                 | Some e => WorkSummary.Exit1 e
                 end
             | Raise e => WorkSummary.Exit1 e
             | OutOfFuel => WorkSummary.NoAnswer
             end.
Proof.
  unfold WorkSummary.main, WorkSummary.main_try.
  unfold bind at 1. rewrite get_repository_info_run.
  assert (Hrepo : forall (x : WorkSummary.Run) l,
            (x, [] ++ [(RepositoryQuery,
                        [("owner", Some owner); ("name", Some name)])])
            = (run, l) ->
            r ∈ l -> fst r = CommitsQuery -> False).
  { intros x l [= _ <-] ->%list_elem_of_singleton. done. }
  destruct (checked _) as [[repository|]| |];
    [|intros Hmain Hin Hq; simpl in Hmain; destruct (Hrepo _ _ Hmain Hin Hq)..].
  clear Hrepo. unfold bind at 1.
  destruct (WorkSummary.get_user_pull_requests _ _ _ _ _ _ _ _)
    as [o1 log1] eqn:Hpulls.
  pose proof Hpulls as Hlog1.
  apply get_user_pull_requests_log in Hlog1 as (cursors & ->).
  assert (Hearly : forall (x : WorkSummary.Run) l,
            (x, ([] ++ [(RepositoryQuery,
                         [("owner", Some owner); ("name", Some name)])])
                ++ map (pulls_request owner name) cursors)
            = (run, l) ->
            r ∈ l -> fst r = CommitsQuery -> False).
  { intros x l [= _ <-] [->|Hin]%elem_of_cons; [done|].
    apply list_elem_of_fmap in Hin as (c & -> & _). done. }
  destruct o1 as [pull_requests| |];
    [|intros Hmain Hin Hq; simpl in Hmain;
      destruct (Hearly _ _ Hmain Hin Hq)..].
  clear Hearly. unfold bind at 1.
  destruct (WorkSummary.get_user_commits _ _ _ _ _ _ _ _)
    as [out log2] eqn:Hcommits.
  intros Hmain _ _. exists repository, pull_requests.
  eexists _, out.
  destruct out as [commits| |]; simpl in Hmain.
  - destruct write_failure; injection Hmain as <- <-; by split.
  - injection Hmain as <- <-. by split.
  - injection Hmain as <- <-. by split.
Qed.

(** ** The claims about the classification *)

(** C7.  When the fetch of the reviews given returns, its bucket holds
    exactly the reviews, on the pages it walked, whose pull request is not
    authored by the target user and whose own timestamp passes the
    date-boundary filter.  For target "alice" and cutoff 2024-01-01, her
    review of 2024-02-01 on bob's pull request is the one entry of the
    bucket; her review of 2023-06-01 on another pull request is left out.
    The fetch does return, with these entries in the order of the feed,
    once the cutoff and the timestamps of the reviews parse and the feed
    ends within the fuel. *)
Theorem C7_reviews_given :
  (forall endpoint fuel username owner name token since_date log bucket log',
     CollaborationExport.get_user_pr_reviews endpoint fuel username owner
       name token since_date log = (Return bucket, log') ->
     exists since_datetime cursors pages,
       Timestamp.parse since_date = Some since_datetime
       /\ walked (reviews_answer endpoint owner name username token)
                 (reviews_request owner name username) log log' cursors pages
       /\ forall e,
            e ∈ bucket <->
            exists pr review,
              pr ∈ all_nodes pages
              /\ review ∈ ReviewedPR.reviews pr
              /\ is_user (ReviewedPR.author pr) username = false
              /\ passes since_datetime (Review.createdAt review)
              /\ e = CollaborationExport.pr_with_review pr review)
  /\ (forall endpoint fuel username owner name token since_date log
             since_datetime n pages,
        Timestamp.parse since_date = Some since_datetime ->
        feed (reviews_answer endpoint owner name username token) n None
        = Some pages ->
        (forall pr, pr ∈ all_nodes pages -> reviews_parse pr) ->
        (n <= fuel)%nat ->
        exists log',
          CollaborationExport.get_user_pr_reviews endpoint fuel username
            owner name token since_date log
          = (Return (flat_map (reviewed_pr_entries username since_datetime)
                              (all_nodes pages)), log'))
  /\ fst (CollaborationExport.get_user_pr_reviews alice_reviews_endpoint 1
            "alice" "acme" "widgets" "token" "2024-01-01T00:00:00Z" [])
     = Return [CollaborationExport.pr_with_review bobs_pr review_2024_02_01].
Proof.
  split; [|split; [|by vm_compute]]; cycle 1.
  { intros endpoint fuel username owner name token since_date log
      since_datetime n pages.
    apply get_user_pr_reviews_returns. }
  intros endpoint fuel username owner name token since_date log bucket log' H.
  apply get_user_pr_reviews_Return
    in H as (since_datetime & cursors & pages & Hs & Hwalk & ->).
  exists since_datetime, cursors, pages. split; [done|]. split; [done|].
  intros e. apply elem_of_reviews_bucket.
Qed.

Lemma C7_reviews_given_witness :
  exists since_datetime cursors pages,
    Timestamp.parse "2024-01-01T00:00:00Z" = Some since_datetime
    /\ walked (reviews_answer alice_reviews_endpoint "acme" "widgets" "alice"
                              "token")
              (reviews_request "acme" "widgets" "alice") []
              [reviews_request "acme" "widgets" "alice" None] cursors pages
    /\ forall e,
         e ∈ [CollaborationExport.pr_with_review bobs_pr review_2024_02_01]
         <->
         exists pr review,
           pr ∈ all_nodes pages
           /\ review ∈ ReviewedPR.reviews pr
           /\ is_user (ReviewedPR.author pr) "alice" = false
           /\ passes since_datetime (Review.createdAt review)
           /\ e = CollaborationExport.pr_with_review pr review.
Proof.
  apply (proj1 C7_reviews_given alice_reviews_endpoint 1%nat "alice" "acme"
           "widgets" "token" "2024-01-01T00:00:00Z" []).
  vm_compute. reflexivity.
Defined.

(** C9.  When the fetch of the issue discussions returns, its bucket holds
    an entry for exactly the issues, on the pages it walked, that the
    target user authored with a creation time passing the filter, or that
    carry a comment of the target user whose timestamp passes the filter.
    So an issue created before the cutoff enters the bucket through such a
    comment: bob's issue of 2023-03-01, cutoff 2024-01-01, alice's comment
    of 2024-02-10.  The fetch does return, with one entry for each such
    issue in the order of the feed, once the cutoff and the timestamps of
    the issues and their comments parse and the feed ends within the
    fuel. *)
Theorem C9_issue_participation :
  (forall endpoint fuel username owner name token since_date log bucket log',
     CollaborationExport.get_issue_discussions endpoint fuel username owner
       name token since_date log = (Return bucket, log') ->
     exists since_datetime cursors pages,
       Timestamp.parse since_date = Some since_datetime
       /\ walked (issues_answer endpoint owner name token)
                 (issues_request owner name) log log' cursors pages
       /\ forall e,
            e ∈ bucket <->
            exists issue,
              issue ∈ all_nodes pages
              /\ ((is_user (Discussed.author issue) username = true
                   /\ passes since_datetime (Discussed.createdAt issue))
                  \/ (exists c,
                        c ∈ Comments.nodes (Discussed.comments issue)
                        /\ is_user (Comment.author c) username = true
                        /\ passes since_datetime (Comment.createdAt c)))
              /\ e = CollaborationExport.issue_entry username issue
                       (user_comments_since username since_datetime
                          (Comments.nodes (Discussed.comments issue))))
  /\ (forall endpoint fuel username owner name token since_date log
             since_datetime n pages,
        Timestamp.parse since_date = Some since_datetime ->
        feed (issues_answer endpoint owner name token) n None = Some pages ->
        (forall issue, issue ∈ all_nodes pages -> discussion_parses issue) ->
        (n <= fuel)%nat ->
        exists log',
          CollaborationExport.get_issue_discussions endpoint fuel username
            owner name token since_date log
          = (Return (flat_map (issue_entries username since_datetime)
                              (all_nodes pages)), log'))
  /\ (fst (CollaborationExport.get_issue_discussions old_issue_endpoint 1
             "alice" "acme" "widgets" "token" "2024-01-01T00:00:00Z" [])
      = Return [CollaborationExport.issue_entry "alice" old_issue
                  [alices_comment]]
      /\ Timestamp.parse "2024-01-01T00:00:00Z" = Some 1704067200
      /\ older 1704067200 (Discussed.createdAt old_issue)).
Proof.
  split; [|split].
  - intros endpoint fuel username owner name token since_date log bucket log'
      H.
    apply get_issue_discussions_Return
      in H as (since_datetime & cursors & pages & Hs & Hwalk & ->).
    exists since_datetime, cursors, pages. split; [done|]. split; [done|].
    intros e. rewrite elem_of_issues_bucket.
    split; intros (issue & Hi & Ha & He); exists issue; (split; [done|]);
      (split; [|done]); by apply issue_qualifies_true.
  - intros endpoint fuel username owner name token since_date log
      since_datetime n pages.
    apply get_issue_discussions_returns.
  - split; [by vm_compute|]. split; [by vm_compute|].
    eexists. split; [by vm_compute|]. lia.
Qed.

Lemma C9_issue_participation_witness :
  exists since_datetime cursors pages,
    Timestamp.parse "2024-01-01T00:00:00Z" = Some since_datetime
    /\ walked (issues_answer old_issue_endpoint "acme" "widgets" "token")
              (issues_request "acme" "widgets") []
              [issues_request "acme" "widgets" None] cursors pages
    /\ forall e,
         e ∈ [CollaborationExport.issue_entry "alice" old_issue
                [alices_comment]]
         <->
         exists issue,
           issue ∈ all_nodes pages
           /\ ((is_user (Discussed.author issue) "alice" = true
                /\ passes since_datetime (Discussed.createdAt issue))
               \/ (exists c,
                     c ∈ Comments.nodes (Discussed.comments issue)
                     /\ is_user (Comment.author c) "alice" = true
                     /\ passes since_datetime (Comment.createdAt c)))
           /\ e = CollaborationExport.issue_entry "alice" issue
                    (user_comments_since "alice" since_datetime
                       (Comments.nodes (Discussed.comments issue))).
Proof.
  apply (proj1 C9_issue_participation old_issue_endpoint 1%nat "alice" "acme"
           "widgets" "token" "2024-01-01T00:00:00Z" []).
  vm_compute. reflexivity.
Defined.




(** ** The claims about the aggregator *)

(** C6, as the code has it.  The statistics are a function of the four
    buckets and of the order in which the host enumerates a set.  On
    buckets holding the same entries in another order every count and
    total is the same and so is the set of collaborators, but
    [collaborator_list], which is [list(collaborators)], is only known to
    hold the same names: it is a permutation of the list obtained for the
    other order. *)
Theorem C6_stats_order_independent
    (listed : CollaborationExport.PySet.t -> list string)
    (pr_reviews pr_reviews' : list CollaborationExport.ReviewEntry.t)
    (commented_prs commented_prs' : list CollaborationExport.CommentedEntry.t)
    (pr_threads pr_threads' : list CollaborationExport.ThreadEntry.t)
    (issue_discussions issue_discussions'
       : list CollaborationExport.IssueEntry.t) :
  enumerates listed ->
  Permutation pr_reviews pr_reviews' ->
  Permutation commented_prs commented_prs' ->
  Permutation pr_threads pr_threads' ->
  Permutation issue_discussions issue_discussions' ->
  let s :=
    CollaborationExport.get_collaboration_stats listed pr_reviews
      commented_prs pr_threads issue_discussions in
  let s' :=
    CollaborationExport.get_collaboration_stats listed pr_reviews'
      commented_prs' pr_threads' issue_discussions' in
  CollaborationExport.PySet.elements
    (CollaborationExport.collaborators pr_reviews commented_prs pr_threads
       issue_discussions)
  = CollaborationExport.PySet.elements
      (CollaborationExport.collaborators pr_reviews' commented_prs'
         pr_threads' issue_discussions')
  /\ Permutation (CollaborationExport.Stats.collaborator_list s)
                 (CollaborationExport.Stats.collaborator_list s')
  /\ CollaborationExport.Stats.unique_collaborators s
     = CollaborationExport.Stats.unique_collaborators s'
  /\ CollaborationExport.Stats.total_pr_reviews s
     = CollaborationExport.Stats.total_pr_reviews s'
  /\ CollaborationExport.Stats.total_review_comments s
     = CollaborationExport.Stats.total_review_comments s'
  /\ CollaborationExport.Stats.total_prs_commented_on s
     = CollaborationExport.Stats.total_prs_commented_on s'
  /\ CollaborationExport.Stats.total_pr_comments s
     = CollaborationExport.Stats.total_pr_comments s'
  /\ CollaborationExport.Stats.total_pr_discussion_threads s
     = CollaborationExport.Stats.total_pr_discussion_threads s'
  /\ CollaborationExport.Stats.total_issues_engaged_with s
     = CollaborationExport.Stats.total_issues_engaged_with s'
  /\ CollaborationExport.Stats.total_issue_comments s
     = CollaborationExport.Stats.total_issue_comments s'
  /\ CollaborationExport.Stats.total_collaboration_touchpoints s
     = CollaborationExport.Stats.total_collaboration_touchpoints s'.
Proof.
  intros Hlisted Ha Hb Hc Hd s s'.
  pose proof (collaborators_Permutation _ _ _ _ _ _ _ _ Ha Hb Hc Hd) as Hset.
  split; [exact Hset|].
  split; [by apply collaborator_list_Permutation|].
  unfold s, s'.
  rewrite (get_collaboration_stats_fields listed pr_reviews),
    (get_collaboration_stats_fields listed pr_reviews'). cbv zeta.
  cbn [CollaborationExport.Stats.unique_collaborators
       CollaborationExport.Stats.total_pr_reviews
       CollaborationExport.Stats.total_review_comments
       CollaborationExport.Stats.total_prs_commented_on
       CollaborationExport.Stats.total_pr_comments
       CollaborationExport.Stats.total_pr_discussion_threads
       CollaborationExport.Stats.total_issues_engaged_with
       CollaborationExport.Stats.total_issue_comments
       CollaborationExport.Stats.total_collaboration_touchpoints].
  unfold CollaborationExport.PySet.len. rewrite Hset.
  rewrite (len_Permutation _ _ Ha), (len_Permutation _ _ Hb),
    (len_Permutation _ _ Hd).
  rewrite (sum_Permutation _ _ _ Ha), (sum_Permutation _ _ _ Hb),
    (sum_Permutation _ _ _ Hc), (sum_Permutation _ _ _ Hd).
  repeat split.
Qed.

Lemma C6_stats_order_independent_witness :
  let s :=
    CollaborationExport.get_collaboration_stats in_insertion_order
      [CollaborationExport.pr_with_review erins_pr review_2024_02_01;
       CollaborationExport.pr_with_review heidis_pr review_2024_02_01]
      [] [] [] in
  let s' :=
    CollaborationExport.get_collaboration_stats in_insertion_order
      [CollaborationExport.pr_with_review heidis_pr review_2024_02_01;
       CollaborationExport.pr_with_review erins_pr review_2024_02_01]
      [] [] [] in
  CollaborationExport.PySet.elements
    (CollaborationExport.collaborators
       [CollaborationExport.pr_with_review erins_pr review_2024_02_01;
        CollaborationExport.pr_with_review heidis_pr review_2024_02_01]
       [] [] [])
  = CollaborationExport.PySet.elements
      (CollaborationExport.collaborators
         [CollaborationExport.pr_with_review heidis_pr review_2024_02_01;
          CollaborationExport.pr_with_review erins_pr review_2024_02_01]
         [] [] [])
  /\ Permutation (CollaborationExport.Stats.collaborator_list s)
                 (CollaborationExport.Stats.collaborator_list s')
  /\ CollaborationExport.Stats.unique_collaborators s
     = CollaborationExport.Stats.unique_collaborators s'
  /\ CollaborationExport.Stats.total_pr_reviews s
     = CollaborationExport.Stats.total_pr_reviews s'
  /\ CollaborationExport.Stats.total_review_comments s
     = CollaborationExport.Stats.total_review_comments s'
  /\ CollaborationExport.Stats.total_prs_commented_on s
     = CollaborationExport.Stats.total_prs_commented_on s'
  /\ CollaborationExport.Stats.total_pr_comments s
     = CollaborationExport.Stats.total_pr_comments s'
  /\ CollaborationExport.Stats.total_pr_discussion_threads s
     = CollaborationExport.Stats.total_pr_discussion_threads s'
  /\ CollaborationExport.Stats.total_issues_engaged_with s
     = CollaborationExport.Stats.total_issues_engaged_with s'
  /\ CollaborationExport.Stats.total_issue_comments s
     = CollaborationExport.Stats.total_issue_comments s'
  /\ CollaborationExport.Stats.total_collaboration_touchpoints s
     = CollaborationExport.Stats.total_collaboration_touchpoints s'.
Proof.
  apply (C6_stats_order_independent in_insertion_order);
    [apply in_insertion_order_enumerates
    | apply perm_swap | apply perm_nil | apply perm_nil | apply perm_nil].
Defined.

(** C6 as stated fails: alice reviewed a pull request of erin and one of
    heidi.  On a host that enumerates a set in the order of insertion, the
    bucket holding erin's entry first gives the list erin, heidi and the
    bucket holding heidi's entry first gives heidi, erin: the statistics
    differ. *)
Lemma C6_counterexample :
  enumerates in_insertion_order
  /\ Permutation
       [CollaborationExport.pr_with_review erins_pr review_2024_02_01;
        CollaborationExport.pr_with_review heidis_pr review_2024_02_01]
       [CollaborationExport.pr_with_review heidis_pr review_2024_02_01;
        CollaborationExport.pr_with_review erins_pr review_2024_02_01]
  /\ CollaborationExport.Stats.collaborator_list
       (CollaborationExport.get_collaboration_stats in_insertion_order
          [CollaborationExport.pr_with_review erins_pr review_2024_02_01;
           CollaborationExport.pr_with_review heidis_pr review_2024_02_01]
          [] [] [])
     = ["erin"; "heidi"]
  /\ CollaborationExport.Stats.collaborator_list
       (CollaborationExport.get_collaboration_stats in_insertion_order
          [CollaborationExport.pr_with_review heidis_pr review_2024_02_01;
           CollaborationExport.pr_with_review erins_pr review_2024_02_01]
          [] [] [])
     = ["heidi"; "erin"]
  /\ CollaborationExport.get_collaboration_stats in_insertion_order
       [CollaborationExport.pr_with_review erins_pr review_2024_02_01;
        CollaborationExport.pr_with_review heidis_pr review_2024_02_01]
       [] [] []
     <> CollaborationExport.get_collaboration_stats in_insertion_order
          [CollaborationExport.pr_with_review heidis_pr review_2024_02_01;
           CollaborationExport.pr_with_review erins_pr review_2024_02_01]
          [] [] [].
Proof.
  split; [apply in_insertion_order_enumerates|].
  split; [apply perm_swap|].
  split; [reflexivity|]. split; [reflexivity|].
  intros H.
  apply (f_equal CollaborationExport.Stats.collaborator_list) in H.
  vm_compute in H. discriminate.
Qed.

(** C10.  When the fetch of the reviews given returns, every entry of its
    bucket comes from a review on the pages it walked and carries as
    [review_comments_count] the [totalCount] the endpoint reported for the
    review's comments, and as [review_comments] the comment nodes embedded
    in the review; [total_review_comments] is the sum of these counts over
    the bucket.  The count can exceed the number of embedded comments: 45
    against 1 for the one entry of the bucket on the feed given here. *)
Theorem C10_review_comments_count :
  (forall endpoint fuel username owner name token since_date log bucket log',
     CollaborationExport.get_user_pr_reviews endpoint fuel username owner
       name token since_date log = (Return bucket, log') ->
     exists since_datetime cursors pages,
       Timestamp.parse since_date = Some since_datetime
       /\ walked (reviews_answer endpoint owner name username token)
                 (reviews_request owner name username) log log' cursors pages
       /\ forall e,
            e ∈ bucket ->
            exists pr review,
              pr ∈ all_nodes pages
              /\ review ∈ ReviewedPR.reviews pr
              /\ e = CollaborationExport.pr_with_review pr review
              /\ CollaborationExport.ReviewEntry.review_comments_count e
                 = ReviewComments.totalCount (Review.comments review)
              /\ CollaborationExport.ReviewEntry.review_comments e
                 = ReviewComments.nodes (Review.comments review))
  /\ (forall listed pr_reviews commented_prs pr_threads issue_discussions,
        CollaborationExport.Stats.total_review_comments
          (CollaborationExport.get_collaboration_stats listed pr_reviews
             commented_prs pr_threads issue_discussions)
        = sum CollaborationExport.ReviewEntry.review_comments_count
              pr_reviews)
  /\ (exists e,
        fst (CollaborationExport.get_user_pr_reviews busy_review_endpoint 1
               "alice" "acme" "widgets" "token" "2024-01-01T00:00:00Z" [])
        = Return [e]
        /\ CollaborationExport.ReviewEntry.review_comments_count e = 45
        /\ len (CollaborationExport.ReviewEntry.review_comments e) = 1).
Proof.
  split; [|split].
  - intros endpoint fuel username owner name token since_date log bucket log'
      H.
    apply get_user_pr_reviews_Return
      in H as (since_datetime & cursors & pages & Hs & Hwalk & ->).
    exists since_datetime, cursors, pages. split; [done|]. split; [done|].
    intros e (pr & review & Hpr & Hr & _ & _ & ->)%elem_of_reviews_bucket.
    by exists pr, review.
  - reflexivity.
  - eexists. split; [by vm_compute|]. split; reflexivity.
Qed.

Lemma C10_review_comments_count_witness :
  exists since_datetime cursors pages,
    Timestamp.parse "2024-01-01T00:00:00Z" = Some since_datetime
    /\ walked (reviews_answer busy_review_endpoint "acme" "widgets" "alice"
                              "token")
              (reviews_request "acme" "widgets" "alice") []
              [reviews_request "acme" "widgets" "alice" None] cursors pages
    /\ forall e,
         e ∈ [CollaborationExport.pr_with_review busy_pr busy_review] ->
         exists pr review,
           pr ∈ all_nodes pages
           /\ review ∈ ReviewedPR.reviews pr
           /\ e = CollaborationExport.pr_with_review pr review
           /\ CollaborationExport.ReviewEntry.review_comments_count e
              = ReviewComments.totalCount (Review.comments review)
           /\ CollaborationExport.ReviewEntry.review_comments e
              = ReviewComments.nodes (Review.comments review).
Proof.
  apply (proj1 C10_review_comments_count busy_review_endpoint 1%nat "alice"
           "acme" "widgets" "token" "2024-01-01T00:00:00Z" []).
  vm_compute. reflexivity.
Defined.

(** C5.  The collaborator set of a run holds neither the "Unknown"
    sentinel nor the login of the target user.  "Unknown" is kept out by
    the aggregator itself, whatever the buckets.  The login of the target
    user is kept out because the buckets that [main] passes are those the
    four fetches made for that user, none of which names the user as a
    collaborator.  The same holds of [collaborator_list], which enumerates
    the set, and [unique_collaborators] is the size of the set. *)
Theorem C5_collaborators_of_a_run :
  (forall pr_reviews commented_prs pr_threads issue_discussions,
     "Unknown" ∉ CollaborationExport.PySet.elements
                   (CollaborationExport.collaborators pr_reviews
                      commented_prs pr_threads issue_discussions))
  /\ (forall endpoint listed write_failure fuel username owner name token
             since_date timeframe generated_at result log,
        CollaborationExport.main endpoint listed write_failure fuel username
          owner name token since_date timeframe generated_at
        = (CollaborationExport.Wrote result, log) ->
        let collaborators :=
          CollaborationExport.collaborators
            (CollaborationExport.Report.pr_reviews result)
            (CollaborationExport.Report.commented_prs result)
            (CollaborationExport.Report.pr_discussion_threads result)
            (CollaborationExport.Report.issue_discussions result) in
        (username ∉ CollaborationExport.PySet.elements collaborators)
        /\ ("Unknown" ∉ CollaborationExport.PySet.elements collaborators)
        /\ CollaborationExport.Stats.unique_collaborators
             (CollaborationExport.Report.statistics result)
           = CollaborationExport.PySet.len collaborators
        /\ (enumerates listed ->
            (username ∉ CollaborationExport.Stats.collaborator_list
                          (CollaborationExport.Report.statistics result))
            /\ ("Unknown" ∉ CollaborationExport.Stats.collaborator_list
                              (CollaborationExport.Report.statistics
                                 result)))).
Proof.
  assert (HU : forall a b c d,
            "Unknown" ∉ CollaborationExport.PySet.elements
                          (CollaborationExport.collaborators a b c d)).
  { intros a b c d. rewrite elem_of_collaborators. by intros [? _]. }
  split; [exact HU|].
  intros endpoint listed write_failure fuel username owner name token
    since_date timeframe generated_at result log Hmain collaborators.
  apply collaboration_main_Wrote
    in Hmain as (log0 & log1 & log2 & log3 & H1 & H2 & H3 & H4 & Hstats).
  assert (Huser : username ∉ CollaborationExport.PySet.elements
                               collaborators).
  { unfold collaborators.
    apply get_user_pr_reviews_Return in H1 as (s1 & ? & p1 & _ & _ & ->).
    apply get_prs_with_user_comments_Return
      in H2 as (s2 & ? & p2 & _ & _ & ->).
    apply get_user_pr_comment_threads_Return
      in H3 as (s3 & ? & p3 & _ & _ & ->).
    apply get_issue_discussions_Return in H4 as (s4 & ? & p4 & _ & _ & ->).
    rewrite elem_of_collaborators. intros [Hne Hnamed].
    by apply named_by_not_user in Hnamed. }
  split; [exact Huser|]. split; [apply HU|]. rewrite Hstats.
  split; [reflexivity|]. intros Hlisted.
  unfold CollaborationExport.get_collaboration_stats.
  cbn [CollaborationExport.Stats.collaborator_list].
  rewrite !(proj2 (Hlisted _)). split; [exact Huser|apply HU].
Qed.

Lemma C5_collaborators_of_a_run_witness :
  let collaborators :=
    CollaborationExport.collaborators
      (CollaborationExport.Report.pr_reviews team_report)
      (CollaborationExport.Report.commented_prs team_report)
      (CollaborationExport.Report.pr_discussion_threads team_report)
      (CollaborationExport.Report.issue_discussions team_report) in
  ("alice" ∉ CollaborationExport.PySet.elements collaborators)
  /\ ("Unknown" ∉ CollaborationExport.PySet.elements collaborators)
  /\ CollaborationExport.Stats.unique_collaborators
       (CollaborationExport.Report.statistics team_report)
     = CollaborationExport.PySet.len collaborators
  /\ (enumerates in_insertion_order ->
      ("alice" ∉ CollaborationExport.Stats.collaborator_list
                   (CollaborationExport.Report.statistics team_report))
      /\ ("Unknown" ∉ CollaborationExport.Stats.collaborator_list
                        (CollaborationExport.Report.statistics team_report))).
Proof.
  apply (proj2 C5_collaborators_of_a_run team_endpoint in_insertion_order
           no_write_failure 2%nat "alice" "acme" "widgets" "token"
           "2024-01-01T00:00:00Z" 365 "2024-06-01T12:00:00" team_report
           team_log).
  vm_compute. reflexivity.
Defined.

(** ** The cutoff *)

(** C1, as the code has it.  When a fetch returns: each entry of the
    reviews-given bucket and of the discussion-on-own-work bucket carries a
    [created_at] that passes the filter, as does the comment of each of the
    latter's threads; each pull request of the authored-pull-requests
    bucket has a [createdAt] that passes the filter; each comment kept in
    an entry of the comments-given bucket and of the issue-participation
    bucket passes the filter, and an issue-participation entry that keeps
    no comment comes from an issue whose own creation time passes it.  The
    pull request of a comments-given entry and the issue of an
    issue-participation entry that keeps a comment are not checked.  The
    commits are not checked either: the cutoff is sent to the endpoint, and
    a commit the endpoint returns is in the bucket whatever its date. *)
Theorem C1_cutoff_by_bucket :
  (forall endpoint fuel username owner name token since_date log bucket log',
     CollaborationExport.get_user_pr_reviews endpoint fuel username owner
       name token since_date log = (Return bucket, log') ->
     exists since_datetime,
       Timestamp.parse since_date = Some since_datetime
       /\ forall e,
            e ∈ bucket ->
            passes since_datetime
                   (CollaborationExport.ReviewEntry.created_at e))
  /\ (forall endpoint fuel username owner name token since_date log bucket
             log',
        CollaborationExport.get_prs_with_user_comments endpoint fuel username
          owner name token since_date log = (Return bucket, log') ->
        exists since_datetime,
          Timestamp.parse since_date = Some since_datetime
          /\ forall e c,
               e ∈ bucket ->
               c ∈ CollaborationExport.CommentedEntry.comments e ->
               passes since_datetime (Comment.createdAt c))
  /\ (forall endpoint fuel username owner name token since_date log bucket
             log',
        CollaborationExport.get_user_pr_comment_threads endpoint fuel
          username owner name token since_date log = (Return bucket, log') ->
        exists since_datetime,
          Timestamp.parse since_date = Some since_datetime
          /\ forall e,
               e ∈ bucket ->
               passes since_datetime
                      (CollaborationExport.ThreadEntry.created_at e)
               /\ forall thread,
                    thread
                    ∈ CollaborationExport.ThreadEntry.discussion_threads e ->
                    passes since_datetime
                      (Comment.createdAt
                         (CollaborationExport.Thread.comment thread)))
  /\ (forall endpoint fuel username owner name token since_date log bucket
             log',
        CollaborationExport.get_issue_discussions endpoint fuel username
          owner name token since_date log = (Return bucket, log') ->
        exists since_datetime cursors pages,
          Timestamp.parse since_date = Some since_datetime
          /\ walked (issues_answer endpoint owner name token)
                    (issues_request owner name) log log' cursors pages
          /\ forall e,
               e ∈ bucket ->
               exists issue,
                 issue ∈ all_nodes pages
                 /\ e = CollaborationExport.issue_entry username issue
                          (CollaborationExport.IssueEntry.comments e)
                 /\ (forall c,
                       c ∈ CollaborationExport.IssueEntry.comments e ->
                       passes since_datetime (Comment.createdAt c))
                 /\ (CollaborationExport.IssueEntry.comments e = [] ->
                     passes since_datetime (Discussed.createdAt issue)))
  /\ (forall endpoint fuel username owner name token since_date log bucket
             log',
        WorkSummary.get_user_pull_requests endpoint fuel username owner name
          token since_date log = (Return bucket, log') ->
        exists since_datetime,
          Timestamp.parse since_date = Some since_datetime
          /\ forall pr,
               pr ∈ bucket ->
               passes since_datetime (PullRequest.createdAt pr))
  /\ (forall c fuel username owner name token since_date log,
        fst (WorkSummary.get_user_commits
               (endpoint_of nothing nothing nothing nothing nothing
                  (fun _ => ok_response (History (last_page [c]))))
               (S fuel) username owner name token since_date log)
        = Return [c]).
Proof.
  repeat split; [| | | | |apply get_user_commits_unfiltered].
  - intros endpoint fuel username owner name token since_date log bucket log'
      (since_datetime & ? & pages & Hs & _ & ->)%get_user_pr_reviews_Return.
    exists since_datetime. split; [done|].
    by intros e (pr & r & _ & _ & _ & Hp & ->)%elem_of_reviews_bucket.
  - intros endpoint fuel username owner name token since_date log bucket log'
      (since_datetime & ? & pages & Hs & _ & ->)
        %get_prs_with_user_comments_Return.
    exists since_datetime. split; [done|].
    intros e c (pr & _ & _ & _ & ->)%elem_of_commented_bucket Hc.
    simpl in Hc. by apply elem_of_user_comments_since in Hc as (_ & _ & ?).
  - intros endpoint fuel username owner name token since_date log bucket log'
      (since_datetime & ? & pages & Hs & _ & ->)
        %get_user_pr_comment_threads_Return.
    exists since_datetime. split; [done|].
    intros e (pr & _ & _ & Hp & _ & ->)%elem_of_threads_bucket.
    split; [done|]. simpl.
    by intros thread (c & a & _ & _ & _ & ? & ->)%elem_of_threads_since.
  - intros endpoint fuel username owner name token since_date log bucket log'
      (since_datetime & cursors & pages & Hs & Hwalk & ->)
        %get_issue_discussions_Return.
    exists since_datetime, cursors, pages. split; [done|]. split; [done|].
    intros e (issue & Hi & Ha & ->)%elem_of_issues_bucket.
    exists issue. split; [done|]. split; [done|]. simpl. split.
    + by intros c (_ & _ & ?)%elem_of_user_comments_since.
    + intros Hnil. apply issue_qualifies_true in Ha as [[_ Hp]|(c & Hc)];
        [done|].
      apply elem_of_user_comments_since in Hc. rewrite Hnil in Hc.
      by apply elem_of_nil in Hc.
  - intros endpoint fuel username owner name token since_date log bucket log'
      (since_datetime & Hs & Hall)%get_user_pull_requests_Return.
    exists since_datetime. split; [done|]. intros pr Hpr.
    by destruct (Hall pr Hpr).
Qed.

Lemma C1_cutoff_by_bucket_witness :
  (exists since_datetime,
     Timestamp.parse "2024-01-01T00:00:00Z" = Some since_datetime
     /\ forall e,
          e ∈ team_pr_reviews ->
          passes since_datetime
                 (CollaborationExport.ReviewEntry.created_at e))
  /\ (exists since_datetime,
        Timestamp.parse "2024-01-01T00:00:00Z" = Some since_datetime
        /\ forall e c,
             e ∈ [CollaborationExport.commented_entry bobs_discussed_pr
                    [alices_comment]] ->
             c ∈ CollaborationExport.CommentedEntry.comments e ->
             passes since_datetime (Comment.createdAt c))
  /\ (exists since_datetime,
        Timestamp.parse "2024-01-01T00:00:00Z" = Some since_datetime
        /\ forall e,
             e ∈ team_pr_threads ->
             passes since_datetime
                    (CollaborationExport.ThreadEntry.created_at e)
             /\ forall thread,
                  thread
                  ∈ CollaborationExport.ThreadEntry.discussion_threads e ->
                  passes since_datetime
                    (Comment.createdAt
                       (CollaborationExport.Thread.comment thread)))
  /\ (exists since_datetime cursors pages,
        Timestamp.parse "2024-01-01T00:00:00Z" = Some since_datetime
        /\ walked (issues_answer old_issue_endpoint "acme" "widgets" "token")
                  (issues_request "acme" "widgets") []
                  [issues_request "acme" "widgets" None] cursors pages
        /\ forall e,
             e ∈ team_issue_discussions ->
             exists issue,
               issue ∈ all_nodes pages
               /\ e = CollaborationExport.issue_entry "alice" issue
                        (CollaborationExport.IssueEntry.comments e)
               /\ (forall c,
                     c ∈ CollaborationExport.IssueEntry.comments e ->
                     passes since_datetime (Comment.createdAt c))
               /\ (CollaborationExport.IssueEntry.comments e = [] ->
                   passes since_datetime (Discussed.createdAt issue)))
  /\ (exists since_datetime,
        Timestamp.parse "2024-01-01T00:00:00Z" = Some since_datetime
        /\ forall pr,
             pr ∈ [pull_request 41 "alice" "2024-05-01T00:00:00Z"] ->
             passes since_datetime (PullRequest.createdAt pr)).
Proof.
  destruct C1_cutoff_by_bucket as (H1 & H2 & H3 & H4 & H5 & _).
  split; [|split; [|split; [|split]]].
  - apply (H1 alice_reviews_endpoint 1%nat "alice" "acme" "widgets" "token"
              "2024-01-01T00:00:00Z" []
              _ [reviews_request "acme" "widgets" "alice" None]).
    vm_compute. reflexivity.
  - apply (H2 bobs_discussed_endpoint 1%nat "alice" "acme" "widgets" "token"
              "2024-01-01T00:00:00Z" []
              _ [commented_request "acme" "widgets" None]).
    vm_compute. reflexivity.
  - apply (H3 alices_pr_endpoint 1%nat "alice" "acme" "widgets" "token"
              "2024-01-01T00:00:00Z" []
              _ [threads_request "acme" "widgets" None]).
    vm_compute. reflexivity.
  - apply (H4 old_issue_endpoint 1%nat "alice" "acme" "widgets" "token"
              "2024-01-01T00:00:00Z" []).
    vm_compute. reflexivity.
  - apply (H5 two_pages_endpoint 5%nat "alice" "acme" "widgets" "token"
              "2024-01-01T00:00:00Z" []
              _ [pulls_request "acme" "widgets" None]).
    vm_compute. reflexivity.
Defined.

(** C1 as stated fails on the issue-participation bucket: bob's issue of
    2023-03-01 is in the bucket for the cutoff 2024-01-01, through alice's
    comment of 2024-02-10. *)
Lemma C1_counterexample :
  ~ (forall endpoint fuel username owner name token since_date log bucket
            log' since_datetime cursors pages issue,
       CollaborationExport.get_issue_discussions endpoint fuel username owner
         name token since_date log = (Return bucket, log') ->
       Timestamp.parse since_date = Some since_datetime ->
       walked (issues_answer endpoint owner name token)
              (issues_request owner name) log log' cursors pages ->
       issue ∈ all_nodes pages ->
       CollaborationExport.issue_entry username issue
         (user_comments_since username since_datetime
            (Comments.nodes (Discussed.comments issue))) ∈ bucket ->
       passes since_datetime (Discussed.createdAt issue)).
Proof.
  intros H.
  specialize (H old_issue_endpoint 1%nat "alice" "acme" "widgets" "token"
                "2024-01-01T00:00:00Z" []
                [CollaborationExport.issue_entry "alice" old_issue
                   [alices_comment]]
                [issues_request "acme" "widgets" None] 1704067200 [None]
                [last_page [old_issue]] old_issue).
  destruct H as (t & Ht & Hle).
  - vm_compute. reflexivity.
  - vm_compute. reflexivity.
  - split; [reflexivity|]. constructor; [|constructor].
    vm_compute. reflexivity.
  - apply list_elem_of_here.
  - apply list_elem_of_here.
  - vm_compute in Ht. injection Ht as <-. lia.
Qed.

(** ** The claims about github-work-summary.py *)

(** C3.  Whatever the outcome of the fetch of the authored pull requests,
    the requests it sent are those for a sequence of cursors, and a cursor
    whose page holds a pull request created before the cutoff is the last
    of them: no page beyond it is fetched.  (The ordering of the feed is
    not needed for this.) *)
Theorem C3_early_stop
    endpoint fuel username owner name token since_date since_datetime
    log out log' :
  WorkSummary.get_user_pull_requests endpoint fuel username owner name token
    since_date log = (out, log') ->
  Timestamp.parse since_date = Some since_datetime ->
  exists cursors,
    log' = log ++ map (pulls_request owner name) cursors
    /\ forall pre c post pg pr,
         cursors = pre ++ c :: post ->
         pulls_answer endpoint owner name token c = Return (Some pg) ->
         pr ∈ Connection.nodes pg ->
         older since_datetime (PullRequest.createdAt pr) ->
         post = [].
Proof.
  rewrite get_user_pull_requests_unfold. unfold bind at 1, lift at 1.
  intros Hrun Hs. apply fromisoformat_Z_Return in Hs. rewrite Hs in Hrun.
  unfold bind in Hrun.
  destruct (while _ _ _ _ _) as [o log1] eqn:Hw.
  apply pulls_while_log in Hw as (cursors & -> & Hlast).
  exists cursors. split; [|done].
  by destruct o; injection Hrun as _ <-.
Qed.

Lemma C3_early_stop_witness :
  exists cursors,
    [pulls_request "acme" "widgets" None]
    = [] ++ map (pulls_request "acme" "widgets") cursors
    /\ forall pre c post pg pr,
         cursors = pre ++ c :: post ->
         pulls_answer two_pages_endpoint "acme" "widgets" "token" c
         = Return (Some pg) ->
         pr ∈ Connection.nodes pg ->
         older 1704067200 (PullRequest.createdAt pr) ->
         post = [].
Proof.
  apply (C3_early_stop two_pages_endpoint 5%nat "alice" "acme" "widgets"
           "token" "2024-01-01T00:00:00Z" 1704067200 []
           (Return [pull_request 41 "alice" "2024-05-01T00:00:00Z"])).
  - vm_compute. reflexivity.
  - vm_compute. reflexivity.
Defined.

(** ** The claims about failures of the runner *)

(** C2, as the code has it.  In github-collaboration-export.py a request
    on which the runner fails is the last request of the run: nothing is
    sent after it, the same request included, and the run ends in
    [sys.exit(1)] on the runner's exception, with no report written.  In
    github-work-summary.py the same holds of every request other than
    those of the commit-history probes.  A failure on a request of a
    commit-history probe is caught inside [get_user_commits], which never
    raises: when it returns, it has made both probes, each from the null
    cursor, a request on which the runner failed is the last request of its
    probe, and the result is the deduplication of the commits of the pages
    that were answered.  A run that has sent a commit-history request no
    longer ends on an exception of the runner: it can only exit if the
    report cannot be written, and when it can be written and both probes
    come to an end within the fuel, the run writes its report, with these
    commits in it. *)
Theorem C2_failures_abort_outside_commit_probes :
  (forall endpoint listed write_failure fuel username owner name token
          since_date timeframe generated_at run log pre r post e,
     CollaborationExport.main endpoint listed write_failure fuel username
       owner name token since_date timeframe generated_at = (run, log) ->
     log = pre ++ r :: post ->
     fails_with endpoint token r e ->
     run = CollaborationExport.Exit1 e /\ post = [])
  /\ (forall endpoint write_failure fuel username owner name token since_date
             timeframe generated_at run log pre r post e,
        WorkSummary.main endpoint write_failure fuel username owner name
          token since_date timeframe generated_at = (run, log) ->
        log = pre ++ r :: post ->
        fst r <> CommitsQuery ->
        fails_with endpoint token r e ->
        run = WorkSummary.Exit1 e /\ post = [])
  /\ (forall endpoint fuel username owner name token since_date log out log',
        WorkSummary.get_user_commits endpoint fuel username owner name token
          since_date log = (out, log') ->
        forall e, out <> Raise e)
  /\ (forall endpoint fuel username owner name token since_date log bucket
             log',
        WorkSummary.get_user_commits endpoint fuel username owner name token
          since_date log = (Return bucket, log') ->
        exists cursors1 cursors2,
          log' = log ++ map (fun p =>
                               commits_request owner name since_date (fst p)
                                 (snd p))
                            (probes username cursors1 cursors2)
          /\ bucket
             = WorkSummary.remove_duplicates
                 (flat_map (fun p =>
                              history_nodes
                                (commits_answer endpoint owner name token
                                   since_date (fst p) (snd p)))
                           (probes username cursors1 cursors2))
          /\ (forall pre c post e,
                None :: cursors1 = pre ++ c :: post ->
                commits_answer endpoint owner name token since_date
                  (String.append username "@users.noreply.github.com") c
                = Raise e ->
                post = [])
          /\ (forall pre c post e,
                None :: cursors2 = pre ++ c :: post ->
                commits_answer endpoint owner name token since_date username
                  c = Raise e ->
                post = []))
  /\ (forall endpoint write_failure fuel username owner name token since_date
             timeframe generated_at run log r,
        WorkSummary.main endpoint write_failure fuel username owner name
          token since_date timeframe generated_at = (run, log) ->
        r ∈ log ->
        fst r = CommitsQuery ->
        (forall e, run = WorkSummary.Exit1 e -> write_failure = Some e)
        /\ (forall cursors1 cursors2,
              write_failure = None ->
              probe_walk
                (commits_answer endpoint owner name token since_date
                   (String.append username "@users.noreply.github.com"))
                None cursors1 ->
              probe_walk
                (commits_answer endpoint owner name token since_date
                   username)
                None cursors2 ->
              (length cursors1 < fuel)%nat ->
              (length cursors2 < fuel)%nat ->
              exists result,
                run = WorkSummary.Wrote result
                /\ WorkSummary.Report.commits result
                   = WorkSummary.remove_duplicates
                       (flat_map (fun p =>
                                    history_nodes
                                      (commits_answer endpoint owner name
                                         token since_date (fst p) (snd p)))
                                 (probes username cursors1 cursors2)))).
Proof.
  split; [|split; [|split; [|split]]].
  - intros endpoint listed write_failure fuel username owner name token
      since_date timeframe generated_at run log pre r post e Hmain Hlog Hf.
    unfold CollaborationExport.main in Hmain.
    destruct (CollaborationExport.main_try _ _ _ _ _ _ _ _ _ _ [])
      as [o log0] eqn:Hrun.
    destruct (propagates_collaboration_main_try endpoint listed token
                (fun _ => True) _ _ _ _ _ _ _ _ _ _ Hrun)
      as (sent & Hsent & Hlast).
    simpl in Hsent. subst log0.
    assert (log = sent) as ->
      by (destruct o; [destruct write_failure|..]; by injection Hmain).
    destruct (Hlast pre r post e Hlog I Hf) as [-> ->]. split; [|done].
    by injection Hmain.
  - intros endpoint write_failure fuel username owner name token since_date
      timeframe generated_at run log pre r post e Hmain Hlog Hq Hf.
    unfold WorkSummary.main in Hmain.
    destruct (WorkSummary.main_try _ _ _ _ _ _ _ _ _ []) as [o log0] eqn:Hrun.
    destruct (propagates_summary_main_try endpoint token
                _ _ _ _ _ _ _ _ _ _ Hrun)
      as (sent & Hsent & Hlast).
    simpl in Hsent. subst log0.
    assert (log = sent) as ->
      by (destruct o; [destruct write_failure|..]; by injection Hmain).
    destruct (Hlast pre r post e Hlog Hq Hf) as [-> ->]. split; [|done].
    by injection Hmain.
  - intros endpoint fuel username owner name token since_date log out log'
      Hrun.
    by destruct (quiet_get_user_commits endpoint fuel username owner name
                   token since_date _ _ _ Hrun).
  - intros endpoint fuel username owner name token since_date log bucket log'
      Hrun.
    apply get_user_commits_probes
      in Hrun as (commits1 & log1 & commits2 & H1 & H2 & ->).
    apply probe_Return in H1 as (cursors1 & Hwalk1 & _ & -> & ->).
    apply probe_Return in H2 as (cursors2 & Hwalk2 & _ & -> & ->).
    exists cursors1, cursors2. split; [|split; [|split]].
    + unfold probes. rewrite map_app.
      rewrite !(map_pair _ (commits_request owner name since_date)).
      by rewrite <- app_assoc.
    + unfold probes. rewrite flat_map_app.
      by rewrite !(flat_map_pair _
                     (fun email c =>
                        history_nodes
                          (commits_answer endpoint owner name token
                             since_date email c))).
    + intros pre c post e Hsplit Hfail.
      apply (probe_walk_stops _ _ _ _ _ _ Hwalk1 Hsplit).
      intros history Ha. by rewrite Ha in Hfail.
    + intros pre c post e Hsplit Hfail.
      apply (probe_walk_stops _ _ _ _ _ _ Hwalk2 Hsplit).
      intros history Ha. by rewrite Ha in Hfail.
  - intros endpoint write_failure fuel username owner name token since_date
      timeframe generated_at run log r Hmain Hin Hq.
    destruct (summary_main_reaches_commits _ _ _ _ _ _ _ _ _ _ _ _ _
                Hmain Hin Hq)
      as (repository & pull_requests & log1 & out & Hcommits & ->).
    split.
    + intros e. destruct out as [commits|e'|].
      * by destruct write_failure as [e'|]; intros [= ->].
      * by destruct (quiet_get_user_commits endpoint fuel username owner
                       name token since_date _ _ _ Hcommits) as [Hne _];
          destruct (Hne e').
      * done.
    + intros cursors1 cursors2 -> Hwalk1 Hwalk2 Hlen1 Hlen2.
      rewrite (get_user_commits_returns _ _ _ _ _ _ _ _ cursors1 cursors2)
        in Hcommits by done.
      injection Hcommits as <- _. by eexists.
Qed.

Lemma C2_failures_abort_outside_commit_probes_witness :
  CollaborationExport.Exit1 (QueryFailed 502 "Bad Gateway")
  = CollaborationExport.Exit1 (QueryFailed 502 "Bad Gateway")
  /\ @nil Request = [].
Proof.
  apply (proj1 C2_failures_abort_outside_commit_probes
           failing_reviews_endpoint in_insertion_order no_write_failure
           3%nat "alice" "acme" "widgets" "token"
           "2024-01-01T00:00:00Z" 365 "2024-06-01T12:00:00"
           (CollaborationExport.Exit1 (QueryFailed 502 "Bad Gateway"))
           [(RepositoryQuery,
             [("owner", Some "acme"); ("name", Some "widgets")]);
            reviews_request "acme" "widgets" "alice" None]
           [(RepositoryQuery,
             [("owner", Some "acme"); ("name", Some "widgets")])]
           (reviews_request "acme" "widgets" "alice" None) []
           (QueryFailed 502 "Bad Gateway")).
  - vm_compute. reflexivity.
  - reflexivity.
  - vm_compute. reflexivity.
Defined.

(** C2 as stated fails: the runner fails on the second page of both
    commit-history probes, and the run goes on to write a report, with the
    commit of the first page in it. *)
Lemma C2_counterexample :
  exists result log r e,
    WorkSummary.main failing_commits_endpoint no_write_failure 3 "alice"
      "acme" "widgets" "token" "2024-01-01T00:00:00Z" 365
      "2024-06-01T12:00:00"
    = (WorkSummary.Wrote result, log)
    /\ r ∈ log
    /\ fails_with failing_commits_endpoint "token" r e
    /\ WorkSummary.Report.commits result = [a_commit].
Proof.
  eexists _, _,
    (CommitsQuery,
     commits_variables "acme" "widgets" "2024-01-01T00:00:00Z"
       "alice@users.noreply.github.com" (Some "c2")),
    (QueryFailed 502 "Bad Gateway").
  split; [vm_compute; reflexivity|]. split; [|split].
  - do 3 apply list_elem_of_further. apply list_elem_of_here.
  - vm_compute. reflexivity.
  - reflexivity.
Qed.

(** ** Two more scenarios *)

(** An issue authored by the target user within the window, without
    comments, is in the issue-participation bucket, flagged as authored by
    the user, with a comment count of 0. *)
Example issue_authored_without_comments :
  fst (CollaborationExport.get_issue_discussions alices_issue_endpoint 1
         "alice" "acme" "widgets" "token" "2024-01-01T00:00:00Z" [])
  = Return
      [{| CollaborationExport.IssueEntry.issue_number := 14;
          CollaborationExport.IssueEntry.issue_title := "Add a bell";
          CollaborationExport.IssueEntry.issue_url :=
            "https://github.com/acme/widgets/issues/14";
          CollaborationExport.IssueEntry.issue_author := "alice";
          CollaborationExport.IssueEntry.is_authored_by_user := Some true;
          CollaborationExport.IssueEntry.comments := [];
          CollaborationExport.IssueEntry.comment_count := 0 |}].
Proof. vm_compute. reflexivity. Qed.

(** Both commit-history probes return the commit with oid "abc123": the
    final list holds it once. *)
Example both_probes_return_the_same_commit :
  fst (WorkSummary.get_user_commits same_commit_endpoint 1 "alice" "acme"
         "widgets" "token" "2024-01-01T00:00:00Z" [])
  = Return [a_commit]
  /\ map fst (snd (WorkSummary.get_user_commits same_commit_endpoint 1
                     "alice" "acme" "widgets" "token"
                     "2024-01-01T00:00:00Z" []))
     = [CommitsQuery; CommitsQuery].
Proof. split; vm_compute; reflexivity. Qed.

(** * Further properties of the code *)

(** ** The cursor loops walk the whole feed *)

Section PagedWalk.
Context {N E : Type}.
Context (request : option string -> M (option (Connection.t N))).
Context (answer : option string -> outcome (option (Connection.t N))).
Context (req : option string -> Request).
Context (step : N -> list E -> outcome (flow (list E))).
Context (g : N -> outcome (list E)).
Hypothesis request_run :
  forall c log, request c log = (answer c, log ++ [req c]).
Hypothesis step_appends :
  forall x s, step x s = (l <~ g x ;; Return (Next (s ++ l)))%outcome.
Context (h : N -> list E).
Hypothesis g_spec : forall x l, g x = Return l -> l = h x.

Lemma while_paged_chain fuel s log final log' :
  while fuel Paging.has_next_page (page_body request step) s log
  = (Return final, log') ->
  Paging.has_next_page s = true ->
  exists pages,
    log' = log ++ map req (chain (Paging.cursor s) pages)
    /\ feed answer (length pages) (Paging.cursor s) = Some pages
    /\ Paging.items final = Paging.items s ++ flat_map h (all_nodes pages).
Proof.
  revert s log. induction fuel as [|fuel IH]; intros s log; simpl;
    intros Hrun Hnext; rewrite Hnext in Hrun; [done|].
  unfold bind at 1 in Hrun.
  rewrite (page_body_run request answer req step g request_run step_appends)
    in Hrun.
  destruct (answer (Paging.cursor s)) as [[pg|]| |] eqn:Hans; try done.
  destruct (collect g (Connection.nodes pg)) as [l1| |] eqn:Hl1; try done.
  apply (collect_flat_map g h) in Hl1 as ->; [|exact g_spec].
  unfold Paging.advance in Hrun.
  destruct (PageInfo.hasNextPage (Connection.pageInfo pg)) eqn:Hmore.
  - apply IH in Hrun as (pages & -> & Hfeed & Hitems); [|done].
    simpl in Hfeed, Hitems. exists (pg :: pages). simpl.
    rewrite Hans, Hmore, Hfeed. split; [by rewrite <- app_assoc|].
    split; [done|]. rewrite Hitems. unfold all_nodes. simpl.
    by rewrite flat_map_app, app_assoc.
  - rewrite while_cond_false in Hrun by done. injection Hrun as <- <-.
    exists [pg]. simpl. rewrite Hans, Hmore. split; [done|]. split; [done|].
    unfold all_nodes. simpl. by rewrite !app_nil_r.
Qed.

Lemma paged_fetch_chain fuel log final log' :
  paged_fetch fuel request step log = (Return final, log') ->
  exists pages,
    log' = log ++ map req (chain None pages)
    /\ feed answer (length pages) None = Some pages
    /\ Paging.items final = flat_map h (all_nodes pages).
Proof. intros H. by apply while_paged_chain in H. Qed.

End PagedWalk.

(** Enters a fetch that returned: the cutoff parsed and the loop returned. *)
Ltac returned_paged_fetch request step :=
  unfold bind at 1, lift at 1;
  let since_datetime := fresh "since_datetime" in
  let Hs := fresh "Hs" in
  destruct (fromisoformat_Z _) as [since_datetime| |] eqn:Hs; [|done..];
  apply fromisoformat_Z_Return in Hs; unfold bind at 1;
  match goal with
  | |- context [while ?fuel _ ?b _ ?log] =>
      change (while fuel Paging.has_next_page b Paging.start)
        with (paged_fetch fuel request (step since_datetime));
      let final := fresh "final" in
      let log1 := fresh "log1" in
      let Hrun := fresh "Hrun" in
      destruct (paged_fetch fuel request (step since_datetime) log)
        as [[final| |] log1] eqn:Hrun; [|done..];
      intros [= <- <-]; exists since_datetime
  end.

(** X1.  A category fetch of github-collaboration-export.py that returns
    has walked its feed to the end: the first request carries no cursor,
    each further request carries the end cursor of the page before it,
    every page but the last announced a next page and the last did not,
    and the bucket holds the entries of all the nodes of these pages, in
    the order of the feed. *)
Theorem X1_category_fetch_scans_whole_feed :
  (forall endpoint fuel username owner name token since_date log bucket log',
     CollaborationExport.get_user_pr_reviews endpoint fuel username owner
       name token since_date log = (Return bucket, log') ->
     exists since_datetime pages,
       Timestamp.parse since_date = Some since_datetime
       /\ log' = log ++ map (reviews_request owner name username)
                            (chain None pages)
       /\ feed (reviews_answer endpoint owner name username token)
               (length pages) None = Some pages
       /\ bucket = flat_map (reviewed_pr_entries username since_datetime)
                            (all_nodes pages))
  /\ (forall endpoint fuel username owner name token since_date log bucket
             log',
        CollaborationExport.get_prs_with_user_comments endpoint fuel username
          owner name token since_date log = (Return bucket, log') ->
        exists since_datetime pages,
          Timestamp.parse since_date = Some since_datetime
          /\ log' = log ++ map (commented_request owner name)
                               (chain None pages)
          /\ feed (commented_answer endpoint owner name token)
                  (length pages) None = Some pages
          /\ bucket = flat_map (commented_pr_entries username since_datetime)
                               (all_nodes pages))
  /\ (forall endpoint fuel username owner name token since_date log bucket
             log',
        CollaborationExport.get_user_pr_comment_threads endpoint fuel
          username owner name token since_date log = (Return bucket, log') ->
        exists since_datetime pages,
          Timestamp.parse since_date = Some since_datetime
          /\ log' = log ++ map (threads_request owner name)
                               (chain None pages)
          /\ feed (threads_answer endpoint owner name token)
                  (length pages) None = Some pages
          /\ bucket = flat_map (thread_pr_entries username since_datetime)
                               (all_nodes pages))
  /\ (forall endpoint fuel username owner name token since_date log bucket
             log',
        CollaborationExport.get_issue_discussions endpoint fuel username
          owner name token since_date log = (Return bucket, log') ->
        exists since_datetime pages,
          Timestamp.parse since_date = Some since_datetime
          /\ log' = log ++ map (issues_request owner name) (chain None pages)
          /\ feed (issues_answer endpoint owner name token)
                  (length pages) None = Some pages
          /\ bucket = flat_map (issue_entries username since_datetime)
                               (all_nodes pages)).
Proof.
  split; [|split; [|split]];
    intros endpoint fuel username owner name token since_date log bucket log'.
  - unfold CollaborationExport.get_user_pr_reviews.
    returned_paged_fetch
      (fun c => make_graphql_request endpoint ReviewsQuery
                  (reviews_variables owner name username c) token)
      (CollaborationExport.reviewed_pr_step username).
    destruct (paged_fetch_chain _
                (reviews_answer endpoint owner name username token)
                (reviews_request owner name username) _ _
                (fun c l => make_graphql_request_run endpoint ReviewsQuery
                              (reviews_variables owner name username c)
                              token l)
                (reviewed_pr_step_appends username since_datetime) _
                (reviewed_pr_contribution_Return username since_datetime)
                _ _ _ _ Hrun) as (pages & ? & ? & ?).
    by exists pages.
  - unfold CollaborationExport.get_prs_with_user_comments.
    returned_paged_fetch
      (fun c => make_graphql_request endpoint CommentedQuery
                  (paging_variables owner name c) token)
      (CollaborationExport.commented_pr_step username).
    destruct (paged_fetch_chain _
                (commented_answer endpoint owner name token)
                (commented_request owner name) _ _
                (fun c l => make_graphql_request_run endpoint CommentedQuery
                              (paging_variables owner name c) token l)
                (commented_pr_step_appends username since_datetime) _
                (commented_pr_contribution_Return username since_datetime)
                _ _ _ _ Hrun) as (pages & ? & ? & ?).
    by exists pages.
  - unfold CollaborationExport.get_user_pr_comment_threads.
    returned_paged_fetch
      (fun c => make_graphql_request endpoint ThreadsQuery
                  (paging_variables owner name c) token)
      (CollaborationExport.thread_pr_step username).
    destruct (paged_fetch_chain _
                (threads_answer endpoint owner name token)
                (threads_request owner name) _ _
                (fun c l => make_graphql_request_run endpoint ThreadsQuery
                              (paging_variables owner name c) token l)
                (thread_pr_step_appends username since_datetime) _
                (thread_pr_contribution_Return username since_datetime)
                _ _ _ _ Hrun) as (pages & ? & ? & ?).
    by exists pages.
  - unfold CollaborationExport.get_issue_discussions.
    returned_paged_fetch
      (fun c => make_graphql_request endpoint IssuesQuery
                  (paging_variables owner name c) token)
      (CollaborationExport.issue_step username).
    destruct (paged_fetch_chain _
                (issues_answer endpoint owner name token)
                (issues_request owner name) _ _
                (fun c l => make_graphql_request_run endpoint IssuesQuery
                              (paging_variables owner name c) token l)
                (issue_step_appends username since_datetime) _
                (issue_contribution_Return username since_datetime)
                _ _ _ _ Hrun) as (pages & ? & ? & ?).
    by exists pages.
Qed.

Lemma X1_category_fetch_scans_whole_feed_witness :
  exists since_datetime pages,
    Timestamp.parse "2024-01-01T00:00:00Z" = Some since_datetime
    /\ [issues_request "acme" "widgets" None;
        issues_request "acme" "widgets" (Some "i2")]
       = [] ++ map (issues_request "acme" "widgets") (chain None pages)
    /\ feed (issues_answer two_pages_of_issues_endpoint "acme" "widgets"
                           "token")
            (length pages) None = Some pages
    /\ [CollaborationExport.issue_entry "alice" alices_issue [];
        CollaborationExport.issue_entry "alice" old_issue [alices_comment]]
       = flat_map (issue_entries "alice" since_datetime) (all_nodes pages).
Proof.
  apply (proj2 (proj2 (proj2 X1_category_fetch_scans_whole_feed))
           two_pages_of_issues_endpoint 4%nat "alice" "acme" "widgets"
           "token" "2024-01-01T00:00:00Z" []).
  vm_compute. reflexivity.
Defined.

(** ** No bound on the number of pages *)

Section PagedEndless.
Context {N E : Type}.
Context (request : option string -> M (option (Connection.t N))).
Context (answer : option string -> outcome (option (Connection.t N))).
Context (req : option string -> Request).
Context (step : N -> list E -> outcome (flow (list E))).
Context (g : N -> outcome (list E)).
Hypothesis request_run :
  forall c log, request c log = (answer c, log ++ [req c]).
Hypothesis step_appends :
  forall x s, step x s = (l <~ g x ;; Return (Next (s ++ l)))%outcome.
Hypothesis endless :
  forall c, exists pg,
    answer c = Return (Some pg)
    /\ PageInfo.hasNextPage (Connection.pageInfo pg) = true
    /\ forall x, x ∈ Connection.nodes pg -> exists l, g x = Return l.

Lemma while_paged_endless fuel s log :
  Paging.has_next_page s = true ->
  exists cursors,
    while fuel Paging.has_next_page (page_body request step) s log
    = (OutOfFuel, log ++ map req cursors)
    /\ length cursors = fuel.
Proof.
  revert s log. induction fuel as [|fuel IH]; intros s log Hnext; simpl;
    rewrite Hnext.
  - exists []. by rewrite app_nil_r.
  - unfold bind at 1.
    rewrite (page_body_run request answer req step g request_run
               step_appends).
    destruct (endless (Paging.cursor s)) as (pg & -> & Hmore & Hg).
    destruct (collect_total g _ Hg) as [l ->]. unfold Paging.advance.
    rewrite Hmore.
    match goal with
    | |- context [while fuel _ _ ?s' ?l'] =>
        destruct (IH s' l') as (cursors & -> & <-); [done|]
    end.
    exists (Paging.cursor s :: cursors). simpl. by rewrite <- app_assoc.
Qed.

Lemma paged_fetch_endless fuel log :
  exists log',
    paged_fetch fuel request step log = (OutOfFuel, log')
    /\ length log' = (length log + fuel)%nat.
Proof.
  destruct (while_paged_endless fuel Paging.start log eq_refl)
    as (cursors & Hrun & <-).
  eexists. split; [exact Hrun|]. by rewrite length_app, length_map.
Qed.

End PagedEndless.

(** Enters a fetch whose cutoff parses, up to its loop. *)
Ltac running_paged_fetch request step since_datetime Hs :=
  unfold bind at 1, lift at 1;
  rewrite (proj2 (fromisoformat_Z_Return _ _) Hs); unfold bind at 1;
  match goal with
  | |- context [while ?fuel _ ?b _ ?log] =>
      change (while fuel Paging.has_next_page b Paging.start)
        with (paged_fetch fuel request (step since_datetime))
  end.

(** X2.  The cursor loops have no bound of their own.  When the cutoff
    parses and the endpoint answers every request of a category fetch with
    a page that announces a next page (its timestamps parsing), the fetch
    sends one more request for every unit of fuel and returns nothing:
    it goes on for as long as the endpoint says there is more. *)
Theorem X2_category_fetch_follows_every_next_page :
  (forall endpoint username owner name token since_date since_datetime,
     Timestamp.parse since_date = Some since_datetime ->
     (forall c, exists pg,
        reviews_answer endpoint owner name username token c
        = Return (Some pg)
        /\ PageInfo.hasNextPage (Connection.pageInfo pg) = true
        /\ forall pr, pr ∈ Connection.nodes pg -> reviews_parse pr) ->
     forall fuel log, exists log',
       CollaborationExport.get_user_pr_reviews endpoint fuel username owner
         name token since_date log = (OutOfFuel, log')
       /\ length log' = (length log + fuel)%nat)
  /\ (forall endpoint username owner name token since_date since_datetime,
        Timestamp.parse since_date = Some since_datetime ->
        (forall c, exists pg,
           commented_answer endpoint owner name token c = Return (Some pg)
           /\ PageInfo.hasNextPage (Connection.pageInfo pg) = true
           /\ forall pr, pr ∈ Connection.nodes pg -> discussion_parses pr) ->
        forall fuel log, exists log',
          CollaborationExport.get_prs_with_user_comments endpoint fuel
            username owner name token since_date log = (OutOfFuel, log')
          /\ length log' = (length log + fuel)%nat)
  /\ (forall endpoint username owner name token since_date since_datetime,
        Timestamp.parse since_date = Some since_datetime ->
        (forall c, exists pg,
           threads_answer endpoint owner name token c = Return (Some pg)
           /\ PageInfo.hasNextPage (Connection.pageInfo pg) = true
           /\ forall pr, pr ∈ Connection.nodes pg -> discussion_parses pr) ->
        forall fuel log, exists log',
          CollaborationExport.get_user_pr_comment_threads endpoint fuel
            username owner name token since_date log = (OutOfFuel, log')
          /\ length log' = (length log + fuel)%nat)
  /\ (forall endpoint username owner name token since_date since_datetime,
        Timestamp.parse since_date = Some since_datetime ->
        (forall c, exists pg,
           issues_answer endpoint owner name token c = Return (Some pg)
           /\ PageInfo.hasNextPage (Connection.pageInfo pg) = true
           /\ forall issue, issue ∈ Connection.nodes pg ->
                            discussion_parses issue) ->
        forall fuel log, exists log',
          CollaborationExport.get_issue_discussions endpoint fuel username
            owner name token since_date log = (OutOfFuel, log')
          /\ length log' = (length log + fuel)%nat).
Proof.
  split; [|split; [|split]];
    intros endpoint username owner name token since_date since_datetime Hs
      Hendless fuel log.
  - unfold CollaborationExport.get_user_pr_reviews.
    running_paged_fetch
      (fun c => make_graphql_request endpoint ReviewsQuery
                  (reviews_variables owner name username c) token)
      (CollaborationExport.reviewed_pr_step username) since_datetime Hs.
    destruct (paged_fetch_endless
                (fun c => make_graphql_request endpoint ReviewsQuery
                            (reviews_variables owner name username c) token)
                (reviews_answer endpoint owner name username token)
                (reviews_request owner name username)
                (CollaborationExport.reviewed_pr_step username since_datetime)
                (reviewed_pr_contribution username since_datetime)
                (fun c l => make_graphql_request_run endpoint ReviewsQuery
                              (reviews_variables owner name username c)
                              token l)
                (reviewed_pr_step_appends username since_datetime))
      with (fuel := fuel) (log := log) as (log' & Hrun & Hlen).
    { intros c. destruct (Hendless c) as (pg & ? & ? & Hp). exists pg.
      repeat (split; [done|]). intros pr Hpr.
      by apply reviewed_pr_contribution_total, Hp. }
    exists log'. split; [|done].
    by rewrite Hrun.
  - unfold CollaborationExport.get_prs_with_user_comments.
    running_paged_fetch
      (fun c => make_graphql_request endpoint CommentedQuery
                  (paging_variables owner name c) token)
      (CollaborationExport.commented_pr_step username) since_datetime Hs.
    destruct (paged_fetch_endless
                (fun c => make_graphql_request endpoint CommentedQuery
                            (paging_variables owner name c) token)
                (commented_answer endpoint owner name token)
                (commented_request owner name)
                (CollaborationExport.commented_pr_step username
                   since_datetime)
                (commented_pr_contribution username since_datetime)
                (fun c l => make_graphql_request_run endpoint CommentedQuery
                              (paging_variables owner name c) token l)
                (commented_pr_step_appends username since_datetime))
      with (fuel := fuel) (log := log) as (log' & Hrun & Hlen).
    { intros c. destruct (Hendless c) as (pg & ? & ? & Hp). exists pg.
      repeat (split; [done|]). intros pr Hpr.
      by apply commented_pr_contribution_total, Hp. }
    exists log'. split; [|done].
    by rewrite Hrun.
  - unfold CollaborationExport.get_user_pr_comment_threads.
    running_paged_fetch
      (fun c => make_graphql_request endpoint ThreadsQuery
                  (paging_variables owner name c) token)
      (CollaborationExport.thread_pr_step username) since_datetime Hs.
    destruct (paged_fetch_endless
                (fun c => make_graphql_request endpoint ThreadsQuery
                            (paging_variables owner name c) token)
                (threads_answer endpoint owner name token)
                (threads_request owner name)
                (CollaborationExport.thread_pr_step username since_datetime)
                (thread_pr_contribution username since_datetime)
                (fun c l => make_graphql_request_run endpoint ThreadsQuery
                              (paging_variables owner name c) token l)
                (thread_pr_step_appends username since_datetime))
      with (fuel := fuel) (log := log) as (log' & Hrun & Hlen).
    { intros c. destruct (Hendless c) as (pg & ? & ? & Hp). exists pg.
      repeat (split; [done|]). intros pr Hpr.
      by apply thread_pr_contribution_total, Hp. }
    exists log'. split; [|done].
    by rewrite Hrun.
  - unfold CollaborationExport.get_issue_discussions.
    running_paged_fetch
      (fun c => make_graphql_request endpoint IssuesQuery
                  (paging_variables owner name c) token)
      (CollaborationExport.issue_step username) since_datetime Hs.
    destruct (paged_fetch_endless
                (fun c => make_graphql_request endpoint IssuesQuery
                            (paging_variables owner name c) token)
                (issues_answer endpoint owner name token)
                (issues_request owner name)
                (CollaborationExport.issue_step username since_datetime)
                (issue_contribution username since_datetime)
                (fun c l => make_graphql_request_run endpoint IssuesQuery
                              (paging_variables owner name c) token l)
                (issue_step_appends username since_datetime))
      with (fuel := fuel) (log := log) as (log' & Hrun & Hlen).
    { intros c. destruct (Hendless c) as (pg & ? & ? & Hp). exists pg.
      repeat (split; [done|]). intros pr Hpr.
      by apply issue_contribution_total, Hp. }
    exists log'. split; [|done].
    by rewrite Hrun.
Qed.

Lemma X2_category_fetch_follows_every_next_page_witness :
  exists log',
    CollaborationExport.get_issue_discussions endless_issues_endpoint 3
      "alice" "acme" "widgets" "token" "2024-01-01T00:00:00Z" []
    = (OutOfFuel, log')
    /\ length log' = (length ([] : Log) + 3)%nat.
Proof.
  apply (proj2 (proj2 (proj2 X2_category_fetch_follows_every_next_page))
           endless_issues_endpoint "alice" "acme" "widgets" "token"
           "2024-01-01T00:00:00Z" 1704067200).
  - vm_compute. reflexivity.
  - intros c. exists (more_pages [] "again").
    split; [reflexivity|]. split; [reflexivity|].
    intros issue Hin. apply elem_of_nil in Hin. destruct Hin.
Defined.

(** ** The comments given and the discussion on own work *)

(** X3.  When the fetch of the comments given returns, its bucket holds
    one entry for exactly the pull requests, on the pages it walked, that
    are not authored by the target user and carry at least one comment of
    the target user whose timestamp passes the filter; the entry keeps
    exactly those comments, in their order, and counts them. *)
Theorem X3_comments_given
    endpoint fuel username owner name token since_date log bucket log' :
  CollaborationExport.get_prs_with_user_comments endpoint fuel username owner
    name token since_date log = (Return bucket, log') ->
  exists since_datetime cursors pages,
    Timestamp.parse since_date = Some since_datetime
    /\ walked (commented_answer endpoint owner name token)
              (commented_request owner name) log log' cursors pages
    /\ (forall e,
          e ∈ bucket <->
          exists pr,
            pr ∈ all_nodes pages
            /\ is_user (Discussed.author pr) username = false
            /\ (exists c,
                  c ∈ Comments.nodes (Discussed.comments pr)
                  /\ is_user (Comment.author c) username = true
                  /\ passes since_datetime (Comment.createdAt c))
            /\ e = CollaborationExport.commented_entry pr
                     (user_comments_since username since_datetime
                        (Comments.nodes (Discussed.comments pr))))
    /\ (forall comments,
          sublist (user_comments_since username since_datetime comments)
                  comments
          /\ forall c,
               c ∈ user_comments_since username since_datetime comments
               <-> c ∈ comments
                   /\ is_user (Comment.author c) username = true
                   /\ passes since_datetime (Comment.createdAt c)).
Proof.
  intros (since_datetime & cursors & pages & Hs & Hwalk & ->)
    %get_prs_with_user_comments_Return.
  exists since_datetime, cursors, pages. split; [done|]. split; [done|].
  split.
  - intros e. rewrite elem_of_commented_bucket.
    split; intros (pr & Hpr & Hu & H & He); exists pr;
      repeat (split; [done|]); (split; [|done]).
    + destruct (user_comments_since _ _ _) as [|c l] eqn:Hl; [done|].
      exists c. apply elem_of_user_comments_since. rewrite Hl. left.
    + destruct H as (c & Hc). intros Hnil.
      apply elem_of_user_comments_since in Hc. rewrite Hnil in Hc.
      by apply elem_of_nil in Hc.
  - intros comments. split; [|intros c; apply elem_of_user_comments_since].
    unfold user_comments_since.
    induction comments as [|c comments IH]; simpl; [constructor|].
    destruct (_ && _); by constructor.
Qed.

Lemma X3_comments_given_witness :
  exists since_datetime cursors pages,
    Timestamp.parse "2024-01-01T00:00:00Z" = Some since_datetime
    /\ walked (commented_answer bobs_discussed_endpoint "acme" "widgets"
                                "token")
              (commented_request "acme" "widgets") []
              [commented_request "acme" "widgets" None] cursors pages
    /\ (forall e,
          e ∈ [CollaborationExport.commented_entry bobs_discussed_pr
                 [alices_comment]] <->
          exists pr,
            pr ∈ all_nodes pages
            /\ is_user (Discussed.author pr) "alice" = false
            /\ (exists c,
                  c ∈ Comments.nodes (Discussed.comments pr)
                  /\ is_user (Comment.author c) "alice" = true
                  /\ passes since_datetime (Comment.createdAt c))
            /\ e = CollaborationExport.commented_entry pr
                     (user_comments_since "alice" since_datetime
                        (Comments.nodes (Discussed.comments pr))))
    /\ (forall comments,
          sublist (user_comments_since "alice" since_datetime comments)
                  comments
          /\ forall c,
               c ∈ user_comments_since "alice" since_datetime comments
               <-> c ∈ comments
                   /\ is_user (Comment.author c) "alice" = true
                   /\ passes since_datetime (Comment.createdAt c)).
Proof.
  apply (X3_comments_given bobs_discussed_endpoint 1%nat "alice" "acme"
           "widgets" "token" "2024-01-01T00:00:00Z" []).
  vm_compute. reflexivity.
Defined.

(** X4.  When the fetch of the discussion on own work returns, its bucket
    holds one entry for exactly the pull requests, on the pages it walked,
    that the target user authored, whose creation time passes the filter,
    and that carry at least one comment with a present author other than
    the target user and a timestamp passing the filter; the entry keeps a
    thread for exactly those comments, in their order, each with the login
    of the comment's author. *)
Theorem X4_discussion_threads
    endpoint fuel username owner name token since_date log bucket log' :
  CollaborationExport.get_user_pr_comment_threads endpoint fuel username
    owner name token since_date log = (Return bucket, log') ->
  exists since_datetime cursors pages,
    Timestamp.parse since_date = Some since_datetime
    /\ walked (threads_answer endpoint owner name token)
              (threads_request owner name) log log' cursors pages
    /\ (forall e,
          e ∈ bucket <->
          exists pr,
            pr ∈ all_nodes pages
            /\ is_user (Discussed.author pr) username = true
            /\ passes since_datetime (Discussed.createdAt pr)
            /\ (exists c a,
                  c ∈ Comments.nodes (Discussed.comments pr)
                  /\ Comment.author c = Some a
                  /\ Actor.login a <> username
                  /\ passes since_datetime (Comment.createdAt c))
            /\ e = CollaborationExport.thread_entry pr
                     (threads_since username since_datetime
                        (Comments.nodes (Discussed.comments pr))))
    /\ (forall comments,
          sublist (map CollaborationExport.Thread.comment
                       (threads_since username since_datetime comments))
                  comments
          /\ forall thread,
               thread ∈ threads_since username since_datetime comments
               <-> exists c a,
                     c ∈ comments
                     /\ Comment.author c = Some a
                     /\ Actor.login a <> username
                     /\ passes since_datetime (Comment.createdAt c)
                     /\ thread = CollaborationExport.thread_of c a).
Proof.
  intros (since_datetime & cursors & pages & Hs & Hwalk & ->)
    %get_user_pr_comment_threads_Return.
  exists since_datetime, cursors, pages. split; [done|]. split; [done|].
  split.
  - intros e. rewrite elem_of_threads_bucket.
    split; intros (pr & Hpr & Hu & Hp & H & He); exists pr;
      repeat (split; [done|]); (split; [|done]).
    + destruct (threads_since _ _ _) as [|th l] eqn:Hl; [done|].
      assert (Hth : th ∈ threads_since username since_datetime
                         (Comments.nodes (Discussed.comments pr)))
        by (rewrite Hl; left).
      apply elem_of_threads_since in Hth as (c & a & ? & ? & ? & ? & _).
      by exists c, a.
    + destruct H as (c & a & Hc & Ha & Hne & Hpc). intros Hnil.
      assert (Hth : CollaborationExport.thread_of c a
                    ∈ threads_since username since_datetime
                        (Comments.nodes (Discussed.comments pr)))
        by (apply elem_of_threads_since; by exists c, a).
      rewrite Hnil in Hth. by apply elem_of_nil in Hth.
  - intros comments. split; [|intros th; apply elem_of_threads_since].
    unfold threads_since.
    induction comments as [|c comments IH]; simpl; [constructor|].
    unfold threads_of_comment at 1.
    destruct (Comment.author c) as [a|]; [|by constructor].
    destruct (_ && _); simpl; by constructor.
Qed.

Lemma X4_discussion_threads_witness :
  exists since_datetime cursors pages,
    Timestamp.parse "2024-01-01T00:00:00Z" = Some since_datetime
    /\ walked (threads_answer alices_pr_endpoint "acme" "widgets" "token")
              (threads_request "acme" "widgets") []
              [threads_request "acme" "widgets" None] cursors pages
    /\ (forall e,
          e ∈ team_pr_threads <->
          exists pr,
            pr ∈ all_nodes pages
            /\ is_user (Discussed.author pr) "alice" = true
            /\ passes since_datetime (Discussed.createdAt pr)
            /\ (exists c a,
                  c ∈ Comments.nodes (Discussed.comments pr)
                  /\ Comment.author c = Some a
                  /\ Actor.login a <> "alice"
                  /\ passes since_datetime (Comment.createdAt c))
            /\ e = CollaborationExport.thread_entry pr
                     (threads_since "alice" since_datetime
                        (Comments.nodes (Discussed.comments pr))))
    /\ (forall comments,
          sublist (map CollaborationExport.Thread.comment
                       (threads_since "alice" since_datetime comments))
                  comments
          /\ forall thread,
               thread ∈ threads_since "alice" since_datetime comments
               <-> exists c a,
                     c ∈ comments
                     /\ Comment.author c = Some a
                     /\ Actor.login a <> "alice"
                     /\ passes since_datetime (Comment.createdAt c)
                     /\ thread = CollaborationExport.thread_of c a).
Proof.
  apply (X4_discussion_threads alices_pr_endpoint 1%nat "alice" "acme"
           "widgets" "token" "2024-01-01T00:00:00Z" []).
  vm_compute. reflexivity.
Defined.

(** ** The counts of a report *)

Lemma sum_ext_in {A} (f g : A -> Z) l :
  (forall x, x ∈ l -> f x = g x) -> sum f l = sum g l.
Proof.
  induction l as [|x l IH]; intros H; [done|]. rewrite !sum_cons.
  rewrite (H x) by left. rewrite IH; [done|]. intros y Hy. apply H.
  by right.
Qed.

Lemma len_le_sum {A} (f : A -> Z) l :
  (forall x, x ∈ l -> 1 <= f x) -> len l <= sum f l.
Proof.
  induction l as [|x l IH]; intros H; [done|]. rewrite sum_cons.
  assert (1 <= f x) by (apply H; left).
  assert (len l <= sum f l) by (apply IH; intros y Hy; apply H; by right).
  unfold len in *. simpl length. lia.
Qed.

Lemma len_nonempty {A} (l : list A) : l <> [] -> 1 <= len l.
Proof. destruct l; [done|]. intros _. unfold len. simpl length. lia. Qed.

(** X5.  In a report that github-collaboration-export.py wrote, the count
    of every entry of the comments-given, discussion-on-own-work and
    issue-participation buckets is the number of comments (threads) the
    entry embeds; the first two kinds of entry embed at least one, and an
    issue entry that embeds none is flagged as authored by the user.  So
    the totals of comments and threads in the statistics count what the
    report embeds, and the number of pull requests commented on is at most
    the total of comments. *)
Theorem X5_counts_match_embedded_lists
    endpoint listed write_failure fuel username owner name token since_date
    timeframe generated_at result log :
  CollaborationExport.main endpoint listed write_failure fuel username owner
    name token since_date timeframe generated_at
  = (CollaborationExport.Wrote result, log) ->
  let stats := CollaborationExport.Report.statistics result in
  (forall e, e ∈ CollaborationExport.Report.commented_prs result ->
     CollaborationExport.CommentedEntry.comment_count e
     = len (CollaborationExport.CommentedEntry.comments e)
     /\ 1 <= CollaborationExport.CommentedEntry.comment_count e)
  /\ (forall e, e ∈ CollaborationExport.Report.pr_discussion_threads result ->
        CollaborationExport.ThreadEntry.thread_count e
        = len (CollaborationExport.ThreadEntry.discussion_threads e)
        /\ 1 <= CollaborationExport.ThreadEntry.thread_count e)
  /\ (forall e, e ∈ CollaborationExport.Report.issue_discussions result ->
        CollaborationExport.IssueEntry.comment_count e
        = len (CollaborationExport.IssueEntry.comments e)
        /\ (CollaborationExport.IssueEntry.comment_count e = 0 ->
            CollaborationExport.IssueEntry.is_authored_by_user e
            = Some true))
  /\ CollaborationExport.Stats.total_pr_comments stats
     = sum (fun e => len (CollaborationExport.CommentedEntry.comments e))
           (CollaborationExport.Report.commented_prs result)
  /\ CollaborationExport.Stats.total_pr_discussion_threads stats
     = sum (fun e =>
              len (CollaborationExport.ThreadEntry.discussion_threads e))
           (CollaborationExport.Report.pr_discussion_threads result)
  /\ CollaborationExport.Stats.total_issue_comments stats
     = sum (fun e => len (CollaborationExport.IssueEntry.comments e))
           (CollaborationExport.Report.issue_discussions result)
  /\ CollaborationExport.Stats.total_prs_commented_on stats
     <= CollaborationExport.Stats.total_pr_comments stats.
Proof.
  intros (log0 & log1 & log2 & log3 & _ & H2 & H3 & H4 & Hstats)
    %collaboration_main_Wrote.
  cbv zeta. rewrite Hstats.
  apply get_prs_with_user_comments_Return
    in H2 as (s2 & ? & p2 & _ & _ & H2).
  apply get_user_pr_comment_threads_Return
    in H3 as (s3 & ? & p3 & _ & _ & H3).
  apply get_issue_discussions_Return in H4 as (s4 & ? & p4 & _ & _ & H4).
  assert (Hc : forall e,
            e ∈ CollaborationExport.Report.commented_prs result ->
            CollaborationExport.CommentedEntry.comment_count e
            = len (CollaborationExport.CommentedEntry.comments e)
            /\ 1 <= CollaborationExport.CommentedEntry.comment_count e).
  { rewrite H2.
    intros e (pr & _ & _ & Hne & ->)%elem_of_commented_bucket. simpl.
    split; [done|]. by apply len_nonempty. }
  assert (Ht : forall e,
            e ∈ CollaborationExport.Report.pr_discussion_threads result ->
            CollaborationExport.ThreadEntry.thread_count e
            = len (CollaborationExport.ThreadEntry.discussion_threads e)
            /\ 1 <= CollaborationExport.ThreadEntry.thread_count e).
  { rewrite H3.
    intros e (pr & _ & _ & _ & Hne & ->)%elem_of_threads_bucket. simpl.
    split; [done|]. by apply len_nonempty. }
  assert (Hi : forall e,
            e ∈ CollaborationExport.Report.issue_discussions result ->
            CollaborationExport.IssueEntry.comment_count e
            = len (CollaborationExport.IssueEntry.comments e)
            /\ (CollaborationExport.IssueEntry.comment_count e = 0 ->
                CollaborationExport.IssueEntry.is_authored_by_user e
                = Some true)).
  { rewrite H4. intros e (issue & _ & Hq & ->)%elem_of_issues_bucket. simpl.
    split; [done|]. intros Hzero. unfold issue_qualifies in Hq.
    destruct (user_comments_since _ _ _) as [|c l];
      [|unfold len in Hzero; simpl length in Hzero; lia].
    simpl in Hq. rewrite orb_false_r in Hq.
    apply andb_true_iff in Hq as [Hu _]. unfold is_user in Hu.
    by destruct (author_and_login_eq _ _) as [[|]|]. }
  split; [done|]. split; [done|]. split; [done|].
  rewrite (get_collaboration_stats_fields listed
             (CollaborationExport.Report.pr_reviews result)). cbv zeta.
  simpl. split; [|split; [|split]].
  - apply sum_ext_in. intros e He. by destruct (Hc e He).
  - apply sum_ext_in. intros e He. by destruct (Ht e He).
  - apply sum_ext_in. intros e He. by destruct (Hi e He).
  - apply len_le_sum. intros e He. by destruct (Hc e He).
Qed.

Lemma X5_counts_match_embedded_lists_witness :
  let stats := CollaborationExport.Report.statistics team_report in
  (forall e, e ∈ CollaborationExport.Report.commented_prs team_report ->
     CollaborationExport.CommentedEntry.comment_count e
     = len (CollaborationExport.CommentedEntry.comments e)
     /\ 1 <= CollaborationExport.CommentedEntry.comment_count e)
  /\ (forall e,
        e ∈ CollaborationExport.Report.pr_discussion_threads team_report ->
        CollaborationExport.ThreadEntry.thread_count e
        = len (CollaborationExport.ThreadEntry.discussion_threads e)
        /\ 1 <= CollaborationExport.ThreadEntry.thread_count e)
  /\ (forall e,
        e ∈ CollaborationExport.Report.issue_discussions team_report ->
        CollaborationExport.IssueEntry.comment_count e
        = len (CollaborationExport.IssueEntry.comments e)
        /\ (CollaborationExport.IssueEntry.comment_count e = 0 ->
            CollaborationExport.IssueEntry.is_authored_by_user e
            = Some true))
  /\ CollaborationExport.Stats.total_pr_comments stats
     = sum (fun e => len (CollaborationExport.CommentedEntry.comments e))
           (CollaborationExport.Report.commented_prs team_report)
  /\ CollaborationExport.Stats.total_pr_discussion_threads stats
     = sum (fun e =>
              len (CollaborationExport.ThreadEntry.discussion_threads e))
           (CollaborationExport.Report.pr_discussion_threads team_report)
  /\ CollaborationExport.Stats.total_issue_comments stats
     = sum (fun e => len (CollaborationExport.IssueEntry.comments e))
           (CollaborationExport.Report.issue_discussions team_report)
  /\ CollaborationExport.Stats.total_prs_commented_on stats
     <= CollaborationExport.Stats.total_pr_comments stats.
Proof.
  apply (X5_counts_match_embedded_lists team_endpoint in_insertion_order
           no_write_failure 2%nat "alice" "acme" "widgets" "token"
           "2024-01-01T00:00:00Z" 365 "2024-06-01T12:00:00" team_report
           team_log).
  vm_compute. reflexivity.
Defined.

(** ** The authored pull requests *)

Lemma leading_app {A} (p : A -> bool) l1 l2 :
  leading p (l1 ++ l2)
  = if forallb p l1 then l1 ++ leading p l2 else leading p l1.
Proof.
  induction l1 as [|x l1 IH]; simpl; [done|].
  destruct (p x); simpl; [|done]. rewrite IH. by destruct (forallb p l1).
Qed.

Lemma leading_all {A} (p : A -> bool) l :
  forallb p l = true -> leading p l = l.
Proof.
  induction l as [|x l IH]; simpl; [done|].
  intros [-> ?]%andb_true_iff. by rewrite IH.
Qed.

Lemma filter_app_bool {A} (p : A -> bool) l1 l2 :
  List.filter p (l1 ++ l2) = List.filter p l1 ++ List.filter p l2.
Proof. apply List.filter_app. Qed.

Lemma pr_step_parsed username since_datetime pr t all_prs cf :
  Timestamp.parse (PullRequest.createdAt pr) = Some t ->
  WorkSummary.pr_step username since_datetime pr (all_prs, cf)
  = Return (if by_user username pr && (since_datetime <=? t)
            then Next (all_prs ++ [pr], cf)
            else if t <? since_datetime then Break (all_prs, false)
                 else Next (all_prs, cf)).
Proof.
  intros Ht. unfold WorkSummary.pr_step, fromisoformat_Z. rewrite Ht. simpl.
  unfold by_user, is_user. by destruct (_ && _); [|destruct (_ <? _)].
Qed.

(** The loop over one page, on timestamps that parse: it keeps the user's
    pull requests among the leading ones in the window, and leaves
    [continue_fetching] standing only if the whole page is in the window. *)
Lemma pr_loop_leading username since_datetime prs all_prs cf :
  Forall (fun pr => parses (PullRequest.createdAt pr)) prs ->
  for_each prs (WorkSummary.pr_step username since_datetime) (all_prs, cf)
  = Return (all_prs ++ List.filter (by_user username)
                         (leading (in_window since_datetime) prs),
            cf && forallb (in_window since_datetime) prs).
Proof.
  intros Hparse. revert all_prs.
  induction Hparse as [|pr prs [t Ht] _ IH]; intros all_prs.
  - simpl. by rewrite app_nil_r, andb_true_r.
  - cbn [for_each leading forallb]. rewrite (pr_step_parsed _ _ _ t) by done.
    assert (Hw : in_window since_datetime pr = (since_datetime <=? t))
      by (unfold in_window, passesb; by rewrite Ht).
    rewrite Hw. destruct (since_datetime <=? t) eqn:Hle.
    + apply Z.leb_le in Hle. cbn [List.filter].
      destruct (by_user username pr) eqn:Hu; cbn [andb].
      * rewrite IH. by rewrite <- app_assoc.
      * destruct (t <? since_datetime) eqn:Hlt; [apply Z.ltb_lt in Hlt; lia|].
        apply IH.
    + rewrite andb_false_r.
      apply Z.leb_gt in Hle. apply Z.ltb_lt in Hle. rewrite Hle.
      cbn [List.filter andb]. by rewrite app_nil_r, andb_false_r.
Qed.

(** One iteration of the loop of [get_user_pull_requests], when the
    endpoint answers with a page whose timestamps parse. *)
Lemma pulls_body_page endpoint username owner name token since_datetime s log
    pg :
  pulls_answer endpoint owner name token (WorkSummary.PRLoop.cursor s)
  = Return (Some pg) ->
  Forall (fun pr => parses (PullRequest.createdAt pr)) (Connection.nodes pg) ->
  pulls_body endpoint username owner name token since_datetime s log
  = (Return
       (Next
          (let all_prs :=
             WorkSummary.PRLoop.all_prs s
             ++ List.filter (by_user username)
                  (leading (in_window since_datetime) (Connection.nodes pg)) in
           let continue_fetching :=
             WorkSummary.PRLoop.continue_fetching s
             && forallb (in_window since_datetime) (Connection.nodes pg) in
           if continue_fetching
              && PageInfo.hasNextPage (Connection.pageInfo pg)
           then
             {| WorkSummary.PRLoop.all_prs := all_prs;
                WorkSummary.PRLoop.has_next_page :=
                  WorkSummary.PRLoop.has_next_page s;
                WorkSummary.PRLoop.cursor :=
                  PageInfo.endCursor (Connection.pageInfo pg);
                WorkSummary.PRLoop.continue_fetching := continue_fetching |}
           else
             {| WorkSummary.PRLoop.all_prs := all_prs;
                WorkSummary.PRLoop.has_next_page := false;
                WorkSummary.PRLoop.cursor := WorkSummary.PRLoop.cursor s;
                WorkSummary.PRLoop.continue_fetching :=
                  continue_fetching |})),
     log ++ [pulls_request owner name (WorkSummary.PRLoop.cursor s)]).
Proof.
  intros Hans Hparse. unfold pulls_body, bind at 1.
  rewrite (make_graphql_request_run endpoint PullRequestsQuery).
  fold (paging_variables owner name (WorkSummary.PRLoop.cursor s)).
  fold (pulls_answer endpoint owner name token (WorkSummary.PRLoop.cursor s)).
  fold (pulls_request owner name (WorkSummary.PRLoop.cursor s)).
  rewrite Hans. unfold bind, repository_field, ret, lift.
  rewrite (pr_loop_leading _ _ _ _ _ Hparse). cbv zeta.
  by destruct (_ && PageInfo.hasNextPage _).
Qed.

Lemma pulls_while_leading endpoint username owner name token since_datetime
    n fuel s log pages :
  feed (pulls_answer endpoint owner name token) n (WorkSummary.PRLoop.cursor s)
  = Some pages ->
  pulls_cond s = true ->
  Forall (fun pr => parses (PullRequest.createdAt pr)) (all_nodes pages) ->
  (n <= fuel)%nat ->
  exists final log',
    while fuel pulls_cond
      (pulls_body endpoint username owner name token since_datetime) s log
    = (Return final, log')
    /\ WorkSummary.PRLoop.all_prs final
       = WorkSummary.PRLoop.all_prs s
         ++ List.filter (by_user username)
              (leading (in_window since_datetime) (all_nodes pages)).
Proof.
  revert fuel s log pages.
  induction n as [|n IH]; intros fuel s log pages Hfeed Hcond Hparse Hle;
    [done|].
  destruct fuel as [|fuel]; [lia|]. simpl in Hfeed |- *. rewrite Hcond.
  destruct (pulls_answer _ _ _ _ _) as [[pg|]| |] eqn:Hans; try done.
  assert (Hpg : Forall (fun pr => parses (PullRequest.createdAt pr))
                       (Connection.nodes pg)).
  { destruct (PageInfo.hasNextPage _);
      [destruct (feed _ _ _); [|done]|]; injection Hfeed as <-;
      unfold all_nodes in Hparse; simpl in Hparse;
      by apply Forall_app in Hparse as [? _]. }
  unfold bind at 1.
  rewrite (pulls_body_page _ _ _ _ _ _ _ _ _ Hans Hpg). cbv zeta.
  apply andb_true_iff in Hcond as [Hnext Hcf]. rewrite Hcf. simpl andb.
  destruct (forallb (in_window since_datetime) (Connection.nodes pg))
    eqn:Hall; simpl andb.
  - destruct (PageInfo.hasNextPage (Connection.pageInfo pg)) eqn:Hmore.
    + destruct (feed _ n _) as [pgs|] eqn:Hrest; [|done].
      injection Hfeed as <-.
      match goal with
      | |- context [while fuel _ _ ?s' ?l'] =>
          destruct (IH fuel s' l' pgs) as (final & log' & Hrun & Hitems);
            [exact Hrest|by unfold pulls_cond; simpl; rewrite Hnext| |lia|]
      end.
      { unfold all_nodes in Hparse. simpl in Hparse.
        by apply Forall_app in Hparse as [_ ?]. }
      exists final, log'. split; [exact Hrun|]. rewrite Hitems. simpl.
      unfold all_nodes. simpl. rewrite leading_app, Hall, filter_app_bool.
      rewrite (leading_all _ (Connection.nodes pg)) by done.
      by rewrite <- app_assoc.
    + injection Hfeed as <-. eexists _, _.
      rewrite while_cond_false by done. split; [done|]. simpl.
      unfold all_nodes. simpl. by rewrite app_nil_r.
  - eexists _, _. rewrite while_cond_false by done. split; [done|]. simpl.
    f_equal. f_equal.
    assert (Hlead : forall rest,
              leading (in_window since_datetime)
                      (Connection.nodes pg ++ rest)
              = leading (in_window since_datetime) (Connection.nodes pg))
      by (intros rest; by rewrite leading_app, Hall).
    destruct (PageInfo.hasNextPage _);
      [destruct (feed _ _ _); [|done]|]; injection Hfeed as <-;
      unfold all_nodes; simpl; by rewrite Hlead.
Qed.

(** In a list that is newest first, the pull requests in the window are
    the leading ones. *)
Lemma newest_first_leading username since_datetime prs :
  newest_first prs ->
  List.filter (by_user username) (leading (in_window since_datetime) prs)
  = List.filter (fun pr => by_user username pr && in_window since_datetime pr)
                prs.
Proof.
  induction prs as [|pr prs IH]; simpl; [done|]. intros [Hall Hsorted].
  destruct (in_window since_datetime pr) eqn:Hw.
  - simpl. rewrite andb_true_r.
    destruct (by_user username pr); by rewrite IH.
  - rewrite andb_false_r. simpl. symmetry.
    clear IH Hsorted.
    induction Hall as [|pr' prs (ta & tb & Ha & Hb & Hle) _ IH'];
      simpl; [done|].
    assert (in_window since_datetime pr' = false) as ->.
    { unfold in_window, passesb in Hw |- *. rewrite Ha in Hw. rewrite Hb.
      apply Z.leb_gt in Hw. apply Z.leb_gt. lia. }
    by rewrite andb_false_r.
Qed.

(** X6.  When the cutoff and the creation times of the feed parse and the
    feed of pull requests ends within the fuel, [get_user_pull_requests]
    returns the pull requests of the target user among those that come
    before the first pull request older than the cutoff, in the order of
    the feed.  On a feed that is newest first these are all the pull
    requests of the target user created at or after the cutoff: stopping
    early loses none. *)
Theorem X6_pull_requests_of_a_feed
    endpoint fuel username owner name token since_date since_datetime n
    pages log :
  Timestamp.parse since_date = Some since_datetime ->
  feed (pulls_answer endpoint owner name token) n None = Some pages ->
  Forall (fun pr => parses (PullRequest.createdAt pr)) (all_nodes pages) ->
  (n <= fuel)%nat ->
  exists bucket log',
    WorkSummary.get_user_pull_requests endpoint fuel username owner name
      token since_date log = (Return bucket, log')
    /\ bucket = List.filter (by_user username)
                  (leading (in_window since_datetime) (all_nodes pages))
    /\ (newest_first (all_nodes pages) ->
        bucket = List.filter
                   (fun pr => by_user username pr
                              && in_window since_datetime pr)
                   (all_nodes pages)).
Proof.
  intros Hs Hfeed Hparse Hle.
  destruct (pulls_while_leading endpoint username owner name token
              since_datetime n fuel WorkSummary.PRLoop.start log pages
              Hfeed eq_refl Hparse Hle) as (final & log' & Hrun & Hitems).
  exists (WorkSummary.PRLoop.all_prs final), log'. split; [|split].
  - rewrite get_user_pull_requests_unfold. unfold bind at 1, lift at 1.
    rewrite (proj2 (fromisoformat_Z_Return _ _) Hs). unfold bind.
    by rewrite Hrun.
  - exact Hitems.
  - intros Hsorted. rewrite Hitems. by apply newest_first_leading.
Qed.

Lemma X6_pull_requests_of_a_feed_witness :
  exists bucket log',
    WorkSummary.get_user_pull_requests two_pages_endpoint 5 "alice" "acme"
      "widgets" "token" "2024-01-01T00:00:00Z" [] = (Return bucket, log')
    /\ bucket = List.filter (by_user "alice")
                  (leading (in_window 1704067200)
                     (all_nodes [pulls_page_1; pulls_page_2]))
    /\ (newest_first (all_nodes [pulls_page_1; pulls_page_2]) ->
        bucket = List.filter
                   (fun pr => by_user "alice" pr && in_window 1704067200 pr)
                   (all_nodes [pulls_page_1; pulls_page_2])).
Proof.
  apply (X6_pull_requests_of_a_feed two_pages_endpoint 5%nat "alice" "acme"
           "widgets" "token" "2024-01-01T00:00:00Z" 1704067200 2%nat
           [pulls_page_1; pulls_page_2] []).
  - vm_compute. reflexivity.
  - vm_compute. reflexivity.
  - cbv [all_nodes flat_map pulls_page_1 pulls_page_2 more_pages last_page
         Connection.nodes app].
    repeat (apply List.Forall_cons; [eexists; vm_compute; reflexivity|]).
    apply List.Forall_nil.
  - lia.
Defined.

(** ** What [get_user_commits] returns *)

(** X7.  When [get_user_commits] returns, it has sent the commit-history
    requests of two probes and nothing else: first those whose author is
    the user's noreply address, then those whose author is the username,
    each probe starting at the null cursor and following the end cursor of
    every page of history that has a next page, up to the first answer that
    is anything else.  The list returned is the deduplication of the
    commits of the pages answered, in the order of the requests; a failed
    request or a null repository or branch contributes nothing. *)
Theorem X7_commits_of_the_probes endpoint fuel username owner name token
    since_date log bucket log' :
  WorkSummary.get_user_commits endpoint fuel username owner name token
    since_date log = (Return bucket, log') ->
  exists cursors1 cursors2,
    probe_walk
      (commits_answer endpoint owner name token since_date
         (String.append username "@users.noreply.github.com"))
      None cursors1
    /\ probe_walk
         (commits_answer endpoint owner name token since_date username)
         None cursors2
    /\ log'
       = log ++ map (fun p =>
                       commits_request owner name since_date (fst p) (snd p))
                    (probes username cursors1 cursors2)
    /\ bucket
       = WorkSummary.remove_duplicates
           (flat_map (fun p =>
                        history_nodes
                          (commits_answer endpoint owner name token
                             since_date (fst p) (snd p)))
                     (probes username cursors1 cursors2)).
Proof.
  intros Hrun.
  apply get_user_commits_probes
    in Hrun as (commits1 & log1 & commits2 & H1 & H2 & ->).
  apply probe_Return in H1 as (cursors1 & Hwalk1 & _ & -> & ->).
  apply probe_Return in H2 as (cursors2 & Hwalk2 & _ & -> & ->).
  exists cursors1, cursors2.
  split; [done|]. split; [done|]. unfold probes.
  rewrite map_app, flat_map_app.
  rewrite !(map_pair _ (commits_request owner name since_date)).
  rewrite !(flat_map_pair _
              (fun email c =>
                 history_nodes
                   (commits_answer endpoint owner name token since_date
                      email c))).
  by rewrite <- app_assoc.
Qed.

Lemma X7_commits_of_the_probes_witness :
  exists cursors1 cursors2,
    probe_walk
      (commits_answer failing_commits_endpoint "acme" "widgets" "token"
         "2024-01-01T00:00:00Z" "alice@users.noreply.github.com")
      None cursors1
    /\ probe_walk
         (commits_answer failing_commits_endpoint "acme" "widgets" "token"
            "2024-01-01T00:00:00Z" "alice")
         None cursors2
    /\ [commits_request "acme" "widgets" "2024-01-01T00:00:00Z"
          "alice@users.noreply.github.com" None;
        commits_request "acme" "widgets" "2024-01-01T00:00:00Z"
          "alice@users.noreply.github.com" (Some "c2");
        commits_request "acme" "widgets" "2024-01-01T00:00:00Z" "alice" None;
        commits_request "acme" "widgets" "2024-01-01T00:00:00Z" "alice"
          (Some "c2")]
       = [] ++ map (fun p =>
                      commits_request "acme" "widgets" "2024-01-01T00:00:00Z"
                        (fst p) (snd p))
                   (probes "alice" cursors1 cursors2)
    /\ [a_commit]
       = WorkSummary.remove_duplicates
           (flat_map (fun p =>
                        history_nodes
                          (commits_answer failing_commits_endpoint "acme"
                             "widgets" "token" "2024-01-01T00:00:00Z"
                             (fst p) (snd p)))
                     (probes "alice" cursors1 cursors2)).
Proof.
  apply (X7_commits_of_the_probes failing_commits_endpoint 3 "alice" "acme"
           "widgets" "token" "2024-01-01T00:00:00Z" []).
  vm_compute. reflexivity.
Defined.

(** X8.  Conversely, when the walk of each probe ends within the fuel,
    [get_user_commits] returns: the log holds the requests of the two
    probes and the result is the deduplication of the commits of the pages
    answered.  In particular no answer, be it a failure of the runner, a
    null repository or a null default branch, makes it raise or stop short
    of the second probe. *)
Theorem X8_commit_probes_return endpoint fuel username owner name token
    since_date log cursors1 cursors2 :
  probe_walk
    (commits_answer endpoint owner name token since_date
       (String.append username "@users.noreply.github.com"))
    None cursors1 ->
  probe_walk (commits_answer endpoint owner name token since_date username)
    None cursors2 ->
  (length cursors1 < fuel)%nat ->
  (length cursors2 < fuel)%nat ->
  WorkSummary.get_user_commits endpoint fuel username owner name token
    since_date log
  = (Return
       (WorkSummary.remove_duplicates
          (flat_map (fun p =>
                       history_nodes
                         (commits_answer endpoint owner name token
                            since_date (fst p) (snd p)))
                    (probes username cursors1 cursors2))),
     log ++ map (fun p =>
                   commits_request owner name since_date (fst p) (snd p))
                (probes username cursors1 cursors2)).
Proof.
  intros Hwalk1 Hwalk2 Hlen1 Hlen2.
  unfold WorkSummary.get_user_commits, WorkSummary.email_formats.
  cbn [for_each_M]. unfold bind at 1 2.
  rewrite (probe_returns _ _ _ _ _ _ _ cursors1) by done.
  unfold bind at 1.
  rewrite (probe_returns _ _ _ _ _ _ _ cursors2) by done.
  unfold ret, probes.
  rewrite map_app, flat_map_app.
  rewrite !(map_pair _ (commits_request owner name since_date)).
  rewrite !(flat_map_pair _
              (fun email c =>
                 history_nodes
                   (commits_answer endpoint owner name token since_date
                      email c))).
  by rewrite (app_assoc log).
Qed.

Lemma X8_commit_probes_return_witness :
  WorkSummary.get_user_commits failing_commits_endpoint 3 "alice" "acme"
    "widgets" "token" "2024-01-01T00:00:00Z" []
  = (Return
       (WorkSummary.remove_duplicates
          (flat_map (fun p =>
                       history_nodes
                         (commits_answer failing_commits_endpoint "acme"
                            "widgets" "token" "2024-01-01T00:00:00Z"
                            (fst p) (snd p)))
                    (probes "alice" [Some "c2"] [Some "c2"]))),
     [] ++ map (fun p =>
                  commits_request "acme" "widgets" "2024-01-01T00:00:00Z"
                    (fst p) (snd p))
               (probes "alice" [Some "c2"] [Some "c2"])).
Proof.
  apply (X8_commit_probes_return failing_commits_endpoint 3 "alice" "acme"
           "widgets" "token" "2024-01-01T00:00:00Z" []
           [Some "c2"] [Some "c2"]).
  - split.
    + eexists. split; [vm_compute; reflexivity|]. split; reflexivity.
    + intros commit_history H. vm_compute in H. discriminate.
  - split.
    + eexists. split; [vm_compute; reflexivity|]. split; reflexivity.
    + intros commit_history H. vm_compute in H. discriminate.
  - simpl. lia.
  - simpl. lia.
Defined.

(** ** The collaborator set of the aggregator *)

Lemma size_add_le x (s : CollaborationExport.PySet.t) :
  (size (CollaborationExport.PySet.elements (CollaborationExport.PySet.add x s))
   <= S (size (CollaborationExport.PySet.elements s)))%nat.
Proof.
  unfold CollaborationExport.PySet.elements, CollaborationExport.PySet.add.
  rewrite list_to_set_app_L, size_union_alt.
  assert (Hsub : (list_to_set [x] : gset string) ∖ list_to_set s
                 ⊆ {[ x ]}).
  { rewrite list_to_set_singleton_L. by apply subseteq_difference_l. }
  apply subseteq_size in Hsub. rewrite size_singleton in Hsub. lia.
Qed.

Lemma size_add_unless_Unknown x (s : CollaborationExport.PySet.t) :
  (size (CollaborationExport.PySet.elements
           (CollaborationExport.add_unless_Unknown x s))
   <= S (size (CollaborationExport.PySet.elements s)))%nat.
Proof.
  unfold CollaborationExport.add_unless_Unknown.
  destruct (negb _); [apply size_add_le|lia].
Qed.

(** A loop that adds at most [w e] names for the element [e] adds at most
    [sum w l] names over [l]. *)
Lemma size_fold_left {A}
    (F : CollaborationExport.PySet.t -> A -> CollaborationExport.PySet.t)
    (w : A -> Z) (l : list A) (c0 : CollaborationExport.PySet.t) :
  (forall c e,
     Z.of_nat (size (CollaborationExport.PySet.elements (F c e)))
     <= Z.of_nat (size (CollaborationExport.PySet.elements c)) + w e) ->
  Z.of_nat (size (CollaborationExport.PySet.elements (fold_left F l c0)))
  <= Z.of_nat (size (CollaborationExport.PySet.elements c0)) + sum w l.
Proof.
  intros HF. revert c0. induction l as [|e l IH]; intros c0.
  - unfold sum. simpl. lia.
  - cbn [fold_left]. rewrite sum_cons. specialize (IH (F c0 e)).
    specialize (HF c0 e). lia.
Qed.

Lemma sum_ones {A} (l : list A) : sum (fun _ => 1) l = len l.
Proof.
  induction l as [|x l IH]; [done|]. rewrite sum_cons, IH. unfold len.
  simpl length. lia.
Qed.

Lemma sum_app {A} (f : A -> Z) l1 l2 :
  sum f (l1 ++ l2) = sum f l1 + sum f l2.
Proof.
  induction l1 as [|x l1 IH]; [unfold sum at 2; simpl; lia|].
  rewrite <- app_comm_cons, !sum_cons, IH. lia.
Qed.

Lemma len_app {A} (l1 l2 : list A) : len (l1 ++ l2) = len l1 + len l2.
Proof. unfold len. rewrite length_app. lia. Qed.

Lemma named_by_app a a' b b' c c' d d' x :
  named_by (a ++ a') (b ++ b') (c ++ c') (d ++ d') x
  <-> named_by a b c d x \/ named_by a' b' c' d' x.
Proof.
  unfold named_by. split.
  - intros [(e & [?|?]%elem_of_app & ?)
           |[(e & [?|?]%elem_of_app & ?)
            |[(e & th & [?|?]%elem_of_app & ? & ?)
             |(e & [?|?]%elem_of_app & ? & ?)]]]; naive_solver.
  - intros [[(e & ? & ?)|[(e & ? & ?)|[(e & th & ? & ? & ?)|(e & ? & ? & ?)]]]
           |[(e & ? & ?)|[(e & ? & ?)|[(e & th & ? & ? & ?)|(e & ? & ? & ?)]]]].
    all: try (left; exists e; split; [apply elem_of_app; auto|done]).
    all: try (right; left; exists e; split; [apply elem_of_app; auto|done]).
    all: try (right; right; left; exists e, th;
              split; [apply elem_of_app; auto|done]).
    all: right; right; right; exists e; split; [apply elem_of_app; auto|done].
Qed.

(** X9.  Whatever buckets the aggregator is given, its set of
    collaborators holds exactly the names other than "Unknown" that the
    buckets carry as the author of a reviewed pull request, the author of
    a commented pull request, the author of a comment that started a
    thread, or the author of an issue not flagged as authored by the user;
    so the number of unique collaborators is at most the number of
    reviews, commented pull requests, threads and issues taken together. *)
Theorem X9_collaborators_are_the_names_of_the_buckets
    (listed : CollaborationExport.PySet.t -> list string)
    (pr_reviews : list CollaborationExport.ReviewEntry.t)
    (commented_prs : list CollaborationExport.CommentedEntry.t)
    (pr_threads : list CollaborationExport.ThreadEntry.t)
    (issue_discussions : list CollaborationExport.IssueEntry.t) :
  let stats :=
    CollaborationExport.get_collaboration_stats listed pr_reviews
      commented_prs pr_threads issue_discussions in
  (forall x,
     x ∈ CollaborationExport.PySet.elements
           (CollaborationExport.collaborators pr_reviews commented_prs
              pr_threads issue_discussions)
     <-> x <> "Unknown"
         /\ named_by pr_reviews commented_prs pr_threads issue_discussions x)
  /\ CollaborationExport.Stats.unique_collaborators stats
     <= len pr_reviews + len commented_prs
        + sum (fun e => len (CollaborationExport.ThreadEntry.discussion_threads
                               e)) pr_threads
        + len issue_discussions.
Proof.
  intros stats. split; [intros x; apply elem_of_collaborators|].
  unfold stats, CollaborationExport.get_collaboration_stats.
  cbn [CollaborationExport.Stats.unique_collaborators].
  unfold CollaborationExport.PySet.len, CollaborationExport.collaborators.
  cbv zeta.
  rewrite <- !sum_ones.
  etransitivity; [apply size_fold_left with (w := fun _ => 1)|].
  { intros c e. destruct (_ && _); [|lia].
    pose proof (size_add_le
                  (CollaborationExport.IssueEntry.issue_author e) c). lia. }
  apply Z.add_le_mono_r.
  etransitivity;
    [apply size_fold_left
       with (w := fun e =>
                    sum (fun _ => 1)
                        (CollaborationExport.ThreadEntry.discussion_threads
                           e))|].
  { intros c e. etransitivity; [apply size_fold_left with (w := fun _ => 1)|].
    - intros c' th.
      pose proof (size_add_unless_Unknown
                    (CollaborationExport.Thread.comment_author th) c'). lia.
    - lia. }
  rewrite (sum_ext_in
             (fun e => len (CollaborationExport.ThreadEntry.discussion_threads
                              e))
             (fun e => sum (fun _ => 1)
                         (CollaborationExport.ThreadEntry.discussion_threads
                            e))) by (intros; by rewrite sum_ones).
  apply Z.add_le_mono_r.
  etransitivity; [apply size_fold_left with (w := fun _ => 1)|].
  { intros c e.
    pose proof (size_add_unless_Unknown
                  (CollaborationExport.CommentedEntry.pr_author e) c). lia. }
  apply Z.add_le_mono_r.
  etransitivity; [apply size_fold_left with (w := fun _ => 1)|].
  { intros c e.
    pose proof (size_add_unless_Unknown
                  (CollaborationExport.ReviewEntry.pr_author e) c). lia. }
  assert (Hnew : size (CollaborationExport.PySet.elements
                         CollaborationExport.PySet.new) = 0%nat)
    by apply size_empty.
  rewrite Hnew. lia.
Qed.

(** X10.  The aggregator is additive: on buckets that are each the
    concatenation of two parts, the set of collaborators is the union of
    the sets of collaborators of the parts and every total is the sum of
    the totals of the parts. *)
Theorem X10_statistics_of_merged_buckets
    (listed : CollaborationExport.PySet.t -> list string)
    a a' b b' c c' d d' :
  let merged :=
    CollaborationExport.get_collaboration_stats listed (a ++ a') (b ++ b')
      (c ++ c') (d ++ d') in
  let s := CollaborationExport.get_collaboration_stats listed a b c d in
  let s' := CollaborationExport.get_collaboration_stats listed a' b' c' d' in
  CollaborationExport.PySet.elements
    (CollaborationExport.collaborators (a ++ a') (b ++ b') (c ++ c')
       (d ++ d'))
  = CollaborationExport.PySet.elements
      (CollaborationExport.collaborators a b c d)
    ∪ CollaborationExport.PySet.elements
        (CollaborationExport.collaborators a' b' c' d')
  /\ CollaborationExport.Stats.unique_collaborators merged
     <= CollaborationExport.Stats.unique_collaborators s
        + CollaborationExport.Stats.unique_collaborators s'
  /\ CollaborationExport.Stats.total_pr_reviews merged
     = CollaborationExport.Stats.total_pr_reviews s
       + CollaborationExport.Stats.total_pr_reviews s'
  /\ CollaborationExport.Stats.total_review_comments merged
     = CollaborationExport.Stats.total_review_comments s
       + CollaborationExport.Stats.total_review_comments s'
  /\ CollaborationExport.Stats.total_prs_commented_on merged
     = CollaborationExport.Stats.total_prs_commented_on s
       + CollaborationExport.Stats.total_prs_commented_on s'
  /\ CollaborationExport.Stats.total_pr_comments merged
     = CollaborationExport.Stats.total_pr_comments s
       + CollaborationExport.Stats.total_pr_comments s'
  /\ CollaborationExport.Stats.total_pr_discussion_threads merged
     = CollaborationExport.Stats.total_pr_discussion_threads s
       + CollaborationExport.Stats.total_pr_discussion_threads s'
  /\ CollaborationExport.Stats.total_issues_engaged_with merged
     = CollaborationExport.Stats.total_issues_engaged_with s
       + CollaborationExport.Stats.total_issues_engaged_with s'
  /\ CollaborationExport.Stats.total_issue_comments merged
     = CollaborationExport.Stats.total_issue_comments s
       + CollaborationExport.Stats.total_issue_comments s'
  /\ CollaborationExport.Stats.total_collaboration_touchpoints merged
     = CollaborationExport.Stats.total_collaboration_touchpoints s
       + CollaborationExport.Stats.total_collaboration_touchpoints s'.
Proof.
  intros merged s s'.
  assert (Hunion :
            CollaborationExport.PySet.elements
              (CollaborationExport.collaborators (a ++ a') (b ++ b')
                 (c ++ c') (d ++ d'))
            = CollaborationExport.PySet.elements
                (CollaborationExport.collaborators a b c d)
              ∪ CollaborationExport.PySet.elements
                  (CollaborationExport.collaborators a' b' c' d')).
  { apply set_eq. intros x.
    rewrite elem_of_union, !elem_of_collaborators, named_by_app. tauto. }
  split; [exact Hunion|]. split.
  - unfold merged, s, s', CollaborationExport.get_collaboration_stats.
    cbn [CollaborationExport.Stats.unique_collaborators].
    unfold CollaborationExport.PySet.len. rewrite Hunion.
    match goal with
    | |- context [size (?X ∪ ?Y)] =>
        pose proof (size_union_alt X Y) as Hs;
        assert (Hle : Y ∖ X ⊆ Y) by (by apply subseteq_difference_l);
        apply subseteq_size in Hle
    end.
    lia.
  - unfold merged, s, s', CollaborationExport.get_collaboration_stats.
    cbn [CollaborationExport.Stats.total_pr_reviews
         CollaborationExport.Stats.total_review_comments
         CollaborationExport.Stats.total_prs_commented_on
         CollaborationExport.Stats.total_pr_comments
         CollaborationExport.Stats.total_pr_discussion_threads
         CollaborationExport.Stats.total_issues_engaged_with
         CollaborationExport.Stats.total_issue_comments
         CollaborationExport.Stats.total_collaboration_touchpoints].
    rewrite !len_app, !sum_app. repeat split; lia.
Qed.

(** ** The runs of [main] *)

(** X11.  When the endpoint answers the repository request with a null
    repository, either program exits with status 1 on the "not found"
    exception, having sent that one request and written no report: no
    fetch is attempted. *)
Theorem X11_repository_not_found (endpoint : Endpoint) owner name token :
  checked (endpoint RepositoryQuery
             [("owner", Some owner); ("name", Some name)] token)
  = Return None ->
  (forall listed write_failure fuel username since_date timeframe
          generated_at,
     CollaborationExport.main endpoint listed write_failure fuel username
       owner name token since_date timeframe generated_at
     = (CollaborationExport.Exit1 (RepositoryNotFound owner name),
        [(RepositoryQuery, [("owner", Some owner); ("name", Some name)])]))
  /\ (forall write_failure fuel username since_date timeframe generated_at,
        WorkSummary.main endpoint write_failure fuel username owner name
          token since_date timeframe generated_at
        = (WorkSummary.Exit1 (RepositoryNotFound owner name),
           [(RepositoryQuery, [("owner", Some owner); ("name", Some name)])])).
Proof.
  intros Hnull. split; intros; [|].
  - unfold CollaborationExport.main, CollaborationExport.main_try.
    unfold bind at 1. by rewrite get_repository_info_run, Hnull.
  - unfold WorkSummary.main, WorkSummary.main_try.
    unfold bind at 1. by rewrite get_repository_info_run, Hnull.
Qed.

Lemma X11_repository_not_found_witness :
  (forall listed write_failure fuel username since_date timeframe
          generated_at,
     CollaborationExport.main unknown_repository_endpoint listed
       write_failure fuel username "acme" "gadgets" "token" since_date
       timeframe generated_at
     = (CollaborationExport.Exit1 (RepositoryNotFound "acme" "gadgets"),
        [(RepositoryQuery,
          [("owner", Some "acme"); ("name", Some "gadgets")])]))
  /\ (forall write_failure fuel username since_date timeframe generated_at,
        WorkSummary.main unknown_repository_endpoint write_failure fuel
          username "acme" "gadgets" "token" since_date timeframe
          generated_at
        = (WorkSummary.Exit1 (RepositoryNotFound "acme" "gadgets"),
           [(RepositoryQuery,
             [("owner", Some "acme"); ("name", Some "gadgets")])])).
Proof.
  apply (X11_repository_not_found unknown_repository_endpoint "acme"
           "gadgets" "token").
  vm_compute. reflexivity.
Defined.

(** X12.  A run that writes its report moved through its phases in the
    order of the source, and sent nothing besides: the repository request
    first, answered with the repository that the report carries; then, for
    github-collaboration-export.py, the requests of the reviews, of the
    commented pull requests, of the discussion threads and of the issues,
    in this order; for github-work-summary.py the requests of the pull
    requests and then those of the two commit-history probes.  The user
    name, the timeframe, the cutoff and the time of generation are carried
    into the report as they were given, and the statistics of the work
    summary count the two lists of the report. *)
Theorem X12_phases_of_a_written_report :
  (forall endpoint listed write_failure fuel username owner name token
          since_date timeframe generated_at result log,
     CollaborationExport.main endpoint listed write_failure fuel username
       owner name token since_date timeframe generated_at
     = (CollaborationExport.Wrote result, log) ->
     checked (endpoint RepositoryQuery
                [("owner", Some owner); ("name", Some name)] token)
     = Return (Some (CollaborationExport.Report.repository result))
     /\ CollaborationExport.Report.username result = username
     /\ CollaborationExport.Report.timeframe_days result = timeframe
     /\ CollaborationExport.Report.since_date result = since_date
     /\ CollaborationExport.Report.generated_at result = generated_at
     /\ exists cursors1 cursors2 cursors3 cursors4,
          log = (RepositoryQuery,
                 [("owner", Some owner); ("name", Some name)])
                :: map (reviews_request owner name username) cursors1
                ++ map (commented_request owner name) cursors2
                ++ map (threads_request owner name) cursors3
                ++ map (issues_request owner name) cursors4)
  /\ (forall endpoint write_failure fuel username owner name token
             since_date timeframe generated_at result log,
        WorkSummary.main endpoint write_failure fuel username owner name
          token since_date timeframe generated_at
        = (WorkSummary.Wrote result, log) ->
        checked (endpoint RepositoryQuery
                   [("owner", Some owner); ("name", Some name)] token)
        = Return (Some (WorkSummary.Report.repository result))
        /\ WorkSummary.Report.username result = username
        /\ WorkSummary.Report.timeframe_days result = timeframe
        /\ WorkSummary.Report.since_date result = since_date
        /\ WorkSummary.Report.generated_at result = generated_at
        /\ WorkSummary.Statistics.total_pull_requests
             (WorkSummary.Report.statistics result)
           = len (WorkSummary.Report.pull_requests result)
        /\ WorkSummary.Statistics.total_commits
             (WorkSummary.Report.statistics result)
           = len (WorkSummary.Report.commits result)
        /\ exists cursors cursors1 cursors2,
             log = (RepositoryQuery,
                    [("owner", Some owner); ("name", Some name)])
                   :: map (pulls_request owner name) cursors
                   ++ map (fun p =>
                             commits_request owner name since_date (fst p)
                               (snd p))
                          (probes username cursors1 cursors2)).
Proof.
  split; [intros endpoint listed write_failure|intros endpoint write_failure];
    intros fuel username owner name token since_date timeframe
      generated_at result log.
  - unfold CollaborationExport.main, CollaborationExport.main_try.
    unfold bind at 1. rewrite get_repository_info_run.
    destruct (checked _) as [[repository|]| |]; [|done..].
    unfold bind at 1.
    destruct (CollaborationExport.get_user_pr_reviews _ _ _ _ _ _ _ _)
      as [[b1| |] log1] eqn:H1; [|done..].
    apply get_user_pr_reviews_Return
      in H1 as (s1 & cursors1 & p1 & _ & [-> _] & _).
    unfold bind at 1.
    destruct (CollaborationExport.get_prs_with_user_comments _ _ _ _ _ _ _ _)
      as [[b2| |] log2] eqn:H2; [|done..].
    apply get_prs_with_user_comments_Return
      in H2 as (s2 & cursors2 & p2 & _ & [-> _] & _).
    unfold bind at 1.
    destruct (CollaborationExport.get_user_pr_comment_threads _ _ _ _ _ _ _ _)
      as [[b3| |] log3] eqn:H3; [|done..].
    apply get_user_pr_comment_threads_Return
      in H3 as (s3 & cursors3 & p3 & _ & [-> _] & _).
    unfold bind at 1.
    destruct (CollaborationExport.get_issue_discussions _ _ _ _ _ _ _ _)
      as [[b4| |] log4] eqn:H4; [|done..].
    apply get_issue_discussions_Return
      in H4 as (s4 & cursors4 & p4 & _ & [-> _] & _).
    destruct write_failure; [done|].
    intros [= <- <-]. cbn.
    repeat (split; [done|]).
    exists cursors1, cursors2, cursors3, cursors4.
    by rewrite <- !app_assoc.
  - unfold WorkSummary.main, WorkSummary.main_try.
    unfold bind at 1. rewrite get_repository_info_run.
    destruct (checked _) as [[repository|]| |]; [|done..].
    unfold bind at 1.
    destruct (WorkSummary.get_user_pull_requests _ _ _ _ _ _ _ _)
      as [[prs| |] log1] eqn:H1; [|done..].
    apply get_user_pull_requests_log in H1 as (cursors & ->).
    unfold bind at 1.
    destruct (WorkSummary.get_user_commits _ _ _ _ _ _ _ _)
      as [[commits| |] log2] eqn:H2; [|done..].
    apply get_user_commits_probes
      in H2 as (commits1 & log1 & commits2 & P1 & P2 & _).
    apply probe_Return in P1 as (cursors1 & _ & _ & -> & _).
    apply probe_Return in P2 as (cursors2 & _ & _ & -> & _).
    destruct write_failure; [done|].
    intros [= <- <-]. cbn.
    repeat (split; [done|]).
    exists cursors, cursors1, cursors2. unfold probes.
    rewrite map_app. cbn [map fst snd].
    rewrite !(map_pair _ (commits_request owner name since_date)).
    by rewrite <- !app_assoc.
Qed.

Lemma X12_phases_of_a_written_report_witness :
  checked (team_endpoint RepositoryQuery
             [("owner", Some "acme"); ("name", Some "widgets")] "token")
  = Return (Some (CollaborationExport.Report.repository team_report))
  /\ CollaborationExport.Report.username team_report = "alice"
  /\ CollaborationExport.Report.timeframe_days team_report = 365
  /\ CollaborationExport.Report.since_date team_report
     = "2024-01-01T00:00:00Z"
  /\ CollaborationExport.Report.generated_at team_report
     = "2024-06-01T12:00:00"
  /\ exists cursors1 cursors2 cursors3 cursors4,
       team_log = (RepositoryQuery,
                   [("owner", Some "acme"); ("name", Some "widgets")])
                  :: map (reviews_request "acme" "widgets" "alice") cursors1
                  ++ map (commented_request "acme" "widgets") cursors2
                  ++ map (threads_request "acme" "widgets") cursors3
                  ++ map (issues_request "acme" "widgets") cursors4.
Proof.
  apply (proj1 X12_phases_of_a_written_report team_endpoint
           in_insertion_order no_write_failure 2%nat "alice" "acme"
           "widgets" "token" "2024-01-01T00:00:00Z" 365
           "2024-06-01T12:00:00" team_report team_log).
  vm_compute. reflexivity.
Defined.

(** ** The setup of [main] *)

Lemma split_not_nil sep s : Setup.split sep s <> [].
Proof.
  destruct s as [|c s]; simpl; [done|].
  destruct (Ascii.eqb c sep); [done|]. by destruct (Setup.split sep s).
Qed.

(** The first piece holds no separator, and the rest of the pieces are
    the split of what follows the first separator. *)
Lemma split_cons sep s piece pieces :
  Setup.split sep s = piece :: pieces <->
  occurs sep piece = false
  /\ ((pieces = [] /\ s = piece)
      \/ exists rest,
           s = String.append piece (String sep rest)
           /\ Setup.split sep rest = pieces).
Proof.
  revert piece pieces. induction s as [|c s IH]; intros piece pieces.
  - simpl. split.
    + intros [= <- <-]. split; [done|]. by left.
    + intros [Hno [[-> <-]|(rest & Hs & _)]]; [done|].
      by destruct piece.
  - cbn [Setup.split].
    destruct (Ascii.eqb_spec c sep) as [->|Hne].
    + split.
      * intros [= <- <-]. split; [done|]. right. by exists s.
      * intros [Hno [[-> <-]|(rest & Hs & <-)]].
        -- simpl in Hno. by rewrite Ascii.eqb_refl in Hno.
        -- destruct piece as [|c' piece]; simpl in Hs.
           ++ by injection Hs as <-.
           ++ injection Hs as <- _. simpl in Hno.
              by rewrite Ascii.eqb_refl in Hno.
    + destruct (Setup.split sep s) as [|p ps] eqn:Hsplit;
        [by apply split_not_nil in Hsplit|].
      destruct (IH p ps) as [IH1 _].
      destruct (IH1 eq_refl) as [Hp Hcases].
      split.
      * intros [= <- <-]. split.
        -- simpl. apply Ascii.eqb_neq in Hne. by rewrite Hne.
        -- destruct Hcases as [[-> ->]|(rest & -> & Hrest)]; [by left|].
           right. by exists rest.
      * intros [Hno Hshape].
        destruct piece as [|c' piece].
        { destruct Hshape as [[_ [=]]|(rest & [= -> _] & _)]. done. }
        simpl in Hno. apply orb_false_iff in Hno as [_ Hno].
        assert (c' = c /\ p :: ps = piece :: pieces) as [-> Heq].
        { destruct Hshape as [[-> [= -> ->]]|(rest & [= -> ->] & Hrest)].
          - split; [done|]. apply IH. split; [done|]. by left.
          - split; [done|]. apply IH. split; [done|]. right. by exists rest. }
        by injection Heq as -> ->.
Qed.

(** X13.  The unpacking [owner, name = args.repo.split('/')] succeeds
    exactly when the argument holds one slash: the owner is what stands
    before it and the name what stands after it, either of which may be
    empty, and putting them back around a slash gives the argument
    again. *)
Theorem X13_repo_argument repo owner name :
  Setup.owner_and_name repo = Some (owner, name)
  <-> repo = String.append owner (String "/" name)
      /\ occurs "/" owner = false
      /\ occurs "/" name = false.
Proof.
  unfold Setup.owner_and_name. split.
  - destruct (Setup.split "/" repo) as [|p1 [|p2 [|p3 ps]]] eqn:Hsplit;
      [done..| |done].
    intros [= -> ->].
    apply split_cons in Hsplit as [Ho [[[=] _]|(rest & -> & Hrest)]].
    apply split_cons in Hrest as [Hn [[_ ->]|(rest' & _ & Hnil)]]; [done|].
    by apply split_not_nil in Hnil.
  - intros (-> & Ho & Hn).
    assert (Setup.split "/" (String.append owner (String "/" name))
            = [owner; name]) as ->; [|done].
    apply split_cons. split; [done|]. right. exists name. split; [done|].
    apply split_cons. split; [done|]. by left.
Qed.

(** *** The cutoff *)

Lemma digit_digit_char d :
  0 <= d <= 9 -> Timestamp.digit (Setup.digit_char d) = Some d.
Proof.
  intros Hd.
  assert (d = 0 \/ d = 1 \/ d = 2 \/ d = 3 \/ d = 4 \/ d = 5 \/ d = 6
          \/ d = 7 \/ d = 8 \/ d = 9) as Hcases by lia.
  repeat (destruct Hcases as [->|Hcases]; [reflexivity|]). by subst.
Qed.

Lemma digit_char_not_Z d :
  0 <= d <= 9 -> Ascii.eqb (Setup.digit_char d) "Z" = false.
Proof.
  intros Hd.
  assert (d = 0 \/ d = 1 \/ d = 2 \/ d = 3 \/ d = 4 \/ d = 5 \/ d = 6
          \/ d = 7 \/ d = 8 \/ d = 9) as Hcases by lia.
  repeat (destruct Hcases as [->|Hcases]; [reflexivity|]). by subst.
Qed.

Lemma replace_String_ne old new c s :
  Ascii.eqb c old = false ->
  Timestamp.replace old new (String c s)
  = String c (Timestamp.replace old new s).
Proof. intros H. cbn [Timestamp.replace]. by rewrite H. Qed.

Lemma number_2 pos s c1 c2 q1 q2 :
  String.get pos s = Some c1 -> String.get (S pos) s = Some c2 ->
  Timestamp.digit c1 = Some q1 -> Timestamp.digit c2 = Some q2 ->
  Timestamp.number 2 pos s 0 = Some (10 * q1 + q2).
Proof.
  intros G1 G2 D1 D2. cbn [Timestamp.number].
  rewrite G1. cbn [mbind option_bind]. rewrite D1. cbn [mbind option_bind].
  rewrite G2. cbn [mbind option_bind]. rewrite D2. cbn [mbind option_bind].
  reflexivity.
Qed.

Lemma number_4 pos s c1 c2 c3 c4 q1 q2 q3 q4 :
  String.get pos s = Some c1 -> String.get (S pos) s = Some c2 ->
  String.get (S (S pos)) s = Some c3 ->
  String.get (S (S (S pos))) s = Some c4 ->
  Timestamp.digit c1 = Some q1 -> Timestamp.digit c2 = Some q2 ->
  Timestamp.digit c3 = Some q3 -> Timestamp.digit c4 = Some q4 ->
  Timestamp.number 4 pos s 0 = Some (1000 * q1 + 100 * q2 + 10 * q3 + q4).
Proof.
  intros G1 G2 G3 G4 D1 D2 D3 D4. cbn [Timestamp.number].
  rewrite G1. cbn [mbind option_bind]. rewrite D1. cbn [mbind option_bind].
  rewrite G2. cbn [mbind option_bind]. rewrite D2. cbn [mbind option_bind].
  rewrite G3. cbn [mbind option_bind]. rewrite D3. cbn [mbind option_bind].
  rewrite G4. cbn [mbind option_bind]. rewrite D4. cbn [mbind option_bind].
  f_equal. lia.
Qed.

Lemma within_Some lo hi x :
  lo <= x <= hi -> Timestamp.within lo hi x = Some tt.
Proof.
  intros [H1 H2]. unfold Timestamp.within.
  by rewrite (proj2 (Z.leb_le _ _) H1), (proj2 (Z.leb_le _ _) H2).
Qed.

(** The cutoff that [main] prints is read back as midnight UTC of its
    date. *)
Lemma parse_since_date y m d :
  1000 <= y <= 9999 -> 1 <= m <= 12 ->
  1 <= d <= Timestamp.days_in_month y m ->
  Timestamp.parse
    (Setup.since_date
       {| Setup.Datetime.year := y; Setup.Datetime.month := m;
          Setup.Datetime.day := d |})
  = Some (Timestamp.days_from_civil y m d * 86400).
Proof.
  intros Hy Hm Hd.
  unfold Setup.since_date, Timestamp.parse.
  cbn [Setup.Datetime.year Setup.Datetime.month Setup.Datetime.day
       Setup.zero_padded].
  change (10 ^ Z.of_nat 3) with 1000. change (10 ^ Z.of_nat 2) with 100.
  change (10 ^ Z.of_nat 1) with 10. change (10 ^ Z.of_nat 0) with 1.
  cbv [String.append].
  set (y1 := (y / 1000) mod 10). set (y2 := (y / 100) mod 10).
  set (y3 := (y / 10) mod 10). set (y4 := (y / 1) mod 10).
  set (m1 := (m / 10) mod 10). set (m2 := (m / 1) mod 10).
  set (d1 := (d / 10) mod 10). set (d2 := (d / 1) mod 10).
  assert (Hy' : 10 * (10 * (10 * (10 * 0 + y1) + y2) + y3) + y4 = y).
  { subst y1 y2 y3 y4. clear Hd. Z.div_mod_to_equations. lia. }
  assert (Hm' : 10 * (10 * 0 + m1) + m2 = m).
  { subst m1 m2. clear Hd. Z.div_mod_to_equations. lia. }
  assert (Hdm : Timestamp.days_in_month y m <= 31).
  { unfold Timestamp.days_in_month.
    repeat match goal with
           | |- context [if ?b then _ else _] => destruct b
           end; lia. }
  assert (Hd' : 10 * (10 * 0 + d1) + d2 = d).
  { subst d1 d2. Z.div_mod_to_equations. lia. }
  assert (Hb : forall q, 0 <= q mod 10 <= 9).
  { intros q. pose proof (Z.mod_pos_bound q 10). lia. }
  pose proof (digit_digit_char _ (Hb (y / 1000))) as D1.
  pose proof (digit_digit_char _ (Hb (y / 100))) as D2.
  pose proof (digit_digit_char _ (Hb (y / 10))) as D3.
  pose proof (digit_digit_char _ (Hb (y / 1))) as D4.
  pose proof (digit_digit_char _ (Hb (m / 10))) as D5.
  pose proof (digit_digit_char _ (Hb (m / 1))) as D6.
  pose proof (digit_digit_char _ (Hb (d / 10))) as D7.
  pose proof (digit_digit_char _ (Hb (d / 1))) as D8.
  pose proof (digit_char_not_Z _ (Hb (y / 1000))) as N1.
  pose proof (digit_char_not_Z _ (Hb (y / 100))) as N2.
  pose proof (digit_char_not_Z _ (Hb (y / 10))) as N3.
  pose proof (digit_char_not_Z _ (Hb (y / 1))) as N4.
  pose proof (digit_char_not_Z _ (Hb (m / 10))) as N5.
  pose proof (digit_char_not_Z _ (Hb (m / 1))) as N6.
  pose proof (digit_char_not_Z _ (Hb (d / 10))) as N7.
  pose proof (digit_char_not_Z _ (Hb (d / 1))) as N8.
  fold y1 in D1, N1. fold y2 in D2, N2. fold y3 in D3, N3. fold y4 in D4, N4.
  fold m1 in D5, N5. fold m2 in D6, N6. fold d1 in D7, N7. fold d2 in D8, N8.
  clearbody y1 y2 y3 y4 m1 m2 d1 d2.
  revert D1 D2 D3 D4 D5 D6 D7 D8 N1 N2 N3 N4 N5 N6 N7 N8.
  generalize (Setup.digit_char y1) (Setup.digit_char y2)
    (Setup.digit_char y3) (Setup.digit_char y4) (Setup.digit_char m1)
    (Setup.digit_char m2) (Setup.digit_char d1) (Setup.digit_char d2).
  intros c1 c2 c3 c4 c5 c6 c7 c8 D1 D2 D3 D4 D5 D6 D7 D8
    N1 N2 N3 N4 N5 N6 N7 N8.
  do 10 (rewrite replace_String_ne by first [assumption|reflexivity]).
  change (Timestamp.replace "Z" "+00:00" "T00:00:00Z")
    with "T00:00:00+00:00".
  match goal with |- Timestamp.fromisoformat ?str = _ => set (s := str) end.
  unfold Timestamp.fromisoformat.
  change (String.length s) with 25%nat. cbn [Nat.eqb negb].
  rewrite (number_4 0 s c1 c2 c3 c4 y1 y2 y3 y4)
    by (reflexivity || assumption).
  cbn [mbind option_bind].
  change (Timestamp.expect 4 "-" s) with (Some tt). cbn [mbind option_bind].
  rewrite (number_2 5 s c5 c6 m1 m2) by (reflexivity || assumption).
  cbn [mbind option_bind].
  change (Timestamp.expect 7 "-" s) with (Some tt). cbn [mbind option_bind].
  rewrite (number_2 8 s c7 c8 d1 d2) by (reflexivity || assumption).
  cbn [mbind option_bind].
  change (Timestamp.number 2 11 s 0) with (Some 0). cbn [mbind option_bind].
  change (Timestamp.expect 13 ":" s) with (Some tt). cbn [mbind option_bind].
  change (Timestamp.number 2 14 s 0) with (Some 0). cbn [mbind option_bind].
  change (Timestamp.expect 16 ":" s) with (Some tt). cbn [mbind option_bind].
  change (Timestamp.number 2 17 s 0) with (Some 0). cbn [mbind option_bind].
  change (Timestamp.sign 19 s) with (Some 1). cbn [mbind option_bind].
  change (Timestamp.number 2 20 s 0) with (Some 0). cbn [mbind option_bind].
  change (Timestamp.expect 22 ":" s) with (Some tt). cbn [mbind option_bind].
  change (Timestamp.number 2 23 s 0) with (Some 0). cbn [mbind option_bind].
  replace (1000 * y1 + 100 * y2 + 10 * y3 + y4) with y by lia.
  replace (10 * m1 + m2) with m by lia.
  replace (10 * d1 + d2) with d by lia.
  rewrite !within_Some by lia. cbn [mbind option_bind].
  f_equal. lia.
Qed.

(** X14.  The cutoff that [main] builds always parses: for the date of
    any [datetime] from the year 1000 on, the string printed by
    [strftime('%Y-%m-%dT00:00:00Z')] is read back by the fetches as
    midnight UTC of that date, so none of them raises on its cutoff and
    the time of day of the clock plays no part. *)
Theorem X14_cutoff_of_main_parses (past : Setup.Datetime.t) :
  is_date past ->
  1000 <= Setup.Datetime.year past ->
  fromisoformat_Z (Setup.since_date past)
  = Return (Timestamp.days_from_civil (Setup.Datetime.year past)
              (Setup.Datetime.month past) (Setup.Datetime.day past)
            * 86400).
Proof.
  destruct past as [y m d]. unfold is_date. simpl.
  intros (Hy & Hm & Hd) Hy'. unfold fromisoformat_Z.
  by rewrite parse_since_date by lia.
Qed.

Lemma X14_cutoff_of_main_parses_witness :
  fromisoformat_Z "2024-01-01T00:00:00Z" = Return (19723 * 86400).
Proof.
  apply (X14_cutoff_of_main_parses
           {| Setup.Datetime.year := 2024; Setup.Datetime.month := 1;
              Setup.Datetime.day := 1 |}).
  - unfold is_date. vm_compute. repeat split; discriminate.
  - simpl. lia.
Defined.

Lemma append_assoc s1 s2 s3 :
  String.append (String.append s1 s2) s3
  = String.append s1 (String.append s2 s3).
Proof.
  induction s1 as [|c s1 IH]; [done|].
  change (String c (String.append (String.append s1 s2) s3)
          = String c (String.append s1 (String.append s2 s3))).
  by rewrite IH.
Qed.

Lemma replace_append old new s1 s2 :
  Timestamp.replace old new (String.append s1 s2)
  = String.append (Timestamp.replace old new s1)
                  (Timestamp.replace old new s2).
Proof.
  induction s1 as [|c s1 IH]; [done|].
  change (String.append (String c s1) s2)
    with (String c (String.append s1 s2)).
  cbn [Timestamp.replace]. rewrite IH. destruct (Ascii.eqb c old).
  - by rewrite append_assoc.
  - done.
Qed.

Lemma replace_absent old new s :
  occurs old s = false -> Timestamp.replace old new s = s.
Proof.
  induction s as [|c s IH]; [done|]. cbn [occurs Timestamp.replace].
  intros [-> Hs]%orb_false_iff. by rewrite IH.
Qed.

(** X15.  The two spellings of UTC are read alike: a timestamp that ends
    in "Z" and the same timestamp ending in "+00:00" parse to the same
    result, be it an instant or a failure. *)
Theorem X15_Z_is_UTC (s : string) :
  occurs "Z" s = false ->
  Timestamp.parse (String.append s "Z")
  = Timestamp.parse (String.append s "+00:00")
  /\ fromisoformat_Z (String.append s "Z")
     = match fromisoformat_Z (String.append s "+00:00") with
       | Raise _ => Raise (ValueError (String.append s "Z"))
       | o => o
       end.
Proof.
  intros Hs.
  assert (H : Timestamp.parse (String.append s "Z")
              = Timestamp.parse (String.append s "+00:00")).
  { unfold Timestamp.parse. rewrite !replace_append.
    by rewrite !(replace_absent _ _ s Hs). }
  split; [done|]. unfold fromisoformat_Z. rewrite H. clear H.
  by destruct (Timestamp.parse _).
Qed.

Lemma X15_Z_is_UTC_witness :
  Timestamp.parse (String.append "2024-02-01T09:30:00" "Z")
  = Timestamp.parse (String.append "2024-02-01T09:30:00" "+00:00")
  /\ fromisoformat_Z (String.append "2024-02-01T09:30:00" "Z")
     = match
         fromisoformat_Z (String.append "2024-02-01T09:30:00" "+00:00")
       with
       | Raise _ =>
           Raise (ValueError (String.append "2024-02-01T09:30:00" "Z"))
       | o => o
       end.
Proof. apply (X15_Z_is_UTC "2024-02-01T09:30:00"). reflexivity. Defined.

(** ** Runs that write their report *)

(** The elements of a list that is written out. *)
Ltac each_member H :=
  lazymatch type of H with
  | _ ∈ [] => by apply elem_of_nil in H
  | _ ∈ _ :: _ =>
      let H' := fresh H in
      apply elem_of_cons in H as [->|H']; [|each_member H']
  end.

(** X16.  github-collaboration-export.py writes its report whenever the
    endpoint behaves and the output file can be written: when the endpoint
    answers the repository request with a repository, the cutoff and the
    timestamps of the four feeds parse, each feed ends within the fuel, and
    neither [open] nor [json.dump] fails.  The report is then determined by
    the feeds: each bucket holds the entries of all the nodes of its feed,
    and the statistics are those of the four buckets.  When the write
    fails instead, the run sends the same requests and exits with status 1
    on the exception of the write. *)
Theorem X16_collaboration_export_completes (endpoint : Endpoint) listed fuel
    username owner name token since_date timeframe generated_at
    since_datetime repository n1 n2 n3 n4 pages1 pages2 pages3 pages4 :
  checked (endpoint RepositoryQuery
             [("owner", Some owner); ("name", Some name)] token)
  = Return (Some repository) ->
  Timestamp.parse since_date = Some since_datetime ->
  feed (reviews_answer endpoint owner name username token) n1 None
  = Some pages1 ->
  feed (commented_answer endpoint owner name token) n2 None = Some pages2 ->
  feed (threads_answer endpoint owner name token) n3 None = Some pages3 ->
  feed (issues_answer endpoint owner name token) n4 None = Some pages4 ->
  (forall pr, pr ∈ all_nodes pages1 -> reviews_parse pr) ->
  (forall pr, pr ∈ all_nodes pages2 -> discussion_parses pr) ->
  (forall pr, pr ∈ all_nodes pages3 -> discussion_parses pr) ->
  (forall issue, issue ∈ all_nodes pages4 -> discussion_parses issue) ->
  (n1 <= fuel)%nat -> (n2 <= fuel)%nat -> (n3 <= fuel)%nat ->
  (n4 <= fuel)%nat ->
  let pr_reviews :=
    flat_map (reviewed_pr_entries username since_datetime)
             (all_nodes pages1) in
  let commented_prs :=
    flat_map (commented_pr_entries username since_datetime)
             (all_nodes pages2) in
  let pr_threads :=
    flat_map (thread_pr_entries username since_datetime)
             (all_nodes pages3) in
  let issue_discussions :=
    flat_map (issue_entries username since_datetime) (all_nodes pages4) in
  exists log,
    (forall e,
       CollaborationExport.main endpoint listed (Some e) fuel username owner
         name token since_date timeframe generated_at
       = (CollaborationExport.Exit1 e, log))
    /\
    CollaborationExport.main endpoint listed None fuel username owner name
      token since_date timeframe generated_at
    = (CollaborationExport.Wrote
         {| CollaborationExport.Report.username := username;
            CollaborationExport.Report.repository := repository;
            CollaborationExport.Report.generated_at := generated_at;
            CollaborationExport.Report.timeframe_days := timeframe;
            CollaborationExport.Report.since_date := since_date;
            CollaborationExport.Report.statistics :=
              CollaborationExport.get_collaboration_stats listed pr_reviews
                commented_prs pr_threads issue_discussions;
            CollaborationExport.Report.pr_reviews := pr_reviews;
            CollaborationExport.Report.commented_prs := commented_prs;
            CollaborationExport.Report.pr_discussion_threads := pr_threads;
            CollaborationExport.Report.issue_discussions :=
              issue_discussions |},
       log).
Proof.
  intros Hrepo Hs F1 F2 F3 F4 P1 P2 P3 P4 L1 L2 L3 L4 b1 b2 b3 b4.
  match goal with
  | |- exists log, _ /\ _ = (CollaborationExport.Wrote ?result, _) =>
      assert (Hrun : exists log,
                CollaborationExport.main_try endpoint listed fuel username
                  owner name token since_date timeframe generated_at []
                = (Return result, log));
        [|destruct Hrun as [log Hrun]; exists log;
          unfold CollaborationExport.main; rewrite Hrun; by split]
  end.
  unfold CollaborationExport.main_try.
  unfold bind at 1. rewrite get_repository_info_run, Hrepo.
  unfold bind at 1.
  match goal with
  | |- context [CollaborationExport.get_user_pr_reviews _ _ _ _ _ _ _ ?l] =>
      destruct (get_user_pr_reviews_returns endpoint fuel username owner
                  name token since_date n1 l pages1 since_datetime
                  Hs F1 P1 L1) as [log1 ->]
  end.
  unfold bind at 1.
  match goal with
  | |- context [CollaborationExport.get_prs_with_user_comments
                  _ _ _ _ _ _ _ ?l] =>
      destruct (get_prs_with_user_comments_returns endpoint fuel username
                  owner name token since_date n2 l pages2 since_datetime
                  Hs F2 P2 L2) as [log2 ->]
  end.
  unfold bind at 1.
  match goal with
  | |- context [CollaborationExport.get_user_pr_comment_threads
                  _ _ _ _ _ _ _ ?l] =>
      destruct (get_user_pr_comment_threads_returns endpoint fuel username
                  owner name token since_date n3 l pages3 since_datetime
                  Hs F3 P3 L3) as [log3 ->]
  end.
  unfold bind at 1.
  match goal with
  | |- context [CollaborationExport.get_issue_discussions
                  _ _ _ _ _ _ _ ?l] =>
      destruct (get_issue_discussions_returns endpoint fuel username
                  owner name token since_date n4 l pages4 since_datetime
                  Hs F4 P4 L4) as [log4 ->]
  end.
  by exists log4.
Qed.

Lemma X16_collaboration_export_completes_witness :
  exists log,
    (forall e,
       CollaborationExport.main team_endpoint in_insertion_order (Some e) 2
         "alice" "acme" "widgets" "token" "2024-01-01T00:00:00Z" 365
         "2024-06-01T12:00:00"
       = (CollaborationExport.Exit1 e, log))
    /\
    CollaborationExport.main team_endpoint in_insertion_order None 2 "alice"
      "acme" "widgets" "token" "2024-01-01T00:00:00Z" 365
      "2024-06-01T12:00:00"
    = (CollaborationExport.Wrote team_report, log).
Proof.
  apply (X16_collaboration_export_completes team_endpoint in_insertion_order
           2 "alice" "acme"
           "widgets" "token" "2024-01-01T00:00:00Z" 365
           "2024-06-01T12:00:00" 1704067200 the_repository 1 1 1 1
           [last_page [bobs_pr; carols_pr]] [last_page [alices_pr]]
           [last_page [alices_pr]] [last_page [old_issue]]).
  1-6: vm_compute; reflexivity.
  5-8: lia.
  - intros pr H. simpl in H. each_member H; intros review Hr;
      simpl in Hr; each_member Hr; eexists; vm_compute; reflexivity.
  - intros pr H. simpl in H. each_member H;
      (split; [eexists; vm_compute; reflexivity|]); intros c Hc;
      simpl in Hc; each_member Hc; eexists; vm_compute; reflexivity.
  - intros pr H. simpl in H. each_member H;
      (split; [eexists; vm_compute; reflexivity|]); intros c Hc;
      simpl in Hc; each_member Hc; eexists; vm_compute; reflexivity.
  - intros pr H. simpl in H. each_member H;
      (split; [eexists; vm_compute; reflexivity|]); intros c Hc;
      simpl in Hc; each_member Hc; eexists; vm_compute; reflexivity.
Defined.
